(** * SkillCapital chatbot: keyword routing, course matching, profile prompts

    A shallow embedding of the deterministic parts of the repository:

    - [chatbot.py]: [normalize_input], [detect_greeting], [get_smart_answer],
      [load_course_curriculum], [collect_user_info] and the [/api/chat]
      handler [chat];
    - [skillcapital_chatbot_api.py]: [load_course_curriculum],
      [find_relevant_courses] and the [/smart-chatbot] handler;
    - [app.py] and [bot.py]: the [/chat] handlers.

    Python [str] values are modelled by [string], the UTF-8 bytes of the
    text.  Values read from the curriculum file are modelled by [json].  A
    raised exception is [None] in the [option] monad; handlers record the
    functions they call in a log.

    The code is read twice.  The modules [Str] to [Initialize] read it with
    the case mapping, the white space and the title casing of ASCII text:
    they are the code on text of ASCII characters, and closed examples are
    evaluated with them.  The module [Code] reads it with [str.lower],
    [str.strip], [str.title] and [len] as parameters: what is proved there
    holds for text of any characters. *)

From Stdlib Require Import String Ascii List Bool Arith Lia ZArith.
Import ListNotations.
Open Scope string_scope.
Open Scope nat_scope.
Open Scope bool_scope.

(** ** Python string operations *)

Module Str.

(** [c.lower()] on an ASCII character. *)
Definition lower_ascii (c : ascii) : ascii :=
  let n := nat_of_ascii c in
  if (65 <=? n) && (n <=? 90) then ascii_of_nat (n + 32) else c.

(** [c.upper()] on an ASCII character. *)
Definition upper_ascii (c : ascii) : ascii :=
  let n := nat_of_ascii c in
  if (97 <=? n) && (n <=? 122) then ascii_of_nat (n - 32) else c.

Definition is_alpha (c : ascii) : bool :=
  let n := nat_of_ascii c in
  ((65 <=? n) && (n <=? 90)) || ((97 <=? n) && (n <=? 122)).

(** [c.isspace()]: tab, line feed, vertical tab, form feed, carriage
    return, the four separators 28..31 and the space. *)
Definition is_space (c : ascii) : bool :=
  let n := nat_of_ascii c in
  ((9 <=? n) && (n <=? 13)) || ((28 <=? n) && (n <=? 31)) || (n =? 32).

(** [s.lower()] on ASCII text: the letters A to Z change, every other
    byte is kept. *)
Fixpoint lower (s : string) : string :=
  match s with
  | EmptyString => EmptyString
  | String c s' => String (lower_ascii c) (lower s')
  end.

(** [bool(s)]: a string is truthy when it is not empty. *)
Definition truthy (s : string) : bool :=
  match s with EmptyString => false | String _ _ => true end.

Fixpoint lstrip (s : string) : string :=
  match s with
  | EmptyString => EmptyString
  | String c s' => if is_space c then lstrip s' else s
  end.

Fixpoint rstrip (s : string) : string :=
  match s with
  | EmptyString => EmptyString
  | String c s' =>
      let r := rstrip s' in
      if is_space c && negb (truthy r) then EmptyString else String c r
  end.

(** [s.strip()] on ASCII text: the white space is that of [is_space]. *)
Definition strip (s : string) : string := rstrip (lstrip s).

(** [p in s] for two strings: [p] occurs in [s] as a substring. *)
Fixpoint contains (p s : string) : bool :=
  prefix p s ||
  match s with
  | EmptyString => false
  | String _ s' => contains p s'
  end.

(** Number of positions of [s] at which [p] starts. *)
Fixpoint occurrences (p s : string) : nat :=
  (if prefix p s then 1 else 0) +
  match s with
  | EmptyString => 0
  | String _ s' => occurrences p s'
  end.

(** [s.replace(old, new)] for a non-empty [old]: scan from the left and
    replace every non-overlapping occurrence.  [skip] counts the characters
    of a match that are still to be passed over. *)
Fixpoint replace_from (skip : nat) (old new s : string) : string :=
  match s with
  | EmptyString => EmptyString
  | String c s' =>
      match skip with
      | S k => replace_from k old new s'
      | O =>
          if prefix old s
          then (new ++ replace_from (String.length old - 1) old new s')%string
          else String c (replace_from 0 old new s')
      end
  end.

(** With an empty [old], Python puts [new] before every character and at
    the end. *)
Fixpoint intersperse (new s : string) : string :=
  match s with
  | EmptyString => new
  | String c s' => (new ++ String c (intersperse new s'))%string
  end.

Definition replace (old new s : string) : string :=
  if truthy old then replace_from 0 old new s else intersperse new s.

(** [s.title()] on ASCII text: a letter is upper-cased when the character
    before it is not a letter and lower-cased otherwise. *)
Fixpoint title_from (prev_cased : bool) (s : string) : string :=
  match s with
  | EmptyString => EmptyString
  | String c s' =>
      String (if prev_cased then lower_ascii c else upper_ascii c)
             (title_from (is_alpha c) s')
  end.

Definition title (s : string) : string := title_from false s.

(** [sep.join(l)] *)
Definition join (sep : string) (l : list string) : string := String.concat sep l.

(** [any(k in s for k in keywords)] *)
Definition any_in (keywords : list string) (s : string) : bool :=
  existsb (fun k => contains k s) keywords.

(** [p] is not empty and neither starts nor ends with white space. *)
Fixpoint ends_solid (p : string) : bool :=
  match p with
  | EmptyString => false
  | String c EmptyString => negb (is_space c)
  | String _ p' => ends_solid p'
  end.

Definition starts_solid (p : string) : bool :=
  match p with
  | EmptyString => false
  | String c _ => negb (is_space c)
  end.

Definition solid (p : string) : bool := starts_solid p && ends_solid p.

End Str.

(** ** Python values read from JSON *)

Module Py.

(** The values [json.load] builds.  A dict keeps its items in insertion
    order; lookup takes the first item with the key.  Numbers are the
    integers. *)
#[warnings="-register-all"]
Inductive json : Type :=
| JNull
| JBool (b : bool)
| JNum (n : Z)
| JStr (s : string)
| JList (l : list json)
| JDict (d : list (string * json)).

(** [bool(v)] *)
Definition truthy (v : json) : bool :=
  match v with
  | JNull => false
  | JBool b => b
  | JNum n => negb (Z.eqb n 0)
  | JStr s => Str.truthy s
  | JList l => match l with [] => false | _ :: _ => true end
  | JDict d => match d with [] => false | _ :: _ => true end
  end.

Fixpoint dict_get (k : string) (d : list (string * json)) : option json :=
  match d with
  | [] => None
  | (k', v) :: d' => if String.eqb k k' then Some v else dict_get k d'
  end.

Definition is_str (k : string) (v : json) : bool :=
  match v with JStr s => String.eqb k s | _ => false end.

(** Exceptions: [None] is a raised exception. *)
Definition bind {A B} (m : option A) (f : A -> option B) : option B :=
  match m with Some a => f a | None => None end.

Notation "x <- m ;; k" := (bind m (fun x => k))
  (at level 61, m at next level, right associativity).

Fixpoint mapM {A B} (f : A -> option B) (l : list A) : option (list B) :=
  match l with
  | [] => Some []
  | a :: l' => b <- f a ;; bs <- mapM f l' ;; Some (b :: bs)
  end.

(** [k in v] for a string [k]: key of a dict, element of a list, substring
    of a string; [TypeError] on anything else. *)
Definition has (k : string) (v : json) : option bool :=
  match v with
  | JDict d => Some (match dict_get k d with Some _ => true | None => false end)
  | JList l => Some (existsb (is_str k) l)
  | JStr s => Some (Str.contains k s)
  | _ => None
  end.

(** [v[k]] for a string [k]: a dict item, [KeyError] when the key is
    absent, [TypeError] on anything that is not a dict. *)
Definition subscript (v : json) (k : string) : option json :=
  match v with
  | JDict d => dict_get k d
  | _ => None
  end.

Fixpoint chars (s : string) : list json :=
  match s with
  | EmptyString => []
  | String c s' => JStr (String c EmptyString) :: chars s'
  end.

(** [for x in v]: the elements of a list, the keys of a dict, the
    characters of a string; [TypeError] on anything else. *)
Definition iter (v : json) : option (list json) :=
  match v with
  | JList l => Some l
  | JDict d => Some (map (fun kv => JStr (fst kv)) d)
  | JStr s => Some (chars s)
  | _ => None
  end.

(** [v.items()]: [AttributeError] on anything that is not a dict. *)
Definition items (v : json) : option (list (string * json)) :=
  match v with
  | JDict d => Some d
  | _ => None
  end.

(** An item of [sep.join(...)] has to be a string; [TypeError] otherwise. *)
Definition as_str (v : json) : option string :=
  match v with
  | JStr s => Some s
  | _ => None
  end.

(** [str()] on the strings of a document; the other values do not occur in
    the fixtures. *)
Definition text_of (v : json) : string :=
  match v with
  | JStr s => s
  | _ => EmptyString
  end.

(** The curriculum file as the loader finds it. *)
Inductive file_state : Type :=
| Absent
| Unparseable
| Parsed (data : json).

End Py.

Import Py.

(** ** Handlers: responses and the log of calls *)

Module Web.

(** The body of a JSON response. *)
Inductive body : Type :=
| Response (text : string)      (* [{"response": text}] *)
| Error (text : string)         (* [{"error": text}] *)
| Failure                       (* [{"error": str(e)}] of a caught exception *)
| Payload (data : json).        (* the summary object of the crew *)

Record response : Type := { status : nat; payload : body }.

(** The functions a handler can call after it has read the message. *)
Inductive call : Type :=
| call_detect_greeting
| call_get_smart_answer
| call_load_course_curriculum
| call_get_website_data
| call_normalize_input
| call_find_relevant_courses
| call_run_chatbot_crew
| call_run_crew_chatbot_pipeline.

(** A result with the calls made to get it, oldest first. *)
Definition logged (A : Type) : Type := (A * list call)%type.

Definition ret {A} (a : A) : logged A := (a, []).

Definition tell (c : call) : logged unit := (tt, [c]).

Definition lbind {A B} (m : logged A) (f : A -> logged B) : logged B :=
  (fst (f (fst m)), snd m ++ snd (f (fst m)))%list.


(** A request body without ["message"], or with an empty one. *)
Definition no_message (message : option string) : bool :=
  match message with
  | None => true
  | Some m => negb (Str.truthy m)
  end.

(** The file cannot be loaded: it is absent or does not parse. *)
Definition unloadable (f : file_state) : bool :=
  match f with
  | Absent | Unparseable => true
  | Parsed _ => false
  end.

End Web.

Import Web.

Notation "x <~ m ;; k" := (lbind m (fun x => k))
  (at level 61, m at next level, right associativity).
Notation "m ;;; k" := (lbind m (fun _ => k))
  (at level 61, right associativity).

(** The line feed of ["\n"]. *)
Definition nl : string := String (ascii_of_nat 10) EmptyString.

(** [s * n] *)
Fixpoint repeat_string (s : string) (n : nat) : string :=
  match n with
  | O => EmptyString
  | S n' => (s ++ repeat_string s n')%string
  end.

(** A call of a function, recorded in the log. *)
Definition calling {A} (c : call) (a : A) : logged A := (a, [c]).

(** ** chatbot.py *)

Module Chatbot.

(** What the handler finds outside the process: the curriculum file next to
    the module, and the text scraped from the website ([None] when the
    request or the parsing raised). *)
Record world : Type := { curriculum_file : file_state; website : option string }.

(** [user_data], the process-wide profile. *)
Record user_data : Type :=
  { name : string; email : string; phone : string; greeted : bool }.

Definition initial_user_data : user_data :=
  {| name := EmptyString; email := EmptyString; phone := EmptyString;
     greeted := false |}.

(** No curriculum file, no network. *)
Definition offline : world := {| curriculum_file := Absent; website := None |}.

Definition get_website_data (w : world) : string :=
  match website w with
  | Some text => text
  | None => "Unable to fetch website data at this time."
  end.

(** [json.load] of the file, [None] (here [JNull]) on any exception. *)
Definition load_course_curriculum (w : world) : json :=
  match curriculum_file w with
  | Parsed data => data
  | Absent | Unparseable => JNull
  end.

Definition corrections : list (string * string) :=
  [ ("curriculam", "curriculum");
    ("trainning", "training");
    ("enrolment", "enrollment");
    ("skill capital", "skillcapital");
    ("skill-capital", "skillcapital");
    ("skill_capital", "skillcapital");
    ("how much", "price");
    ("costs", "cost");
    ("fees", "fee");
    ("hours", "duration");
    ("time", "duration");
    ("how long", "duration");
    ("sign up", "enroll");
    ("join", "enroll");
    ("i want enroll", "enroll");
    ("i want to enroll", "enroll");
    ("how to enroll", "enroll") ].

(** The loop of [normalize_input]: one [replace] per table entry, in table
    order, each on the result of the one before. *)
Definition apply_corrections (table : list (string * string)) (s : string) : string :=
  fold_left (fun normalized mc => Str.replace (fst mc) (snd mc) normalized) table s.

Definition normalize_input (user_input : string) : string :=
  apply_corrections corrections (Str.lower user_input).

Definition skillcapital_keywords : list string :=
  [ "skillcapital"; "skill capital"; "skill-capital"; "skill_capital";
    "course"; "courses"; "curriculum"; "curriculam"; "curriculam";
    "learn"; "learning"; "training"; "trainning";
    "enroll"; "enrollment"; "enrolment"; "register"; "registration"; "sign up"; "join";
    "price"; "pricing"; "cost"; "costs"; "fee"; "fees";
    "duration"; "time"; "hours"; "how long";
    "python"; "cloud"; "devops"; "ai"; "machine learning";
    "programming"; "coding"; "development" ].

Definition curriculum_words : list string :=
  [ "content"; "curriculum"; "curriculam"; "modules"; "syllabus"; "topics" ].
Definition price_words : list string := [ "price"; "cost"; "fee"; "how much" ].
Definition duration_words : list string := [ "duration"; "time"; "hours"; "how long" ].
Definition enroll_words : list string := [ "enroll"; "join"; "register"; "sign up" ].
Definition python_words : list string := [ "python" ].
Definition course_words : list string := [ "course"; "learn"; "training" ].
Definition exit_words : list string := [ "exit"; "quit"; "bye"; "goodbye" ].

Definition greetings : list string :=
  [ "hi"; "hello"; "hey"; "good morning"; "good afternoon";
    "good evening"; "morning"; "afternoon"; "evening";
    "hii"; "helloo"; "heyy"; "hiii"; "hellooo" ].

Definition detect_greeting (user_input : string) : bool :=
  let user_input_lower := Str.strip (Str.lower user_input) in
  Str.any_in greetings user_input_lower.

Definition off_topic_answer : string :=
  "I'm here to help with SkillCapital information! For general questions, I can assist you. What would you like to know about our courses, pricing, or enrollment process?".

Definition fallback_answer : string :=
  "I'm here to help! For SkillCapital questions, visit skillcapital.ai. For other questions, I can assist you with general information.".

Section Answers.

(** The builtin [str()] that an f-string applies to a value. *)
Variable py_str : json -> string.

(** The banner name, from [env_config]. *)
Variable CHATBOT_NAME : string.

(** The lines of one module: its heading, then one bullet per topic. *)
Definition module_lines (module : json) : option (list string) :=
  m <- subscript module "module" ;;
  d <- subscript module "duration" ;;
  ts <- subscript module "topics" ;;
  topics <- iter ts ;;
  Some (("📚 " ++ py_str m ++ " (" ++ py_str d ++ ")")%string
        :: map (fun topic => ("  • " ++ py_str topic)%string) topics).

(** [curriculum_data and 'courses' in curriculum_data] *)
Definition has_courses (curriculum_data : json) : option bool :=
  if truthy curriculum_data then has "courses" curriculum_data else Some false.

(** The block repeated for each of the four courses: the module listing of
    the course stored under [key], or the one-line description. *)
Definition course_modules (curriculum_data : json) (key heading description : string)
  : option string :=
  c <- has_courses curriculum_data ;;
  present <- (if c then cs <- subscript curriculum_data "courses" ;; has key cs
              else Some false) ;;
  if present then
    cs <- subscript curriculum_data "courses" ;;
    course <- subscript cs key ;;
    cur <- subscript course "curriculum" ;;
    modules <- iter cur ;;
    modules_info <- mapM module_lines modules ;;
    Some (heading ++ nl ++ Str.join nl (concat modules_info))%string
  else Some description.

Definition overview_line (course : json) : option string :=
  cur <- subscript course "curriculum" ;;
  ms <- iter cur ;;
  values <- mapM (fun module => subscript module "module") ms ;;
  n <- subscript course "name" ;;
  modules <- mapM as_str values ;;
  Some ("📚 " ++ py_str n ++ ": " ++ Str.join ", " modules)%string.

Definition curriculum_overview (curriculum_data : json) : option string :=
  c <- has_courses curriculum_data ;;
  if c then
    cs <- subscript curriculum_data "courses" ;;
    its <- items cs ;;
    courses_info <- mapM (fun kv => overview_line (snd kv)) its ;;
    Some ("Available Courses and Modules:" ++ nl ++ Str.join nl courses_info)%string
  else Some "Python: 6 modules, Cloud: 5 modules, DevOps: 6 modules, AI/ML: 5 modules".

Definition curriculum_answer (curriculum_data : json) (user_input_lower : string)
  : option string :=
  if Str.contains "python" user_input_lower then
    course_modules curriculum_data "python" "Python Programming Course Modules:"
      "Python Programming: Python Fundamentals, Data Structures, OOP, File Handling, Advanced Python, Practical Projects"
  else if Str.contains "cloud" user_input_lower then
    course_modules curriculum_data "cloud_computing" "Cloud Computing Course Modules:"
      "Cloud Computing: Cloud Fundamentals, AWS Services, Azure Services, GCP, DevOps in Cloud"
  else if Str.contains "devops" user_input_lower then
    course_modules curriculum_data "devops" "DevOps Engineering Course Modules:"
      "DevOps Engineering: DevOps Fundamentals, CI/CD, Containerization, Orchestration, Infrastructure as Code, Monitoring"
  else if Str.contains "ai" user_input_lower
          || Str.contains "machine learning" user_input_lower then
    course_modules curriculum_data "ai_ml" "AI and Machine Learning Course Modules:"
      "AI and Machine Learning: AI Fundamentals, Supervised Learning, Unsupervised Learning, Deep Learning, AI Tools"
  else curriculum_overview curriculum_data.

(** The body of the [try] of [get_smart_answer], after the three calls. *)
Definition smart_answer (curriculum_data : json) (user_input_lower : string)
  : option string :=
  if Str.any_in skillcapital_keywords user_input_lower then
    if Str.any_in curriculum_words user_input_lower then
      curriculum_answer curriculum_data user_input_lower
    else if Str.any_in price_words user_input_lower then Some "999/-"
    else if Str.any_in duration_words user_input_lower then Some "30 hours"
    else if Str.any_in enroll_words user_input_lower then Some "https://www.skillcapital.ai"
    else if Str.any_in python_words user_input_lower then Some "999/-"
    else if Str.any_in course_words user_input_lower then Some "Python, Cloud, DevOps"
    else Some "skillcapital.ai"
  else Some off_topic_answer.

Definition get_smart_answer (w : world) (user_input : string) : logged string :=
  curriculum_data <~ calling call_load_course_curriculum (load_course_curriculum w) ;;
  website_data <~ calling call_get_website_data (get_website_data w) ;;
  user_input_lower <~ calling call_normalize_input (normalize_input user_input) ;;
  ret (match smart_answer curriculum_data user_input_lower with
       | Some answer => answer
       | None => fallback_answer
       end).

Definition exit_response (ud : user_data) : response :=
  {| status := 200;
     payload := Response ("Thank you " ++ name ud ++ "! 'Happy Learning'!") |}.

Definition greeting_response (ud : user_data) : response :=
  {| status := 200;
     payload := Response ("Hello " ++ name ud ++ "! How can I assist you today?") |}.

(** [POST /api/chat].  The request body is a JSON object whose ["message"],
    when present, is a string; with such a body nothing in the [try]
    raises, so the 500 of the [except] is not reached. *)
Definition chat (w : world) (ud : user_data) (message : option string)
  : logged response :=
  let user_input :=
    Str.strip (match message with Some m => m | None => EmptyString end) in
  if negb (Str.truthy user_input) then
    ret {| status := 400; payload := Response "Please enter a valid message." |}
  else if Str.any_in exit_words (Str.lower user_input) then
    ret (exit_response ud)
  else
    greeting <~ calling call_detect_greeting (detect_greeting user_input) ;;
    if greeting then ret (greeting_response ud)
    else
      answer <~ (tell call_get_smart_answer ;;; get_smart_answer w user_input) ;;
      ret {| status := 200; payload := Response answer |}.

(** *** Profile prompts

    The console of [collect_user_info]: what [print] and [input] show, and
    the lines standard input still holds.  [input] on an exhausted input
    raises [EOFError], which leaves the routine. *)
Inductive io : Type :=
| Printed (text : string)
| Asked (prompt : string).

Inductive outcome : Type :=
| Returned
| Raised_EOFError.

Record console : Type :=
  { data : user_data; stdin : list string; shown : list io }.

Definition name_prompt : string := "What's your name? ".
Definition email_prompt : string := "What's your email address? ".
Definition phone_prompt : string := "What's your phone number? ".

Definition set_name (ud : user_data) (v : string) : user_data :=
  {| name := v; email := email ud; phone := phone ud; greeted := greeted ud |}.
Definition set_email (ud : user_data) (v : string) : user_data :=
  {| name := name ud; email := v; phone := phone ud; greeted := greeted ud |}.
Definition set_phone (ud : user_data) (v : string) : user_data :=
  {| name := name ud; email := email ud; phone := v; greeted := greeted ud |}.

(** [while not user_data['name']: ...] *)
Fixpoint name_loop (ud : user_data) (out : list io) (lines : list string)
  : outcome * console :=
  if Str.truthy (name ud) then
    (Returned, {| data := ud; stdin := lines; shown := out |})
  else
    match lines with
    | [] => (Raised_EOFError,
             {| data := ud; stdin := []; shown := out ++ [Asked name_prompt] |})
    | line :: rest =>
        let n := Str.strip line in
        if Str.truthy n then
          name_loop (set_name ud (Str.title n)) (out ++ [Asked name_prompt]) rest
        else
          name_loop ud
            (out ++ [Asked name_prompt; Printed "Please enter your name."]) rest
    end.

(** [while not user_data['email']: ...] *)
Fixpoint email_loop (ud : user_data) (out : list io) (lines : list string)
  : outcome * console :=
  if Str.truthy (email ud) then
    (Returned, {| data := ud; stdin := lines; shown := out |})
  else
    match lines with
    | [] => (Raised_EOFError,
             {| data := ud; stdin := []; shown := out ++ [Asked email_prompt] |})
    | line :: rest =>
        let e := Str.strip line in
        if Str.truthy e && Str.contains "@" e then
          email_loop (set_email ud e) (out ++ [Asked email_prompt]) rest
        else
          email_loop ud
            (out ++ [Asked email_prompt;
                     Printed "Please enter a valid email address."]) rest
    end.

(** [while not user_data['phone']: ...] *)
Fixpoint phone_loop (ud : user_data) (out : list io) (lines : list string)
  : outcome * console :=
  if Str.truthy (phone ud) then
    (Returned, {| data := ud; stdin := lines; shown := out |})
  else
    match lines with
    | [] => (Raised_EOFError,
             {| data := ud; stdin := []; shown := out ++ [Asked phone_prompt] |})
    | line :: rest =>
        let p := Str.strip line in
        if Str.truthy p && (10 <=? String.length p) then
          phone_loop (set_phone ud p) (out ++ [Asked phone_prompt]) rest
        else
          phone_loop ud
            (out ++ [Asked phone_prompt;
                     Printed "Please enter a valid phone number."]) rest
    end.

Definition rule : string := repeat_string "=" 60.

Definition collect_user_info (ud : user_data) (lines : list string)
  : outcome * console :=
  let banner :=
    [ Printed ("🤖 " ++ CHATBOT_NAME);
      Printed "💬 Welcome to SkillCapital! Let me get to know you better.";
      Printed rule ] in
  match name_loop ud banner lines with
  | (Raised_EOFError, c) => (Raised_EOFError, c)
  | (Returned, c1) =>
      match email_loop (data c1) (shown c1) (stdin c1) with
      | (Raised_EOFError, c) => (Raised_EOFError, c)
      | (Returned, c2) =>
          match phone_loop (data c2) (shown c2) (stdin c2) with
          | (Raised_EOFError, c) => (Raised_EOFError, c)
          | (Returned, c3) =>
              (Returned,
               {| data := data c3; stdin := stdin c3;
                  shown := shown c3 ++
                    [ Printed (nl ++ "Thank you, " ++ name (data c3)
                               ++ "! How can I assist you today?");
                      Printed rule ] |})
          end
      end
  end.

End Answers.

End Chatbot.

(** ** skillcapital_chatbot_api.py *)

Module Api.

(** Outside the process: the curriculum file, the scraped website text and
    the crew of agents behind [run_chatbot_crew] ([None] when it raises). *)
Record world : Type :=
  { curriculum_file : file_state;
    website : option string;
    run_chatbot_crew : string -> string -> list json -> option json }.

Definition get_website_data (w : world) : string :=
  match website w with
  | Some text => text
  | None => "No website data available."
  end.

(** [json.load] of the file, [{}] on any exception. *)
Definition load_course_curriculum (w : world) : json :=
  match curriculum_file w with
  | Parsed data => data
  | Absent | Unparseable => JDict []
  end.

(** The list [courses] that [find_relevant_courses] walks. *)
Definition courses_of (curriculum_data : json) : list json :=
  match curriculum_data with
  | JDict d =>
      match dict_get "courses" d with
      | Some (JDict raw_courses) => map snd raw_courses
      | Some (JList raw_courses) => raw_courses
      | _ => []
      end
  | _ => []
  end.

(** The lower-cased name of a course, the empty string being the default
    of [course.get]: [AttributeError] when the name is not a string. *)
Definition course_name (d : list (string * json)) : option string :=
  match dict_get "name" d with
  | None => Some EmptyString
  | Some (JStr s) => Some (Str.lower s)
  | Some _ => None
  end.

(** The [for course in courses] loop, [matched] being the list built so
    far. *)
Fixpoint match_loop (q : string) (courses matched : list json)
  : option (list json) :=
  match courses with
  | [] => Some matched
  | course :: rest =>
      match course with
      | JDict d =>
          n <- course_name d ;;
          if Str.truthy n && Str.contains n q
          then match_loop q rest (matched ++ [course])
          else match_loop q rest matched
      | _ => match_loop q rest matched
      end
  end.

Definition find_relevant_courses (question : string) (curriculum_data : json)
  : option (list json) :=
  let q := Str.lower question in
  let courses := courses_of curriculum_data in
  matched <- match_loop q courses [] ;;
  Some (match matched with [] => courses | _ :: _ => matched end).

Section Handler.

(** [json.dumps(_, indent=2)] *)
Variable json_dumps : list json -> string.

(** [POST /smart-chatbot], on a JSON object whose ["message"], when
    present, is a string. *)
Definition smart_chatbot (w : world) (message : option string) : logged response :=
  let user_input := match message with Some m => m | None => EmptyString end in
  if negb (Str.truthy user_input) then
    ret {| status := 400; payload := Error "Message is required" |}
  else
    website_info <~ calling call_get_website_data (get_website_data w) ;;
    curriculum_data <~ calling call_load_course_curriculum (load_course_curriculum w) ;;
    found <~ calling call_find_relevant_courses
               (find_relevant_courses user_input curriculum_data) ;;
    match found with
    | None => ret {| status := 500; payload := Failure |}
    | Some matched_courses =>
        let curriculum_text := json_dumps matched_courses in
        let context :=
          (website_info ++ nl ++ nl ++ "Relevant Courses:" ++ nl ++ curriculum_text)%string in
        r <~ calling call_run_chatbot_crew
               (run_chatbot_crew w user_input context matched_courses) ;;
        match r with
        | Some summary => ret {| status := 200; payload := Payload summary |}
        | None => ret {| status := 500; payload := Failure |}
        end
    end.

End Handler.

End Api.

(** ** app.py and bot.py

    The two [/chat] handlers differ in their agents only; the pipeline
    behind [run_crew_chatbot_pipeline] answers with a text or raises. *)

Module App.

Definition chat (run_crew_chatbot_pipeline : string -> option string)
    (message : option string) : logged response :=
  let message := Str.strip (match message with Some m => m | None => EmptyString end) in
  if negb (Str.truthy message) then
    ret {| status := 400; payload := Error "Message is required" |}
  else
    r <~ calling call_run_crew_chatbot_pipeline (run_crew_chatbot_pipeline message) ;;
    match r with
    | Some text => ret {| status := 200; payload := Response text |}
    | None => ret {| status := 500; payload := Failure |}
    end.

End App.

Module Bot.

Definition chat (run_crew_chatbot_pipeline : string -> option string)
    (message : option string) : logged response :=
  let message := Str.strip (match message with Some m => m | None => EmptyString end) in
  if negb (Str.truthy message) then
    ret {| status := 400; payload := Error "Message is required" |}
  else
    r <~ calling call_run_crew_chatbot_pipeline (run_crew_chatbot_pipeline message) ;;
    match r with
    | Some text => ret {| status := 200; payload := Response text |}
    | None => ret {| status := 500; payload := Failure |}
    end.

End Bot.

(** ** Intents

    The branch of [chat] and [get_smart_answer] a message takes, named with
    the intents of the specification, and the answer each branch gives. *)

Module Routing.

Import Chatbot.

Inductive course : Type := Python | CloudComputing | DevOps | AiMl.

Inductive intent : Type :=
| Invalid                       (* empty message *)
| Exit
| Greeting
| OffTopic
| CurriculumDetail (c : course)
| CurriculumOverview
| Price
| Duration
| Enrollment
| PythonMention                 (* "python" and none of the sets above *)
| CourseList                    (* "course", "learn" or "training" *)
| Generic.

(** The sub-intent of an in-domain normalized message: curriculum, price,
    duration, enrollment in this order, then the two further keyword tests
    of the code. *)
Definition sub_intent (n : string) : intent :=
  if Str.any_in curriculum_words n then
    if Str.contains "python" n then CurriculumDetail Python
    else if Str.contains "cloud" n then CurriculumDetail CloudComputing
    else if Str.contains "devops" n then CurriculumDetail DevOps
    else if Str.contains "ai" n || Str.contains "machine learning" n
    then CurriculumDetail AiMl
    else CurriculumOverview
  else if Str.any_in price_words n then Price
  else if Str.any_in duration_words n then Duration
  else if Str.any_in enroll_words n then Enrollment
  else if Str.any_in python_words n then PythonMention
  else if Str.any_in course_words n then CourseList
  else Generic.

(** Exit first, greeting second, then the domain test. *)
Definition classify (message : string) : intent :=
  let u := Str.strip message in
  if negb (Str.truthy u) then Invalid
  else if Str.any_in exit_words (Str.lower u) then Exit
  else if Str.any_in greetings (Str.strip (Str.lower u)) then Greeting
  else
    let n := normalize_input u in
    if Str.any_in skillcapital_keywords n then sub_intent n else OffTopic.


Definition ok (text : string) : response :=
  {| status := 200; payload := Response text |}.

Section Assemble.

Variable py_str : json -> string.

Definition detail (curriculum_data : json) (c : course) : option string :=
  match c with
  | Python =>
      course_modules py_str curriculum_data "python" "Python Programming Course Modules:"
        "Python Programming: Python Fundamentals, Data Structures, OOP, File Handling, Advanced Python, Practical Projects"
  | CloudComputing =>
      course_modules py_str curriculum_data "cloud_computing" "Cloud Computing Course Modules:"
        "Cloud Computing: Cloud Fundamentals, AWS Services, Azure Services, GCP, DevOps in Cloud"
  | DevOps =>
      course_modules py_str curriculum_data "devops" "DevOps Engineering Course Modules:"
        "DevOps Engineering: DevOps Fundamentals, CI/CD, Containerization, Orchestration, Infrastructure as Code, Monitoring"
  | AiMl =>
      course_modules py_str curriculum_data "ai_ml" "AI and Machine Learning Course Modules:"
        "AI and Machine Learning: AI Fundamentals, Supervised Learning, Unsupervised Learning, Deep Learning, AI Tools"
  end.

Definition or_fallback (answer : option string) : string :=
  match answer with Some a => a | None => fallback_answer end.

(** The response of [/api/chat] to a message with the given intent. *)
Definition assemble (w : world) (ud : user_data) (i : intent) : response :=
  match i with
  | Invalid => {| status := 400; payload := Response "Please enter a valid message." |}
  | Exit => exit_response ud
  | Greeting => greeting_response ud
  | OffTopic => ok off_topic_answer
  | CurriculumDetail c => ok (or_fallback (detail (load_course_curriculum w) c))
  | CurriculumOverview =>
      ok (or_fallback (curriculum_overview py_str (load_course_curriculum w)))
  | Price => ok "999/-"
  | Duration => ok "30 hours"
  | Enrollment => ok "https://www.skillcapital.ai"
  | PythonMention => ok "999/-"
  | CourseList => ok "Python, Cloud, DevOps"
  | Generic => ok "skillcapital.ai"
  end.

End Assemble.

(** Whether the functions behind the classifier, the matcher and the
    assembler were reached. *)
Definition reaches_smart_answer (log : list call) : bool :=
  existsb (fun c => match c with
                    | call_get_smart_answer | call_load_course_curriculum
                    | call_get_website_data | call_normalize_input
                    | call_find_relevant_courses | call_run_chatbot_crew
                    | call_run_crew_chatbot_pipeline => true
                    | call_detect_greeting => false
                    end) log.

End Routing.

(** ** Curriculum documents

    The documented shape of the file: [{"courses": {key: {"name": ...,
    "curriculum": [{"module": ..., "duration": ..., "topics": [...]}]}}}]. *)

Module Curriculum.

Record module_entry : Type :=
  { module_name : string; module_duration : string; topics : list string }.

Definition module_json (m : module_entry) : json :=
  JDict [ ("module", JStr (module_name m));
          ("duration", JStr (module_duration m));
          ("topics", JList (map JStr (topics m))) ].

Definition course_json (display_name : string) (modules : list module_entry) : json :=
  JDict [ ("name", JStr display_name);
          ("curriculum", JList (map module_json modules)) ].

(** The lines of a module in a listing. *)
Definition module_text (m : module_entry) : list string :=
  ("📚 " ++ module_name m ++ " (" ++ module_duration m ++ ")")%string
  :: map (fun t => ("  • " ++ t)%string) (topics m).

Definition python_fundamentals : module_entry :=
  {| module_name := "Python Fundamentals"; module_duration := "5 hours";
     topics := ["Variables"; "Loops"] |}.

(** The fixture: one course "Python" with this one module. *)
Definition python_only : json :=
  JDict [("courses",
          JDict [("python", course_json "Python" [python_fundamentals])])].

End Curriculum.

(** ** Normalization: variants left in a string *)

Module Variants.

Import Chatbot.

(** Occurrences of table variants in [s], over the whole table. *)
Definition variant_occurrences (s : string) : nat :=
  list_sum (map (fun mc => Str.occurrences (fst mc) s) corrections).

End Variants.

(** ** Course matching, as the specification words it *)

Module Matching.

(** A course whose lower-cased display name occurs in [q]. *)
Definition named_in (q : string) (course : json) : bool :=
  match course with
  | JDict d =>
      match dict_get "name" d with
      | Some (JStr s) => Str.contains (Str.lower s) q
      | _ => false
      end
  | _ => false
  end.

(** The same with the guard of the code: the name is not empty. *)
Definition mentioned_in (q : string) (course : json) : bool :=
  match course with
  | JDict d =>
      match dict_get "name" d with
      | Some (JStr s) => Str.truthy (Str.lower s) && Str.contains (Str.lower s) q
      | _ => false
      end
  | _ => false
  end.

(** A course on which taking the lower-cased name does not raise. *)
Definition well_named (course : json) : bool :=
  match course with
  | JDict d =>
      match dict_get "name" d with
      | None | Some (JStr _) => true
      | Some _ => false
      end
  | _ => true
  end.

Definition or_all (courses matched : list json) : list json :=
  match matched with [] => courses | _ :: _ => matched end.

(** A curriculum with a course without a name and the course "Python". *)
Definition unnamed_course : json := JDict [("name", JStr EmptyString)].
Definition python_course : json := JDict [("name", JStr "Python")].
Definition two_courses : json :=
  JDict [("courses", JList [unnamed_course; python_course])].

End Matching.

(** ** Profiles the process can hold *)

Module Profile.

Import Chatbot.

Section Reach.

Variable CHATBOT_NAME : string.

(** The profile starts empty and only [collect_user_info] writes it,
    whether the routine returns or is left by [EOFError]. *)
Inductive reachable : user_data -> Prop :=
| reach_initial : reachable initial_user_data
| reach_collect : forall ud lines r c,
    reachable ud ->
    collect_user_info CHATBOT_NAME ud lines = (r, c) ->
    reachable (data c).

End Reach.

(** The prompts among what the console showed, oldest first. *)
Fixpoint prompts (out : list io) : list string :=
  match out with
  | [] => []
  | Asked p :: out' => p :: prompts out'
  | Printed _ :: out' => prompts out'
  end.

Definition valid_name (s : string) : bool := Str.truthy s.
Definition valid_email (s : string) : bool := Str.contains "@" s.
Definition valid_phone (s : string) : bool := 10 <=? String.length s.

(** A profile whose filled fields passed the checks of the prompts. *)
Definition well_formed (ud : user_data) : Prop :=
  (Str.truthy (email ud) = true -> valid_email (email ud) = true) /\
  (Str.truthy (phone ud) = true -> valid_phone (phone ud) = true).

(** From [ud] to [ud']: the email and the phone are the ones of [ud] or
    passed the checks. *)
Definition kept_or_checked (ud ud' : user_data) : Prop :=
  (email ud' = email ud \/ valid_email (email ud') = true) /\
  (phone ud' = phone ud \/ valid_phone (phone ud') = true).

(** What each loop stores for a stripped answer, [None] when it rejects
    the answer. *)
Definition accept_name (n : string) : option string :=
  if Str.truthy n then Some (Str.title n) else None.
Definition accept_email (e : string) : option string :=
  if Str.truthy e && Str.contains "@" e then Some e else None.
Definition accept_phone (p : string) : option string :=
  if Str.truthy p && (10 <=? String.length p) then Some p else None.

Section FieldLoop.

(** The shape the three loops share: the field read and written, the
    prompt, the complaint and the check. *)
Variable get : user_data -> string.
Variable set : user_data -> string -> user_data.
Variable prompt complaint : string.
Variable accept : string -> option string.

Fixpoint field_loop (ud : user_data) (out : list io) (lines : list string)
  : outcome * console :=
  if Str.truthy (get ud) then
    (Returned, {| data := ud; stdin := lines; shown := out |})
  else
    match lines with
    | [] => (Raised_EOFError,
             {| data := ud; stdin := []; shown := out ++ [Asked prompt] |})
    | line :: rest =>
        match accept (Str.strip line) with
        | Some v => field_loop (set ud v) (out ++ [Asked prompt]) rest
        | None => field_loop ud (out ++ [Asked prompt; Printed complaint]) rest
        end
    end.

End FieldLoop.

(** [n] rejected answers to each prompt, each followed by an accepted one. *)
Definition stubborn_lines (n : nat) : list string :=
  (repeat " " n ++ ["ann lee"] ++ repeat "ann" n ++ ["ann@example.org"]
   ++ repeat "12345" n ++ ["0123456789"])%list.

End Profile.

(** ** The course blocks of [get_smart_answer], by course *)

Module Blocks.

Import Chatbot Routing.

(** The key under which the block of a course looks it up. *)
Definition course_key (c : course) : string :=
  match c with
  | Python => "python"
  | CloudComputing => "cloud_computing"
  | DevOps => "devops"
  | AiMl => "ai_ml"
  end.

(** The one-line description the block falls back to. *)
Definition description (c : course) : string :=
  match c with
  | Python =>
      "Python Programming: Python Fundamentals, Data Structures, OOP, File Handling, Advanced Python, Practical Projects"
  | CloudComputing =>
      "Cloud Computing: Cloud Fundamentals, AWS Services, Azure Services, GCP, DevOps in Cloud"
  | DevOps =>
      "DevOps Engineering: DevOps Fundamentals, CI/CD, Containerization, Orchestration, Infrastructure as Code, Monitoring"
  | AiMl =>
      "AI and Machine Learning: AI Fundamentals, Supervised Learning, Unsupervised Learning, Deep Learning, AI Tools"
  end.

Definition overview_default : string :=
  "Python: 6 modules, Cloud: 5 modules, DevOps: 6 modules, AI/ML: 5 modules".

(** The loaded data has no mapping of courses: nothing was loaded, or the
    document is a dict without ["courses"]. *)
Definition no_courses (curriculum_data : json) : bool :=
  match curriculum_data with
  | JNull => true
  | JDict d => match dict_get "courses" d with None => true | Some _ => false end
  | _ => false
  end.

(** The loaded data has no entry for [key]: no mapping of courses, or a
    mapping without the key. *)
Definition no_entry (curriculum_data : json) (key : string) : bool :=
  match curriculum_data with
  | JNull => true
  | JDict d =>
      match dict_get "courses" d with
      | None => true
      | Some (JDict cs) =>
          match dict_get key cs with None => true | Some _ => false end
      | Some _ => false
      end
  | _ => false
  end.

(** A curriculum intent: the only ones that read the loaded data. *)
Definition reads_curriculum (i : intent) : bool :=
  match i with
  | CurriculumDetail _ | CurriculumOverview => true
  | _ => false
  end.

(** The mapping of courses of a document in the documented shape: key,
    display name and modules of each course, in stored order. *)
Definition catalogue_json
    (entries : list (string * (string * list Curriculum.module_entry))) : json :=
  JDict (map (fun e => (fst e, Curriculum.course_json (fst (snd e)) (snd (snd e))))
             entries).

(** The line of a course in the overview. *)
Definition overview_text (e : string * (string * list Curriculum.module_entry))
  : string :=
  ("📚 " ++ fst (snd e) ++ ": "
   ++ Str.join ", " (map Curriculum.module_name (snd (snd e))))%string.

(** The greeting and exit words that are not already covered by a shorter
    word of their list. *)
Definition short_greetings : list string :=
  [ "hi"; "hello"; "hey"; "morning"; "afternoon"; "evening" ].
Definition short_exit_words : list string := [ "exit"; "quit"; "bye" ].

End Blocks.

(** ** The summary of a crew run ([skillcapital_chatbot_api.py]) *)

Module Crew.

(** [c.get(k, "N/A")] *)
Definition get_or_na (k : string) (c : list (string * json)) : json :=
  match dict_get k c with
  | Some v => v
  | None => JStr "N/A"
  end.

Definition clean_course (c : list (string * json)) : json :=
  JDict [ ("name", get_or_na "name" c);
          ("duration", get_or_na "duration" c);
          ("modules", get_or_na "modules" c);
          ("outcome", get_or_na "outcome" c) ].

(** The [for i, c in enumerate(matched_courses)] loop, [cleaned_courses]
    being the list built so far. *)
Fixpoint clean_loop (matched_courses cleaned_courses : list json) : list json :=
  match matched_courses with
  | [] => cleaned_courses
  | JDict c :: rest => clean_loop rest (cleaned_courses ++ [clean_course c])
  | _ :: rest => clean_loop rest cleaned_courses
  end.

(** What the three tasks hold after the run: the text of each output,
    [None] for a task without output. *)
Record outputs : Type :=
  { course_expert : option string;
    pricing_assistant : option string;
    summary_generator : option string }.

(** [str(task.output) if task.output else default] *)
Definition output_or (output : option string) (default : string) : json :=
  match output with
  | Some text => JStr text
  | None => JStr default
  end.

Definition agent_entry (agent : string) (response : json) : json :=
  JDict [ ("agent", JStr agent); ("response", response) ].

Definition summarize_response (user_question : string)
    (matched_courses : list json) (tasks : outputs) : json :=
  let cleaned_courses := clean_loop matched_courses [] in
  JDict
    [ ("title", JStr "🎓 SkillCapital Smart Assistant");
      ("question", JStr user_question);
      ("matched_courses", JList cleaned_courses);
      ("agents",
       JList
         [ agent_entry "Course Expert"
             (output_or (course_expert tasks) "No course expert output.");
           agent_entry "Pricing Assistant"
             (output_or (pricing_assistant tasks) "No pricing output.");
           agent_entry "Summary Generator"
             (output_or (summary_generator tasks) "No summary output.") ]);
      ("final_summary",
       output_or (summary_generator tasks) "Summary not available.") ].

(** An entry of the summary: the four keys, in this order. *)
Definition is_clean (c : json) : bool :=
  match c with
  | JDict [ (k1, _); (k2, _); (k3, _); (k4, _) ] =>
      String.eqb k1 "name" && String.eqb k2 "duration"
      && String.eqb k3 "modules" && String.eqb k4 "outcome"
  | _ => false
  end.

Definition is_dict (c : json) : bool :=
  match c with JDict _ => true | _ => false end.

(** What the loop appends for a course that is a dict. *)
Definition clean_json (c : json) : json :=
  match c with JDict d => clean_course d | _ => c end.

(** The entry of a course that has a name and none of the other three
    keys. *)
Definition name_only (display_name : json) : json :=
  JDict [ ("name", display_name); ("duration", JStr "N/A");
          ("modules", JStr "N/A"); ("outcome", JStr "N/A") ].

End Crew.

(** ** [POST /api/initialize] ([chatbot.py]) *)

Module Initialize.

Import Chatbot.

Inductive init_body : Type :=
| Status (text : string)        (* [{"status": text}] *)
| InitError (text : string).    (* [{"error": text}] *)

(** [agents_created] tells whether [create_smart_agents()] returns; when
    it raises, the routine is not entered. *)
Definition initialize_chat (CHATBOT_NAME : string) (agents_created : bool)
    (ud : user_data) (lines : list string) : (nat * init_body) * console :=
  if agents_created then
    match collect_user_info CHATBOT_NAME ud lines with
    | (Returned, c) => ((200, Status "Chatbot initialized successfully."), c)
    | (Raised_EOFError, c) => ((500, InitError "Initialization failed."), c)
    end
  else
    ((500, InitError "Initialization failed."),
     {| data := ud; stdin := lines; shown := [] |}).

(** The first line a check accepts: what it stores, and the lines after
    it. *)
Fixpoint first_accepted (accept : string -> option string) (lines : list string)
  : option (string * list string) :=
  match lines with
  | [] => None
  | line :: rest =>
      match accept (Str.strip line) with
      | Some v => Some (v, rest)
      | None => first_accepted accept rest
      end
  end.

(** All three fields are filled. *)
Definition complete (ud : user_data) : bool :=
  Str.truthy (name ud) && Str.truthy (email ud) && Str.truthy (phone ud).

(** One more prompt than lines read when the input ran out. *)
Definition raised (r : outcome) : nat :=
  match r with Returned => 0 | Raised_EOFError => 1 end.

(** What one loop does to the rest of the console, whatever its outcome. *)
Record loop_facts (get : user_data -> string) (ud : user_data) (out : list io)
    (lines : list string) (r : outcome) (c : console) : Prop :=
  { lf_count :
      List.length (Profile.prompts (shown c)) + List.length (stdin c)
      = List.length (Profile.prompts out) + List.length lines + raised r;
    lf_greeted : greeted (data c) = greeted ud;
    lf_raised :
      r = Raised_EOFError ->
      stdin c = [] /\ data c = ud /\ Str.truthy (get ud) = false;
    lf_returned : r = Returned -> Str.truthy (get (data c)) = true;
    lf_filled :
      Str.truthy (get ud) = true -> data c = ud /\ stdin c = lines }.

End Initialize.

(** * The code over Python's own text methods

    [str.lower], [str.strip], [str.title] and [len] depend on the Unicode
    character database.  Here they are parameters: what is proved of the
    code below holds for every choice of them, so for Python's.  Strings
    are the UTF-8 bytes of the text; [in], [replace], [+], truthiness and
    equality of strings are the same on bytes and on characters.  The
    modules above are this code read with the methods of ASCII text, which
    is what closed examples are evaluated with. *)

Module Text.

Record ops : Type :=
  { lower : string -> string;       (* [s.lower()] *)
    strip : string -> string;       (* [s.strip()] *)
    title : string -> string;       (* [s.title()] *)
    len : string -> nat }.          (* [len(s)], in characters *)

(** The methods on ASCII text. *)
Definition ascii_text : ops :=
  {| lower := Str.lower; strip := Str.strip; title := Str.title;
     len := String.length |}.

(** [s.split("\n")], [current] being the line read so far. *)
Fixpoint lines_from (current s : string) : list string :=
  match s with
  | EmptyString => [current]
  | String c s' =>
      if Nat.eqb (nat_of_ascii c) 10 then current :: lines_from EmptyString s'
      else lines_from (current ++ String c EmptyString) s'
  end.

Definition lines (s : string) : list string := lines_from EmptyString s.

End Text.

Module Code.

Import Chatbot Routing.

(** The name of a course that is a dict with a string, or nothing, under
    ["name"]. *)
Definition display_name (course : json) : option string :=
  match course with
  | JDict d =>
      match dict_get "name" d with
      | None => Some EmptyString
      | Some (JStr s) => Some s
      | Some _ => None
      end
  | _ => None
  end.

(** The text of a [{"response": text}]. *)
Definition response_text (r : response) : string :=
  match payload r with
  | Response text => text
  | _ => EmptyString
  end.



Section WithText.

Variable T : Text.ops.

(** *** chatbot.py *)

Definition normalize_input (user_input : string) : string :=
  apply_corrections corrections (Text.lower T user_input).

Definition detect_greeting (user_input : string) : bool :=
  let user_input_lower := Text.strip T (Text.lower T user_input) in
  Str.any_in greetings user_input_lower.

Section Answers.

Variable py_str : json -> string.

Definition get_smart_answer (w : world) (user_input : string) : logged string :=
  curriculum_data <~ calling call_load_course_curriculum (load_course_curriculum w) ;;
  website_data <~ calling call_get_website_data (get_website_data w) ;;
  user_input_lower <~ calling call_normalize_input (normalize_input user_input) ;;
  ret (match smart_answer py_str curriculum_data user_input_lower with
       | Some answer => answer
       | None => fallback_answer
       end).

(** The body of the [try] of [chat], on a message that is a string
    ([None]: the key is absent and the default is taken). *)
Definition chat (w : world) (ud : user_data) (message : option string)
  : logged response :=
  let user_input :=
    Text.strip T (match message with Some m => m | None => EmptyString end) in
  if negb (Str.truthy user_input) then
    ret {| status := 400; payload := Response "Please enter a valid message." |}
  else if Str.any_in exit_words (Text.lower T user_input) then
    ret (exit_response ud)
  else
    greeting <~ calling call_detect_greeting (detect_greeting user_input) ;;
    if greeting then ret (greeting_response ud)
    else
      answer <~ (tell call_get_smart_answer ;;; get_smart_answer w user_input) ;;
      ret {| status := 200; payload := Response answer |}.



End Answers.

(** The intent of a message, as in [Routing.classify]. *)
Definition classify (message : string) : intent :=
  let u := Text.strip T message in
  if negb (Str.truthy u) then Invalid
  else if Str.any_in exit_words (Text.lower T u) then Exit
  else if Str.any_in greetings (Text.strip T (Text.lower T u)) then Greeting
  else
    let n := normalize_input u in
    if Str.any_in skillcapital_keywords n then sub_intent n else OffTopic.

(** *** Profile prompts *)

(** [while not user_data['name']: ...] *)
Fixpoint name_loop (ud : user_data) (out : list io) (lines : list string)
  : outcome * console :=
  if Str.truthy (name ud) then
    (Returned, {| data := ud; stdin := lines; shown := out |})
  else
    match lines with
    | [] => (Raised_EOFError,
             {| data := ud; stdin := []; shown := out ++ [Asked name_prompt] |})
    | line :: rest =>
        let n := Text.strip T line in
        if Str.truthy n then
          name_loop (set_name ud (Text.title T n)) (out ++ [Asked name_prompt]) rest
        else
          name_loop ud
            (out ++ [Asked name_prompt; Printed "Please enter your name."]) rest
    end.

(** [while not user_data['email']: ...] *)
Fixpoint email_loop (ud : user_data) (out : list io) (lines : list string)
  : outcome * console :=
  if Str.truthy (email ud) then
    (Returned, {| data := ud; stdin := lines; shown := out |})
  else
    match lines with
    | [] => (Raised_EOFError,
             {| data := ud; stdin := []; shown := out ++ [Asked email_prompt] |})
    | line :: rest =>
        let e := Text.strip T line in
        if Str.truthy e && Str.contains "@" e then
          email_loop (set_email ud e) (out ++ [Asked email_prompt]) rest
        else
          email_loop ud
            (out ++ [Asked email_prompt;
                     Printed "Please enter a valid email address."]) rest
    end.

(** [while not user_data['phone']: ...] *)
Fixpoint phone_loop (ud : user_data) (out : list io) (lines : list string)
  : outcome * console :=
  if Str.truthy (phone ud) then
    (Returned, {| data := ud; stdin := lines; shown := out |})
  else
    match lines with
    | [] => (Raised_EOFError,
             {| data := ud; stdin := []; shown := out ++ [Asked phone_prompt] |})
    | line :: rest =>
        let p := Text.strip T line in
        if Str.truthy p && (10 <=? Text.len T p) then
          phone_loop (set_phone ud p) (out ++ [Asked phone_prompt]) rest
        else
          phone_loop ud
            (out ++ [Asked phone_prompt;
                     Printed "Please enter a valid phone number."]) rest
    end.

Definition collect_user_info (CHATBOT_NAME : string) (ud : user_data)
    (lines : list string) : outcome * console :=
  let banner :=
    [ Printed ("🤖 " ++ CHATBOT_NAME);
      Printed "💬 Welcome to SkillCapital! Let me get to know you better.";
      Printed rule ] in
  match name_loop ud banner lines with
  | (Raised_EOFError, c) => (Raised_EOFError, c)
  | (Returned, c1) =>
      match email_loop (data c1) (shown c1) (stdin c1) with
      | (Raised_EOFError, c) => (Raised_EOFError, c)
      | (Returned, c2) =>
          match phone_loop (data c2) (shown c2) (stdin c2) with
          | (Raised_EOFError, c) => (Raised_EOFError, c)
          | (Returned, c3) =>
              (Returned,
               {| data := data c3; stdin := stdin c3;
                  shown := shown c3 ++
                    [ Printed (nl ++ "Thank you, " ++ name (data c3)
                               ++ "! How can I assist you today?");
                      Printed rule ] |})
          end
      end
  end.

(** [POST /api/initialize]; [agents_created] tells whether
    [create_smart_agents()] returns. *)
Definition initialize_chat (CHATBOT_NAME : string) (agents_created : bool)
    (ud : user_data) (lines : list string)
  : (nat * Initialize.init_body) * console :=
  if agents_created then
    match collect_user_info CHATBOT_NAME ud lines with
    | (Returned, c) =>
        ((200, Initialize.Status "Chatbot initialized successfully."), c)
    | (Raised_EOFError, c) =>
        ((500, Initialize.InitError "Initialization failed."), c)
    end
  else
    ((500, Initialize.InitError "Initialization failed."),
     {| data := ud; stdin := lines; shown := [] |}).

(** What each loop stores for an input line, [None] when it rejects it. *)
Definition accept_name (line : string) : option string :=
  let n := Text.strip T line in
  if Str.truthy n then Some (Text.title T n) else None.
Definition accept_email (line : string) : option string :=
  let e := Text.strip T line in
  if Str.truthy e && Str.contains "@" e then Some e else None.
Definition accept_phone (line : string) : option string :=
  let p := Text.strip T line in
  if Str.truthy p && (10 <=? Text.len T p) then Some p else None.

(** The checks of the claim on a field. *)
Definition valid_name (s : string) : bool := Str.truthy s.
Definition valid_email (s : string) : bool := Str.contains "@" s.
Definition valid_phone (s : string) : bool := 10 <=? Text.len T s.

Definition well_formed (ud : user_data) : Prop :=
  (Str.truthy (email ud) = true -> valid_email (email ud) = true) /\
  (Str.truthy (phone ud) = true -> valid_phone (phone ud) = true).

Definition kept_or_checked (ud ud' : user_data) : Prop :=
  (email ud' = email ud \/ valid_email (email ud') = true) /\
  (phone ud' = phone ud \/ valid_phone (phone ud') = true).

(** The profiles the process can hold: it starts empty and only
    [collect_user_info] writes it. *)
Inductive reachable (CHATBOT_NAME : string) : user_data -> Prop :=
| reach_initial : reachable CHATBOT_NAME initial_user_data
| reach_collect : forall ud lines r c,
    reachable CHATBOT_NAME ud ->
    collect_user_info CHATBOT_NAME ud lines = (r, c) ->
    reachable CHATBOT_NAME (data c).

Section FieldLoop.

(** The shape the three loops share. *)
Variable get : user_data -> string.
Variable set : user_data -> string -> user_data.
Variable prompt complaint : string.
Variable accept : string -> option string.

Fixpoint field_loop (ud : user_data) (out : list io) (lines : list string)
  : outcome * console :=
  if Str.truthy (get ud) then
    (Returned, {| data := ud; stdin := lines; shown := out |})
  else
    match lines with
    | [] => (Raised_EOFError,
             {| data := ud; stdin := []; shown := out ++ [Asked prompt] |})
    | line :: rest =>
        match accept line with
        | Some v => field_loop (set ud v) (out ++ [Asked prompt]) rest
        | None => field_loop ud (out ++ [Asked prompt; Printed complaint]) rest
        end
    end.

(** The first line the check accepts: what is stored, and the lines after
    it. *)
Fixpoint first_accepted (lines : list string) : option (string * list string) :=
  match lines with
  | [] => None
  | line :: rest =>
      match accept line with
      | Some v => Some (v, rest)
      | None => first_accepted rest
      end
  end.

End FieldLoop.

(** The profile a list of input lines fills from nothing, and the lines
    left unread. *)
Definition answers (lines : list string) : option (user_data * list string) :=
  match first_accepted accept_name lines with
  | None => None
  | Some (n, after_name) =>
      match first_accepted accept_email after_name with
      | None => None
      | Some (e, after_email) =>
          match first_accepted accept_phone after_email with
          | None => None
          | Some (p, after_phone) =>
              Some ({| name := n; email := e; phone := p; greeted := false |},
                    after_phone)
          end
      end
  end.

(** *** skillcapital_chatbot_api.py *)

Definition course_name (d : list (string * json)) : option string :=
  match dict_get "name" d with
  | None => Some (Text.lower T EmptyString)
  | Some (JStr s) => Some (Text.lower T s)
  | Some _ => None
  end.

Fixpoint match_loop (q : string) (courses matched : list json)
  : option (list json) :=
  match courses with
  | [] => Some matched
  | course :: rest =>
      match course with
      | JDict d =>
          n <- course_name d ;;
          if Str.truthy n && Str.contains n q
          then match_loop q rest (matched ++ [course])
          else match_loop q rest matched
      | _ => match_loop q rest matched
      end
  end.

Definition find_relevant_courses (question : string) (curriculum_data : json)
  : option (list json) :=
  let q := Text.lower T question in
  let courses := Api.courses_of curriculum_data in
  matched <- match_loop q courses [] ;;
  Some (match matched with [] => courses | _ :: _ => matched end).

(** A course whose lower-cased name is not empty and occurs in [q]; the
    name of a dict without ["name"] is the empty string. *)
Definition mentioned_in (q : string) (course : json) : bool :=
  match display_name course with
  | Some n => Str.truthy (Text.lower T n) && Str.contains (Text.lower T n) q
  | None => false
  end.

Section Handler.

Variable json_dumps : list json -> string.

(** The body of the [try] of [smart_chatbot] on a message that is a
    string. *)
Definition smart_chatbot (w : Api.world) (message : option string)
  : logged response :=
  let user_input := match message with Some m => m | None => EmptyString end in
  if negb (Str.truthy user_input) then
    ret {| status := 400; payload := Error "Message is required" |}
  else
    website_info <~ calling call_get_website_data (Api.get_website_data w) ;;
    curriculum_data <~
      calling call_load_course_curriculum (Api.load_course_curriculum w) ;;
    found <~ calling call_find_relevant_courses
               (find_relevant_courses user_input curriculum_data) ;;
    match found with
    | None => ret {| status := 500; payload := Failure |}
    | Some matched_courses =>
        let curriculum_text := json_dumps matched_courses in
        let context :=
          (website_info ++ nl ++ nl ++ "Relevant Courses:" ++ nl ++ curriculum_text)%string in
        r <~ calling call_run_chatbot_crew
               (Api.run_chatbot_crew w user_input context matched_courses) ;;
        match r with
        | Some summary => ret {| status := 200; payload := Payload summary |}
        | None => ret {| status := 500; payload := Failure |}
        end
    end.


End Handler.

(** *** app.py and bot.py *)

Definition pipeline_chat (run_crew_chatbot_pipeline : string -> option string)
    (message : option string) : logged response :=
  let message :=
    Text.strip T (match message with Some m => m | None => EmptyString end) in
  if negb (Str.truthy message) then
    ret {| status := 400; payload := Error "Message is required" |}
  else
    r <~ calling call_run_crew_chatbot_pipeline (run_crew_chatbot_pipeline message) ;;
    match r with
    | Some text => ret {| status := 200; payload := Response text |}
    | None => ret {| status := 500; payload := Failure |}
    end.


(** *** The text of the website ([get_website_data])

    What the parser hands over: the text of the title when there is one,
    the [content] of the description tag when there is one ([None] inside
    when the tag has no [content]), and the texts of the elements found
    under [main] or [body], in document order. *)

Record page : Type :=
  { page_title : option string;
    page_description : option (option string);
    page_texts : list string }.

Definition title_entry (p : page) : list string :=
  match page_title p with
  | Some t => [("Website Title: " ++ Text.strip T t)%string]
  | None => []
  end.

Definition description_entry (p : page) : list string :=
  match page_description p with
  | Some content =>
      [("Description: "
        ++ Text.strip T (match content with Some c => c | None => EmptyString end))%string]
  | None => []
  end.

Definition important_words : list string :=
  [ "hour"; "duration"; "time"; "course"; "price"; "cost"; "999" ].

(** The loop over the elements in [chatbot.py]. *)
Fixpoint chatbot_elements (texts data : list string) : list string :=
  match texts with
  | [] => data
  | raw :: rest =>
      let text := Text.strip T raw in
      if Str.truthy text && (10 <? Text.len T text) then
        if Str.any_in important_words (Text.lower T text)
        then chatbot_elements rest (data ++ [("Important: " ++ text)%string])
        else chatbot_elements rest (data ++ [text])
      else chatbot_elements rest data
  end.

(** The loop over the elements in [skillcapital_chatbot_api.py]. *)
Fixpoint api_elements (texts data : list string) : list string :=
  match texts with
  | [] => data
  | raw :: rest =>
      let text := Text.strip T raw in
      if Str.truthy text && (20 <? Text.len T text)
      then api_elements rest (data ++ [text])
      else api_elements rest data
  end.

Definition chatbot_data (p : page) : list string :=
  chatbot_elements (page_texts p) (title_entry p ++ description_entry p).

Definition api_data (p : page) : list string :=
  api_elements (page_texts p) (title_entry p ++ description_entry p).

(** The text [get_website_data] returns: the first fifty entries, one per
    line. *)
Definition chatbot_text (p : page) : string := Str.join nl (firstn 50 (chatbot_data p)).
Definition api_text (p : page) : string := Str.join nl (firstn 50 (api_data p)).

(** How an element text enters [data] in [chatbot.py]. *)
Definition marked (text : string) : string :=
  if Str.any_in important_words (Text.lower T text)
  then ("Important: " ++ text)%string else text.

Definition longer_than (n : nat) (text : string) : bool :=
  Str.truthy text && (n <? Text.len T text).

End WithText.





End Code.

(** * Properties *)

(** ** Strings *)

Module StrFacts.

Import Str.

Example lower_ex : lower "How MUCH?" = "how much?".
Proof. reflexivity. Qed.

Example strip_ex : strip "  hi there  " = "hi there".
Proof. reflexivity. Qed.

Example replace_ex : replace "aa" "b" "aaaaa" = "bba".
Proof. reflexivity. Qed.

Example replace_empty_ex : replace EmptyString "-" "ab" = "-a-b-".
Proof. reflexivity. Qed.

Example title_ex : title "mary-ann o'NEIL" = "Mary-Ann O'Neil".
Proof. reflexivity. Qed.

Example contains_ex :
  contains "hi" "which" = true /\ contains "hi" "what" = false.
Proof. split; reflexivity. Qed.

Lemma truthy_true (s : string) : truthy s = true <-> s <> EmptyString.
Proof. destruct s; simpl; split; congruence. Qed.


(** *** Case mapping *)

Lemma lower_ascii_idem (c : ascii) : lower_ascii (lower_ascii c) = lower_ascii c.
Proof. destruct c as [[] [] [] [] [] [] [] []]; reflexivity. Qed.

Lemma is_space_lower_ascii (c : ascii) : is_space (lower_ascii c) = is_space c.
Proof. destruct c as [[] [] [] [] [] [] [] []]; reflexivity. Qed.

Lemma lower_idem (s : string) : lower (lower s) = lower s.
Proof.
  induction s as [|c s IH]; simpl; [reflexivity|].
  now rewrite lower_ascii_idem, IH.
Qed.

Lemma lower_append (a b : string) : lower (a ++ b) = (lower a ++ lower b)%string.
Proof. induction a as [|c a IH]; simpl; [reflexivity | now rewrite IH]. Qed.

Lemma truthy_lower (s : string) : truthy (lower s) = truthy s.
Proof. destruct s; reflexivity. Qed.

Lemma lower_cons_fixed (c : ascii) (s : string) :
  lower (String c s) = String c s -> lower_ascii c = c /\ lower s = s.
Proof. simpl; intros H; injection H; auto. Qed.

(** *** Stripping *)

Lemma lower_lstrip (s : string) : lower (lstrip s) = lstrip (lower s).
Proof.
  induction s as [|c s IH]; simpl; [reflexivity|].
  rewrite is_space_lower_ascii. destruct (is_space c); simpl; auto.
Qed.

Lemma lower_rstrip (s : string) : lower (rstrip s) = rstrip (lower s).
Proof.
  induction s as [|c s IH]; simpl; [reflexivity|].
  rewrite is_space_lower_ascii, <- IH, truthy_lower.
  destruct (is_space c && negb (truthy (rstrip s))); simpl; now rewrite ?IH.
Qed.

Lemma lower_strip (s : string) : lower (strip s) = strip (lower s).
Proof. unfold strip. now rewrite lower_rstrip, lower_lstrip. Qed.

(** *** Prefixes and substrings *)

Lemma prefix_empty (s : string) : prefix EmptyString s = true.
Proof. destruct s; reflexivity. Qed.

Lemma prefix_cons (c d : ascii) (p s : string) :
  prefix (String c p) (String d s) = true <-> c = d /\ prefix p s = true.
Proof.
  simpl. destruct (ascii_dec c d) as [->|N]; split; intros H; auto.
  - tauto.
  - discriminate.
  - destruct H; contradiction.
Qed.

Lemma prefix_of_empty (p : string) : prefix p EmptyString = true -> p = EmptyString.
Proof. destruct p; simpl; congruence. Qed.

Lemma contains_cons (p : string) (c : ascii) (s : string) :
  contains p (String c s) = prefix p (String c s) || contains p s.
Proof. reflexivity. Qed.

Lemma contains_tail (p : string) (c : ascii) (s : string) :
  contains p s = true -> contains p (String c s) = true.
Proof. intros H. rewrite contains_cons, H. apply orb_true_r. Qed.

Lemma occurrences_zero (p s : string) :
  occurrences p s = 0 <-> contains p s = false.
Proof.
  induction s as [|c s IH]; cbn [occurrences contains].
  - destruct (prefix p EmptyString); simpl; split; congruence.
  - destruct (prefix p (String c s)); simpl.
    + split; congruence.
    + exact IH.
Qed.

Lemma any_in_true (keywords : list string) (s : string) :
  any_in keywords s = true <-> exists k, In k keywords /\ contains k s = true.
Proof. unfold any_in. apply existsb_exists. Qed.

(** *** Replacement *)

Lemma replace_from_absent (old new s : string) :
  contains old s = false -> replace_from 0 old new s = s.
Proof.
  induction s as [|c s IH]; [reflexivity|].
  rewrite contains_cons. intros H. apply orb_false_elim in H as [Hp Hc].
  cbn [replace_from]. rewrite Hp. f_equal. auto.
Qed.

Lemma replace_absent (old new s : string) :
  contains old s = false -> replace old new s = s.
Proof.
  intros H. unfold replace. destruct old as [|c old].
  - destruct s; simpl in H; discriminate.
  - now apply replace_from_absent.
Qed.

Lemma replace_from_lower (old new : string) :
  lower new = new ->
  forall s k, lower s = s ->
    lower (replace_from k old new s) = replace_from k old new s.
Proof.
  intros Hn. induction s as [|c s IH]; intros k Hs; [reflexivity|].
  apply lower_cons_fixed in Hs as [Hc Hs].
  cbn [replace_from]. destruct k as [|k]; [|auto].
  destruct (prefix old (String c s)).
  - rewrite lower_append, Hn. f_equal. auto.
  - cbn [lower]. rewrite Hc. f_equal. auto.
Qed.

Lemma intersperse_lower (new s : string) :
  lower new = new -> lower s = s -> lower (intersperse new s) = intersperse new s.
Proof.
  intros Hn. induction s as [|c s IH]; intros Hs; [exact Hn|].
  apply lower_cons_fixed in Hs as [Hc Hs].
  cbn [intersperse]. rewrite lower_append, Hn. cbn [lower].
  now rewrite Hc, IH.
Qed.

Lemma replace_lower (old new s : string) :
  lower new = new -> lower s = s -> lower (replace old new s) = replace old new s.
Proof.
  intros Hn Hs. unfold replace. destruct (truthy old).
  - now apply replace_from_lower.
  - now apply intersperse_lower.
Qed.

(** *** Substrings and stripping *)

Lemma contains_lstrip (p s : string) :
  starts_solid p = true -> contains p s = true -> contains p (lstrip s) = true.
Proof.
  intros Hp. induction s as [|c s IH]; intros H; [exact H|].
  cbn [lstrip]. destruct (is_space c) eqn:Hc; [|exact H].
  rewrite contains_cons in H. apply orb_true_iff in H as [H|H]; [|auto].
  destruct p as [|d p]; [discriminate|].
  apply prefix_cons in H as [-> _]. simpl in Hp. rewrite Hc in Hp. discriminate.
Qed.

Lemma rstrip_cons_truthy (c : ascii) (s : string) :
  truthy (rstrip s) = true -> rstrip (String c s) = String c (rstrip s).
Proof. intros H. cbn [rstrip]. rewrite H. now rewrite andb_false_r. Qed.

Lemma prefix_rstrip (s p : string) :
  ends_solid p = true -> prefix p s = true -> prefix p (rstrip s) = true.
Proof.
  revert p. induction s as [|c s IH]; intros p Hp H.
  - exact H.
  - destruct p as [|d p]; [discriminate|].
    apply prefix_cons in H as [-> H].
    destruct p as [|e p].
    + cbn [ends_solid] in Hp. cbn [rstrip].
      apply negb_true_iff in Hp. rewrite Hp. cbn [andb].
      apply prefix_cons. split; [reflexivity | apply prefix_empty].
    + assert (Hp' : ends_solid (String e p) = true) by exact Hp.
      specialize (IH _ Hp' H).
      assert (T : truthy (rstrip s) = true).
      { destruct (rstrip s); [discriminate | reflexivity]. }
      rewrite (rstrip_cons_truthy c s T).
      apply prefix_cons. split; [reflexivity | exact IH].
Qed.

Lemma contains_rstrip (p s : string) :
  ends_solid p = true -> contains p s = true -> contains p (rstrip s) = true.
Proof.
  intros Hp. induction s as [|c s IH]; intros H.
  - destruct p; discriminate.
  - rewrite contains_cons in H. apply orb_true_iff in H as [H|H].
    + apply (prefix_rstrip _ _ Hp) in H.
      destruct (rstrip (String c s)); cbn [contains]; now rewrite H.
    + specialize (IH H).
      assert (T : truthy (rstrip s) = true).
      { destruct (rstrip s); [|reflexivity]. destruct p; discriminate. }
      rewrite (rstrip_cons_truthy c s T). now apply contains_tail.
Qed.

Lemma contains_strip (p s : string) :
  solid p = true -> contains p s = true -> contains p (strip s) = true.
Proof.
  unfold solid, strip. intros Hp H. apply andb_true_iff in Hp as [H1 H2].
  apply contains_rstrip; [assumption|]. now apply contains_lstrip.
Qed.

Lemma contains_of_lstrip (p s : string) :
  contains p (lstrip s) = true -> contains p s = true.
Proof.
  induction s as [|c s IH]; [auto|].
  cbn [lstrip]. destruct (is_space c); [|auto].
  intros H. apply contains_tail. auto.
Qed.

Lemma prefix_of_rstrip (s p : string) :
  prefix p (rstrip s) = true -> prefix p s = true.
Proof.
  revert p. induction s as [|c s IH]; intros p H; [exact H|].
  destruct p as [|d p]; [reflexivity|].
  cbn [rstrip] in H.
  destruct (is_space c && negb (truthy (rstrip s))); [discriminate|].
  apply prefix_cons in H as [-> H]. apply prefix_cons. auto.
Qed.

Lemma contains_of_rstrip (p s : string) :
  contains p (rstrip s) = true -> contains p s = true.
Proof.
  induction s as [|c s IH]; [auto|].
  intros H. rewrite contains_cons.
  cbn [rstrip] in H.
  destruct (is_space c && negb (truthy (rstrip s))) eqn:E.
  - cbn in H. rewrite orb_false_r in H. apply prefix_of_empty in H. subst p.
    reflexivity.
  - rewrite contains_cons in H. apply orb_true_iff in H as [H|H].
    + apply orb_true_iff. left. apply prefix_of_rstrip.
      cbn [rstrip]. now rewrite E.
    + apply orb_true_iff. right. auto.
Qed.

Lemma contains_of_strip (p s : string) :
  contains p (strip s) = true -> contains p s = true.
Proof.
  unfold strip. intros H. now apply contains_of_lstrip, contains_of_rstrip.
Qed.

Lemma any_in_strip (keywords : list string) (s : string) :
  forallb solid keywords = true ->
  any_in keywords s = true -> any_in keywords (strip s) = true.
Proof.
  intros Hk H. apply any_in_true in H as (k & Hin & H).
  apply any_in_true. exists k. split; [assumption|].
  apply contains_strip; [|assumption].
  rewrite forallb_forall in Hk. auto.
Qed.

Lemma any_in_of_strip (keywords : list string) (s : string) :
  any_in keywords (strip s) = true -> any_in keywords s = true.
Proof.
  intros H. apply any_in_true in H as (k & Hin & H).
  apply any_in_true. exists k. split; [assumption|].
  now apply contains_of_strip.
Qed.

(** *** Title casing *)

Lemma truthy_title (s : string) : truthy (title s) = truthy s.
Proof. destruct s; reflexivity. Qed.

End StrFacts.

(** ** Routing of [/api/chat] *)

Module ChatFacts.

Import Chatbot Routing.

Section Refinement.

Variable py_str : json -> string.

Lemma smart_answer_sub_intent (w : world) (ud : user_data) (n : string) :
  Str.any_in skillcapital_keywords n = true ->
  ok (or_fallback (smart_answer py_str (load_course_curriculum w) n))
  = assemble py_str w ud (sub_intent n).
Proof.
  intros D. unfold smart_answer, sub_intent, curriculum_answer. rewrite D.
  destruct (Str.any_in curriculum_words n).
  - destruct (Str.contains "python" n); [reflexivity|].
    destruct (Str.contains "cloud" n); [reflexivity|].
    destruct (Str.contains "devops" n); [reflexivity|].
    destruct (Str.contains "ai" n || Str.contains "machine learning" n);
      reflexivity.
  - destruct (Str.any_in price_words n); [reflexivity|].
    destruct (Str.any_in duration_words n); [reflexivity|].
    destruct (Str.any_in enroll_words n); [reflexivity|].
    destruct (Str.any_in python_words n); [reflexivity|].
    destruct (Str.any_in course_words n); reflexivity.
Qed.

Lemma get_smart_answer_value (w : world) (user_input : string) :
  fst (get_smart_answer py_str w user_input)
  = or_fallback (smart_answer py_str (load_course_curriculum w)
                   (normalize_input user_input)).
Proof. reflexivity. Qed.

Lemma get_smart_answer_log (w : world) (user_input : string) :
  snd (get_smart_answer py_str w user_input)
  = [call_load_course_curriculum; call_get_website_data; call_normalize_input].
Proof. reflexivity. Qed.

(** The handler answers as the intent of the message says. *)
Lemma chat_refines (w : world) (ud : user_data) (m : string) :
  fst (chat py_str w ud (Some m)) = assemble py_str w ud (classify m).
Proof.
  unfold chat, classify, detect_greeting.
  destruct (Str.truthy (Str.strip m)); cbn [negb]; [|reflexivity].
  destruct (Str.any_in exit_words (Str.lower (Str.strip m))); [reflexivity|].
  cbn [lbind calling fst snd].
  destruct (Str.any_in greetings (Str.strip (Str.lower (Str.strip m))));
    [reflexivity|].
  cbn [lbind tell ret fst snd]. rewrite get_smart_answer_value.
  destruct (Str.any_in skillcapital_keywords (normalize_input (Str.strip m))) eqn:D.
  - now apply smart_answer_sub_intent.
  - unfold smart_answer. now rewrite D.
Qed.

(** The calls the handler makes, by intent. *)
Lemma chat_log (w : world) (ud : user_data) (m : string) :
  snd (chat py_str w ud (Some m))
  = match classify m with
    | Invalid | Exit => []
    | Greeting => [call_detect_greeting]
    | _ => [call_detect_greeting; call_get_smart_answer;
            call_load_course_curriculum; call_get_website_data;
            call_normalize_input]
    end.
Proof.
  unfold chat, classify, detect_greeting, sub_intent.
  destruct (Str.truthy (Str.strip m)); cbn [negb]; [|reflexivity].
  destruct (Str.any_in exit_words (Str.lower (Str.strip m))); [reflexivity|].
  cbn [lbind calling fst snd].
  destruct (Str.any_in greetings (Str.strip (Str.lower (Str.strip m))));
    [reflexivity|].
  cbn [lbind tell ret fst snd app]. rewrite get_smart_answer_log.
  repeat match goal with
         | |- context [if ?b then _ else _] => destruct b
         end; reflexivity.
Qed.

End Refinement.

End ChatFacts.

(** * The claims *)

Module Claims.

Import Str StrFacts Chatbot Routing ChatFacts.

(** ** Intent classification *)


(** C2: the four reference messages.  "hi" is a greeting, "bye" an exit,
    "what is the weather" is off-topic and "how much is the python course"
    is a price question; the handler answers each accordingly. *)
Theorem C2_reference_inputs (py_str : json -> string) (w : world) (ud : user_data) :
  (classify "hi" = Greeting /\
   fst (chat py_str w ud (Some "hi")) = greeting_response ud) /\
  (classify "bye" = Exit /\
   fst (chat py_str w ud (Some "bye")) = exit_response ud) /\
  (classify "what is the weather" = OffTopic /\
   fst (chat py_str w ud (Some "what is the weather")) = ok off_topic_answer) /\
  (classify "how much is the python course" = Price /\
   normalize_input "how much is the python course" = "price is the python course" /\
   fst (chat py_str w ud (Some "how much is the python course")) = ok "999/-").
Proof.
  rewrite !chat_refines.
  assert (H1 : classify "hi" = Greeting) by (vm_compute; reflexivity).
  assert (H2 : classify "bye" = Exit) by (vm_compute; reflexivity).
  assert (H3 : classify "what is the weather" = OffTopic) by (vm_compute; reflexivity).
  assert (H4 : classify "how much is the python course" = Price)
    by (vm_compute; reflexivity).
  rewrite H1, H2, H3, H4. repeat split; vm_compute; reflexivity.
Qed.

(** ** Greetings *)

Lemma greetings_solid : forallb solid greetings = true.
Proof. reflexivity. Qed.

Lemma greeting_after_strip (m : string) :
  any_in greetings (lower m) = true ->
  any_in greetings (strip (lower (strip m))) = true.
Proof.
  intros H. apply any_in_strip; [exact greetings_solid|].
  rewrite lower_strip. apply any_in_strip; [exact greetings_solid | exact H].
Qed.

Lemma no_exit_after_strip (m : string) :
  any_in exit_words (lower m) = false ->
  any_in exit_words (lower (strip m)) = false.
Proof.
  intros H. rewrite lower_strip.
  destruct (any_in exit_words (strip (lower m))) eqn:E; [|reflexivity].
  apply any_in_of_strip in E. congruence.
Qed.

(** C10, as stated, fails: "hi bye" contains the greeting word "hi", and
    the handler answers with the exit response, not the greeting. *)
Lemma C10_exit_word_wins :
  any_in greetings (lower "hi bye") = true /\
  fst (chat text_of offline initial_user_data (Some "hi bye"))
  = exit_response initial_user_data /\
  exit_response initial_user_data <> greeting_response initial_user_data.
Proof. repeat split. vm_compute. discriminate. Qed.

(** C10, amended: a message whose lower-cased text contains a greeting word
    anywhere, also inside another word, and contains no exit word, gets the
    greeting response; the handler calls [detect_greeting] and nothing
    else, so [get_smart_answer] is not reached, in-domain question or
    not. *)
Theorem C10_greeting_substring (py_str : json -> string) (w : world)
    (ud : user_data) (m : string) :
  any_in greetings (lower m) = true ->
  any_in exit_words (lower m) = false ->
  chat py_str w ud (Some m) = (greeting_response ud, [call_detect_greeting])
  /\ reaches_smart_answer (snd (chat py_str w ud (Some m))) = false.
Proof.
  intros G E.
  apply greeting_after_strip in G. apply no_exit_after_strip in E.
  assert (T : truthy (strip m) = true).
  { destruct (strip m); [discriminate G | reflexivity]. }
  assert (R : chat py_str w ud (Some m)
              = (greeting_response ud, [call_detect_greeting])).
  { unfold chat, detect_greeting. rewrite T, E. cbn [negb].
    cbn [lbind calling fst snd]. rewrite G. reflexivity. }
  rewrite R. split; reflexivity.
Qed.

(** "which python course has the best price" holds "hi" inside "which". *)
Lemma C10_greeting_substring_witness :
  any_in greetings (lower "Which python course has the best price?") = true /\
  any_in exit_words (lower "Which python course has the best price?") = false /\
  chat text_of offline initial_user_data
    (Some "Which python course has the best price?")
  = (greeting_response initial_user_data, [call_detect_greeting]).
Proof.
  split; [reflexivity|]. split; [reflexivity|].
  apply (C10_greeting_substring text_of offline initial_user_data
           "Which python course has the best price?"); reflexivity.
Defined.

(** ** Loading the curriculum *)

(** C7, as stated, fails: the loader of [chatbot.py] gives [None] for an
    absent file, not an empty mapping. *)
Lemma C7_chatbot_loader_gives_none :
  unloadable (curriculum_file offline) = true /\
  load_course_curriculum offline = JNull /\
  load_course_curriculum offline <> JDict [].
Proof. repeat split. discriminate. Qed.

(** C7, amended: on an absent or unparseable file neither loader raises;
    the loader of [skillcapital_chatbot_api.py] gives the empty mapping and
    the loader of [chatbot.py] gives [None], which its callers test before
    every use. *)
Theorem C7_loaders (aw : Api.world) (cw : Chatbot.world) :
  unloadable (Api.curriculum_file aw) = true ->
  unloadable (curriculum_file cw) = true ->
  Api.load_course_curriculum aw = JDict [] /\
  load_course_curriculum cw = JNull /\
  has_courses (load_course_curriculum cw) = Some false.
Proof.
  unfold Api.load_course_curriculum, load_course_curriculum.
  destruct (Api.curriculum_file aw), (curriculum_file cw);
    simpl; intros; try discriminate; repeat split.
Qed.

Lemma C7_loaders_witness :
  Api.load_course_curriculum
    {| Api.curriculum_file := Unparseable; Api.website := None;
       Api.run_chatbot_crew := fun _ _ _ => None |} = JDict [] /\
  load_course_curriculum offline = JNull.
Proof.
  destruct (C7_loaders
              {| Api.curriculum_file := Unparseable; Api.website := None;
                 Api.run_chatbot_crew := fun _ _ _ => None |}
              offline eq_refl eq_refl) as (H1 & H2 & _).
  split; assumption.
Defined.

(** ** Course matching *)

Import Matching.

Lemma match_loop_filter (q : string) (courses matched : list json) :
  Api.match_loop q courses matched
  = if forallb well_named courses
    then Some (matched ++ filter (mentioned_in q) courses)%list
    else None.
Proof.
  revert matched. induction courses as [|course rest IH]; intros matched.
  - simpl. now rewrite app_nil_r.
  - cbn [Api.match_loop forallb filter].
    destruct course as [| b | z | s | l | d]; cbn [well_named mentioned_in andb];
      try apply IH.
    unfold Api.course_name.
    destruct (dict_get "name" d) as [[| b | z | s | l | d']|]; cbn [bind andb];
      try reflexivity.
    + destruct (truthy (lower s) && contains (lower s) q).
      * rewrite IH. destruct (forallb well_named rest); [|reflexivity].
        now rewrite <- app_assoc.
      * apply IH.
    + apply IH.
Qed.

(** C4, as stated, fails: a course with an empty display name has a name
    that occurs in every message, and the matcher leaves it out. *)
Lemma C4_empty_name_left_out :
  filter (named_in "python") (Api.courses_of two_courses)
  = [unnamed_course; python_course] /\
  Api.find_relevant_courses "python" two_courses = Some [python_course] /\
  Api.find_relevant_courses "python" two_courses
  <> Some (filter (named_in "python") (Api.courses_of two_courses)).
Proof. repeat split. discriminate. Qed.

(** ** Module listings *)

Import Curriculum.

Section Listing.

Variable py_str : json -> string.
Hypothesis py_str_string : forall s, py_str (JStr s) = s.

Lemma module_lines_json (m : module_entry) :
  module_lines py_str (module_json m) = Some (module_text m).
Proof.
  unfold module_lines, module_json, module_text. cbn.
  rewrite !py_str_string, map_map. do 2 f_equal.
  apply map_ext. intros t. now rewrite py_str_string.
Qed.

Lemma mapM_module_lines (ms : list module_entry) :
  mapM (module_lines py_str) (map module_json ms) = Some (map module_text ms).
Proof.
  induction ms as [|m ms IH]; [reflexivity|].
  cbn [map mapM]. rewrite module_lines_json, IH. reflexivity.
Qed.

(** The listing of a stored course: the heading, then per module, in
    stored order, its line and the bullets of its topics in stored order. *)
Lemma course_modules_listing (d cs : list (string * json))
    (key display_name heading description : string) (ms : list module_entry) :
  dict_get "courses" d = Some (JDict cs) ->
  dict_get key cs = Some (course_json display_name ms) ->
  course_modules py_str (JDict d) key heading description
  = Some (heading ++ nl ++ join nl (concat (map module_text ms)))%string.
Proof.
  intros Hd Hc. unfold course_modules, has_courses.
  assert (T : Py.truthy (JDict d) = true).
  { destruct d; [discriminate Hd | reflexivity]. }
  rewrite T. cbn [has subscript bind]. rewrite Hd. cbn [bind has].
  rewrite Hc. cbn [subscript]. rewrite Hc. cbn [bind].
  unfold course_json at 1. cbn [dict_get subscript String.eqb Ascii.eqb Bool.eqb bind iter].
  rewrite mapM_module_lines. reflexivity.
Qed.

End Listing.

(** ** Normalization *)

Import Variants.

Lemma corrections_lower :
  Forall (fun mc : string * string => lower (snd mc) = snd mc) corrections.
Proof. repeat constructor. Qed.

Lemma apply_corrections_lower (table : list (string * string)) :
  Forall (fun mc => lower (snd mc) = snd mc) table ->
  forall s, lower s = s ->
    lower (apply_corrections table s) = apply_corrections table s.
Proof.
  unfold apply_corrections.
  induction 1 as [|mc table Hmc _ IH]; intros s Hs; [exact Hs|].
  cbn [fold_left]. apply IH. now apply replace_lower.
Qed.

Lemma normalize_input_lower (s : string) :
  lower (normalize_input s) = normalize_input s.
Proof.
  unfold normalize_input.
  apply apply_corrections_lower; [exact corrections_lower | apply lower_idem].
Qed.

Lemma apply_corrections_absent (table : list (string * string)) (s : string) :
  Forall (fun mc => contains (fst mc) s = false) table ->
  apply_corrections table s = s.
Proof.
  unfold apply_corrections.
  induction 1 as [|mc table Hmc _ IH]; [reflexivity|].
  cbn [fold_left]. now rewrite (replace_absent _ _ _ Hmc).
Qed.

Lemma list_sum_zero (l : list nat) :
  list_sum l = 0 -> Forall (fun n => n = 0) l.
Proof.
  induction l as [|n l IH]; intros H; [constructor|].
  simpl in H. constructor; [lia | apply IH; lia].
Qed.

Lemma variant_free (s : string) :
  variant_occurrences s = 0 ->
  Forall (fun mc => contains (fst mc) s = false) corrections.
Proof.
  unfold variant_occurrences. intros H. apply list_sum_zero in H.
  rewrite Forall_map in H. revert H. apply Forall_impl.
  intros mc. apply occurrences_zero.
Qed.

(** C6, as stated, fails: "costss" holds one occurrence of the variant
    "costs" and no other variant; one pass gives "costs", a second pass
    gives "cost". *)
Lemma C6_costss :
  occurrences "costs" "costss" = 1 /\
  variant_occurrences "costss" = 1 /\
  normalize_input "costss" = "costs" /\
  normalize_input (normalize_input "costss") = "cost" /\
  normalize_input (normalize_input "costss") <> normalize_input "costss".
Proof. repeat split. vm_compute. discriminate. Qed.

(** C6, amended: normalizing twice gives what normalizing once gives for
    every input whose normalized form holds no variant of the table; each
    variant of the table, taken alone, is such an input. *)
Theorem C6_idempotent_without_variants (s : string) :
  variant_occurrences (normalize_input s) = 0 ->
  normalize_input (normalize_input s) = normalize_input s
  /\ Forall (fun mc : string * string =>
               variant_occurrences (normalize_input (fst mc)) = 0
               /\ normalize_input (normalize_input (fst mc))
                  = normalize_input (fst mc)) corrections.
Proof.
  intros H. split.
  - unfold normalize_input at 1. rewrite normalize_input_lower.
    apply apply_corrections_absent, variant_free, H.
  - repeat constructor.
Qed.

Lemma C6_idempotent_without_variants_witness :
  variant_occurrences (normalize_input "How much are the FEES?") = 0 /\
  normalize_input "How much are the FEES?" = "price are the fee?" /\
  normalize_input (normalize_input "How much are the FEES?")
  = normalize_input "How much are the FEES?".
Proof.
  split; [reflexivity|]. split; [reflexivity|].
  exact (proj1 (C6_idempotent_without_variants "How much are the FEES?" eq_refl)).
Defined.

(** ** Profile prompts *)

Import Profile.

Lemma name_loop_field (lines : list string) (ud : user_data) (out : list io) :
  name_loop ud out lines
  = field_loop name set_name name_prompt "Please enter your name."
      accept_name ud out lines.
Proof.
  revert ud out. induction lines as [|line rest IH]; intros ud out;
    cbn [name_loop field_loop]; [reflexivity|].
  unfold accept_name. destruct (truthy (name ud)); [reflexivity|].
  destruct (truthy (strip line)); apply IH.
Qed.

Lemma email_loop_field (lines : list string) (ud : user_data) (out : list io) :
  email_loop ud out lines
  = field_loop email set_email email_prompt "Please enter a valid email address."
      accept_email ud out lines.
Proof.
  revert ud out. induction lines as [|line rest IH]; intros ud out;
    cbn [email_loop field_loop]; [reflexivity|].
  unfold accept_email. destruct (truthy (email ud)); [reflexivity|].
  destruct (truthy (strip line) && contains "@" (strip line)); apply IH.
Qed.

Lemma phone_loop_field (lines : list string) (ud : user_data) (out : list io) :
  phone_loop ud out lines
  = field_loop phone set_phone phone_prompt "Please enter a valid phone number."
      accept_phone ud out lines.
Proof.
  revert ud out. induction lines as [|line rest IH]; intros ud out;
    cbn [phone_loop field_loop]; [reflexivity|].
  unfold accept_phone. destruct (truthy (phone ud)); [reflexivity|].
  destruct (truthy (strip line) && (10 <=? String.length (strip line))); apply IH.
Qed.

Lemma prompts_app (a b : list io) : prompts (a ++ b) = (prompts a ++ prompts b)%list.
Proof.
  induction a as [|[t|p] a IH]; cbn [app prompts]; [reflexivity | exact IH |].
  now rewrite IH.
Qed.

Section FieldLoopFacts.

Variable get : user_data -> string.
Variable set : user_data -> string -> user_data.
Variable prompt complaint : string.
Variable accept : string -> option string.

Hypothesis get_set : forall ud v, get (set ud v) = v.
Hypothesis accept_truthy : forall x v, accept x = Some v -> truthy v = true.

Local Abbreviation loop := (field_loop get set prompt complaint accept).

(** A filled field: no prompt, nothing read, nothing written. *)
Lemma field_loop_filled (ud : user_data) (out : list io) (lines : list string) :
  truthy (get ud) = true ->
  loop ud out lines = (Returned, {| data := ud; stdin := lines; shown := out |}).
Proof. intros H. destruct lines; cbn [field_loop]; now rewrite H. Qed.

(** What a run of the loop leaves: the lines it consumed, the prompts it
    showed, and where the stored value comes from. *)
Lemma field_loop_run (lines : list string) :
  forall ud out r c,
    loop ud out lines = (r, c) ->
    exists consumed k,
      lines = (consumed ++ stdin c)%list
      /\ prompts (shown c) = (prompts out ++ repeat prompt k)%list
      /\ (truthy (get ud) = true -> k = 0 /\ data c = ud)
      /\ (r = Returned -> truthy (get (data c)) = true)
      /\ (data c = ud
          \/ exists line v, In line consumed /\ accept (strip line) = Some v
                            /\ data c = set ud v)
      /\ (truthy (get ud) = false -> 1 <= k).
Proof.
  induction lines as [|line rest IH]; intros ud out r c H;
    cbn [field_loop] in H; destruct (truthy (get ud)) eqn:T.
  - injection H as <- <-. exists [], 0. cbn. rewrite app_nil_r.
    repeat split; try discriminate; auto.
  - injection H as <- <-. exists [], 1. cbn. rewrite prompts_app.
    repeat split; try discriminate; auto.
  - injection H as <- <-. exists [], 0. cbn. rewrite app_nil_r.
    repeat split; try discriminate; auto.
  - destruct (accept (strip line)) as [v|] eqn:A.
    + pose proof (accept_truthy _ _ A) as Tv.
      assert (F : truthy (get (set ud v)) = true) by now rewrite get_set.
      pose proof (field_loop_filled (set ud v) (out ++ [Asked prompt]) rest F) as R.
      rewrite R in H. injection H as <- <-.
      exists [line], 1. cbn. rewrite prompts_app.
      repeat split; try discriminate; auto.
      right. exists line, v. cbn. auto.
    + apply IH in H as (consumed & k & Hl & Hp & _ & Hr & Hv & _).
      exists (line :: consumed), (S k). cbn. rewrite Hl.
      split; [reflexivity|]. split.
      { rewrite Hp, prompts_app. cbn. now rewrite <- app_assoc. }
      split; [discriminate|]. split; [exact Hr|].
      split; [|intros _; lia].
      destruct Hv as [Hv | (l & v & Hin & Ha & Hv)]; [left; exact Hv|].
      right. exists l, v. cbn. auto.
Qed.

(** [length bad] rejected answers, then an accepted one: the loop asks once
    more than it rejected and stores the accepted value. *)
Lemma field_loop_retries (bad : list string) (good v : string) (rest : list string)
    (ud : user_data) (out : list io) :
  truthy (get ud) = false ->
  Forall (fun line => accept (strip line) = None) bad ->
  accept (strip good) = Some v ->
  exists out',
    loop ud out (bad ++ good :: rest)
    = (Returned, {| data := set ud v; stdin := rest; shown := out' |})
    /\ prompts out' = (prompts out ++ repeat prompt (S (List.length bad)))%list.
Proof.
  intros T Hbad Hgood. revert out.
  induction Hbad as [|line bad Hline _ IH]; intros out.
  - pose proof (accept_truthy _ _ Hgood) as Tv.
    assert (F : truthy (get (set ud v)) = true) by now rewrite get_set.
    exists (out ++ [Asked prompt])%list. split.
    + cbn [app field_loop]. rewrite T, Hgood.
      apply (field_loop_filled (set ud v) (out ++ [Asked prompt]) rest F).
    + now rewrite prompts_app.
  - destruct (IH (out ++ [Asked prompt; Printed complaint])%list) as (out' & R & P).
    exists out'. split.
    + cbn [app field_loop]. rewrite T, Hline. exact R.
    + rewrite P, prompts_app. cbn. now rewrite <- app_assoc.
Qed.

End FieldLoopFacts.

Lemma accept_name_inv (x v : string) :
  accept_name x = Some v -> valid_name x = true /\ v = title x.
Proof.
  unfold accept_name, valid_name. destruct (truthy x); [|discriminate].
  intros H; injection H as <-. auto.
Qed.

Lemma accept_email_inv (x v : string) :
  accept_email x = Some v -> valid_email x = true /\ v = x /\ truthy x = true.
Proof.
  unfold accept_email, valid_email.
  destruct (truthy x); [|discriminate]. destruct (contains "@" x); [|discriminate].
  intros H; injection H as <-. auto.
Qed.

Lemma accept_phone_inv (x v : string) :
  accept_phone x = Some v -> valid_phone x = true /\ v = x /\ truthy x = true.
Proof.
  unfold accept_phone, valid_phone.
  destruct (truthy x); [|discriminate].
  destruct (10 <=? String.length x); [|discriminate].
  intros H; injection H as <-. auto.
Qed.

Lemma name_loop_run (lines : list string) (ud : user_data) (out : list io)
    (r : outcome) (c : console) :
  name_loop ud out lines = (r, c) ->
  exists consumed k,
    lines = (consumed ++ stdin c)%list
    /\ prompts (shown c) = (prompts out ++ repeat name_prompt k)%list
    /\ (truthy (name ud) = true -> k = 0 /\ name (data c) = name ud)
    /\ (truthy (name ud) = false -> 1 <= k)
    /\ (r = Returned -> truthy (name (data c)) = true)
    /\ email (data c) = email ud /\ phone (data c) = phone ud
    /\ (name (data c) = name ud
        \/ exists line, In line consumed /\ valid_name (strip line) = true
                        /\ name (data c) = title (strip line)).
Proof.
  rewrite name_loop_field. intros H.
  apply field_loop_run in H as (consumed & k & Hl & Hp & Hf & Hr & Hv & Hk).
  - exists consumed, k. split; [exact Hl|]. split; [exact Hp|].
    split. { intros T. destruct (Hf T) as [-> ->]. auto. }
    split; [exact Hk|]. split; [exact Hr|].
    destruct Hv as [-> | (line & v & Hin & Ha & ->)]; [auto|].
    apply accept_name_inv in Ha as [Hx ->]. cbn.
    repeat split. right. exists line. auto.
  - reflexivity.
  - intros x v Ha. apply accept_name_inv in Ha as [Hx ->].
    now rewrite truthy_title.
Qed.

Lemma email_loop_run (lines : list string) (ud : user_data) (out : list io)
    (r : outcome) (c : console) :
  email_loop ud out lines = (r, c) ->
  exists consumed k,
    lines = (consumed ++ stdin c)%list
    /\ prompts (shown c) = (prompts out ++ repeat email_prompt k)%list
    /\ (truthy (email ud) = true -> k = 0 /\ email (data c) = email ud)
    /\ (truthy (email ud) = false -> 1 <= k)
    /\ (r = Returned -> truthy (email (data c)) = true)
    /\ name (data c) = name ud /\ phone (data c) = phone ud
    /\ (email (data c) = email ud
        \/ exists line, In line consumed /\ valid_email (strip line) = true
                        /\ email (data c) = strip line).
Proof.
  rewrite email_loop_field. intros H.
  apply field_loop_run in H as (consumed & k & Hl & Hp & Hf & Hr & Hv & Hk).
  - exists consumed, k. split; [exact Hl|]. split; [exact Hp|].
    split. { intros T. destruct (Hf T) as [-> ->]. auto. }
    split; [exact Hk|]. split; [exact Hr|].
    destruct Hv as [-> | (line & v & Hin & Ha & ->)]; [auto|].
    apply accept_email_inv in Ha as (Hx & -> & _). cbn.
    repeat split. right. exists line. auto.
  - reflexivity.
  - intros x v Ha. now apply accept_email_inv in Ha as (_ & -> & T).
Qed.

Lemma phone_loop_run (lines : list string) (ud : user_data) (out : list io)
    (r : outcome) (c : console) :
  phone_loop ud out lines = (r, c) ->
  exists consumed k,
    lines = (consumed ++ stdin c)%list
    /\ prompts (shown c) = (prompts out ++ repeat phone_prompt k)%list
    /\ (truthy (phone ud) = true -> k = 0 /\ phone (data c) = phone ud)
    /\ (truthy (phone ud) = false -> 1 <= k)
    /\ (r = Returned -> truthy (phone (data c)) = true)
    /\ name (data c) = name ud /\ email (data c) = email ud
    /\ (phone (data c) = phone ud
        \/ exists line, In line consumed /\ valid_phone (strip line) = true
                        /\ phone (data c) = strip line).
Proof.
  rewrite phone_loop_field. intros H.
  apply field_loop_run in H as (consumed & k & Hl & Hp & Hf & Hr & Hv & Hk).
  - exists consumed, k. split; [exact Hl|]. split; [exact Hp|].
    split. { intros T. destruct (Hf T) as [-> ->]. auto. }
    split; [exact Hk|]. split; [exact Hr|].
    destruct Hv as [-> | (line & v & Hin & Ha & ->)]; [auto|].
    apply accept_phone_inv in Ha as (Hx & -> & _). cbn.
    repeat split. right. exists line. auto.
  - reflexivity.
  - intros x v Ha. now apply accept_phone_inv in Ha as (_ & -> & T).
Qed.

End Claims.

(** * Further properties of the code *)

(** ** More on strings *)

Module StrMore.

Import Str StrFacts.

Lemma rstrip_idem (s : string) : rstrip (rstrip s) = rstrip s.
Proof.
  induction s as [|c s IH]; [reflexivity|].
  cbn [rstrip].
  destruct (is_space c && negb (truthy (rstrip s))) eqn:E; [reflexivity|].
  cbn [rstrip]. rewrite IH, E. reflexivity.
Qed.

Lemma lstrip_starts (s : string) :
  lstrip s = EmptyString \/ starts_solid (lstrip s) = true.
Proof.
  induction s as [|c s IH]; [now left|].
  cbn [lstrip]. destruct (is_space c) eqn:E; [exact IH|].
  right. cbn. now rewrite E.
Qed.

Lemma lstrip_solid (s : string) : starts_solid s = true -> lstrip s = s.
Proof.
  destruct s as [|c s]; [reflexivity|]. cbn. intros H.
  apply negb_true_iff in H. now rewrite H.
Qed.

Lemma rstrip_starts (s : string) :
  starts_solid s = true ->
  rstrip s = EmptyString \/ starts_solid (rstrip s) = true.
Proof.
  destruct s as [|c s]; [now left|]. intros H. cbn [rstrip].
  destruct (is_space c && negb (truthy (rstrip s))); [now left | now right].
Qed.

Lemma strip_idem (s : string) : strip (strip s) = strip s.
Proof.
  unfold strip.
  assert (L : lstrip (rstrip (lstrip s)) = rstrip (lstrip s)).
  { destruct (lstrip_starts s) as [E|E].
    - rewrite E. reflexivity.
    - destruct (rstrip_starts _ E) as [F|F].
      + rewrite F. reflexivity.
      + now apply lstrip_solid. }
  rewrite L. apply rstrip_idem.
Qed.

Lemma prefix_trans (a b c : string) :
  prefix a b = true -> prefix b c = true -> prefix a c = true.
Proof.
  revert b c. induction a as [|x a IH]; intros b c Hab Hbc.
  - apply prefix_empty.
  - destruct b as [|y b]; [discriminate|].
    destruct c as [|z c]; [discriminate|].
    apply prefix_cons in Hab as [-> Hab]. apply prefix_cons in Hbc as [-> Hbc].
    apply prefix_cons. split; [reflexivity|]. eauto.
Qed.

(** A substring of a prefix of [t] is a substring of [t]. *)
Lemma contains_in_prefix (a b t : string) :
  contains a b = true -> prefix b t = true -> contains a t = true.
Proof.
  revert t. induction b as [|y b IH]; intros t Hab Hbt.
  - cbn in Hab. rewrite orb_false_r in Hab. apply prefix_of_empty in Hab.
    subst a. destruct t; reflexivity.
  - destruct t as [|z t]; [discriminate|].
    apply prefix_cons in Hbt as [-> Hbt].
    rewrite contains_cons in Hab. apply orb_true_iff in Hab as [Hab|Hab].
    + rewrite contains_cons.
      rewrite (prefix_trans a (String z b) (String z t) Hab); [reflexivity|].
      apply prefix_cons. auto.
    + apply contains_tail. eauto.
Qed.

Lemma contains_trans (a b s : string) :
  contains a b = true -> contains b s = true -> contains a s = true.
Proof.
  intros Hab. induction s as [|c s IH]; intros Hbs.
  - cbn in Hbs. rewrite orb_false_r in Hbs.
    now apply (contains_in_prefix a b).
  - rewrite contains_cons in Hbs. apply orb_true_iff in Hbs as [Hbs|Hbs].
    + now apply (contains_in_prefix a b).
    + apply contains_tail. auto.
Qed.

(** Every word of [long] holds a word of [short]: a text with a word of
    [long] has a word of [short]. *)
Lemma any_in_covered (short long : list string) (s : string) :
  forallb (fun k => any_in short k) long = true ->
  any_in long s = true -> any_in short s = true.
Proof.
  intros Hc H. apply any_in_true in H as (k & Hin & Hk).
  rewrite forallb_forall in Hc. specialize (Hc k Hin).
  apply any_in_true in Hc as (k' & Hin' & Hk').
  apply any_in_true. exists k'. split; [assumption|].
  now apply (contains_trans k' k).
Qed.

Lemma any_in_incl (short long : list string) (s : string) :
  incl short long -> any_in short s = true -> any_in long s = true.
Proof.
  intros Hi H. apply any_in_true in H as (k & Hin & Hk).
  apply any_in_true. exists k. auto.
Qed.

End StrMore.

(** ** [/api/chat]: what the answer depends on *)

Module ChatProps.

Import Str StrFacts StrMore Chatbot Routing ChatFacts Blocks.

Lemma normalize_input_of_lower (s : string) :
  normalize_input (lower s) = normalize_input s.
Proof. unfold normalize_input. now rewrite lower_idem. Qed.

Lemma detect_greeting_of_lower (s : string) :
  detect_greeting (lower s) = detect_greeting s.
Proof. unfold detect_greeting. now rewrite lower_idem. Qed.

Lemma greetings_covered :
  forallb (fun k => any_in short_greetings k) greetings = true.
Proof. reflexivity. Qed.

Lemma exit_words_covered :
  forallb (fun k => any_in short_exit_words k) exit_words = true.
Proof. reflexivity. Qed.

Lemma short_greetings_incl : incl short_greetings greetings.
Proof. intros k H. cbn in H |- *. tauto. Qed.

Lemma short_exit_words_incl : incl short_exit_words exit_words.
Proof. intros k H. cbn in H |- *. tauto. Qed.

Lemma bool_eq_iff (a b : bool) : (a = true <-> b = true) -> a = b.
Proof.
  destruct a, b; intros [H1 H2]; try reflexivity;
    [symmetry; apply H1 | apply H2]; reflexivity.
Qed.

(** The text scraped from the website never reaches an answer: two worlds
    with the same curriculum file get the same response and the same
    calls, whatever their websites hold.  The fetch is made all the same
    whenever [get_smart_answer] is called. *)
Theorem website_never_used (py_str : json -> string) (w w' : world)
    (ud : user_data) (m : string) :
  curriculum_file w = curriculum_file w' ->
  chat py_str w ud (Some m) = chat py_str w' ud (Some m)
  /\ (In call_get_smart_answer (snd (chat py_str w ud (Some m))) ->
      In call_get_website_data (snd (chat py_str w ud (Some m)))).
Proof.
  intros H. split.
  - unfold chat, get_smart_answer, load_course_curriculum. rewrite H.
    reflexivity.
  - rewrite chat_log. destruct (classify m); cbn; intros H0;
      repeat (destruct H0 as [H0|H0]; try discriminate H0);
      try contradiction; auto 10.
Qed.

Lemma website_never_used_witness :
  chat text_of {| curriculum_file := Absent; website := Some "Courses from 999/-" |}
    initial_user_data (Some "what is the price")
  = chat text_of offline initial_user_data (Some "what is the price").
Proof.
  exact (proj1 (website_never_used text_of
                  {| curriculum_file := Absent;
                     website := Some "Courses from 999/-" |}
                  offline initial_user_data "what is the price" eq_refl)).
Defined.

End ChatProps.

(** ** Curriculum questions on missing and malformed data *)

Module CurriculumProps.

Import Str StrFacts Chatbot Routing ChatFacts Blocks Curriculum.

Section Data.

Variable py_str : json -> string.

(** [detail] is the block of [course_modules] under the key of the course,
    with its description as the way out. *)
Lemma detail_block (curriculum_data : json) (c : course) :
  exists heading,
    detail py_str curriculum_data c
    = course_modules py_str curriculum_data (course_key c) heading (description c).
Proof. destruct c; eexists; reflexivity. Qed.

Lemma course_modules_no_entry (curriculum_data : json)
    (key heading descr : string) :
  no_entry curriculum_data key = true ->
  course_modules py_str curriculum_data key heading descr = Some descr.
Proof.
  unfold no_entry, course_modules, has_courses.
  destruct curriculum_data as [| b | z | s | l | d]; try discriminate;
    [reflexivity|].
  destruct d as [|kv d]; [reflexivity|].
  cbn [Py.truthy has subscript bind].
  destruct (dict_get "courses" (kv :: d)) as [[| b | z | s | l | cs]|];
    try discriminate; [|reflexivity].
  cbn [bind has]. destruct (dict_get key cs); [discriminate | reflexivity].
Qed.

Lemma curriculum_overview_no_courses (curriculum_data : json) :
  no_courses curriculum_data = true ->
  curriculum_overview py_str curriculum_data = Some overview_default.
Proof.
  unfold no_courses, curriculum_overview, has_courses.
  destruct curriculum_data as [| b | z | s | l | d]; try discriminate;
    [reflexivity|].
  destruct d as [|kv d]; [reflexivity|].
  cbn [Py.truthy has bind].
  destruct (dict_get "courses" (kv :: d)); [discriminate | reflexivity].
Qed.

(** A block whose course is stored without a list it can walk raises, and
    the answer is lost. *)
Lemma course_modules_unreadable (d cs : list (string * json)) (entry : json)
    (key heading descr : string) :
  dict_get "courses" d = Some (JDict cs) ->
  dict_get key cs = Some entry ->
  (cur <- subscript entry "curriculum" ;; iter cur) = None ->
  course_modules py_str (JDict d) key heading descr = None.
Proof.
  intros Hd Hc Hu. unfold course_modules, has_courses.
  assert (T : Py.truthy (JDict d) = true).
  { destruct d; [discriminate Hd | reflexivity]. }
  rewrite T. cbn [has subscript bind]. rewrite Hd. cbn [bind has subscript].
  rewrite Hc. cbn [bind].
  destruct (subscript entry "curriculum") as [cur|]; [|reflexivity].
  cbn [bind] in Hu |- *. now rewrite Hu.
Qed.

End Data.

Section Overview.

Variable py_str : json -> string.
Hypothesis py_str_string : forall s, py_str (JStr s) = s.

Lemma module_names_json (ms : list module_entry) :
  mapM (fun module => subscript module "module") (map module_json ms)
  = Some (map (fun m => JStr (module_name m)) ms).
Proof.
  induction ms as [|m ms IH]; [reflexivity|].
  cbn [map mapM]. rewrite IH. reflexivity.
Qed.

Lemma as_str_names (ms : list module_entry) :
  mapM as_str (map (fun m => JStr (module_name m)) ms)
  = Some (map module_name ms).
Proof.
  induction ms as [|m ms IH]; [reflexivity|].
  cbn [map mapM]. rewrite IH. reflexivity.
Qed.

Lemma overview_line_json (e : string * (string * list module_entry)) :
  overview_line py_str (course_json (fst (snd e)) (snd (snd e)))
  = Some (overview_text e).
Proof.
  unfold overview_line, course_json, overview_text.
  cbn [subscript dict_get String.eqb Ascii.eqb Bool.eqb bind iter].
  rewrite module_names_json. cbn [bind]. rewrite as_str_names. cbn [bind].
  now rewrite py_str_string.
Qed.

Lemma overview_lines_json (entries : list (string * (string * list module_entry))) :
  mapM (fun kv => overview_line py_str (snd kv))
       (map (fun e => (fst e, course_json (fst (snd e)) (snd (snd e)))) entries)
  = Some (map overview_text entries).
Proof.
  induction entries as [|e entries IH]; [reflexivity|].
  cbn [map mapM snd]. rewrite overview_line_json, IH. reflexivity.
Qed.

Lemma curriculum_overview_listing (d : list (string * json))
    (entries : list (string * (string * list module_entry))) :
  dict_get "courses" d = Some (catalogue_json entries) ->
  curriculum_overview py_str (JDict d)
  = Some ("Available Courses and Modules:" ++ nl
          ++ join nl (map overview_text entries))%string.
Proof.
  intros Hd. unfold curriculum_overview, has_courses.
  assert (T : Py.truthy (JDict d) = true).
  { destruct d; [discriminate Hd | reflexivity]. }
  rewrite T. cbn [has subscript bind]. rewrite Hd. cbn [bind].
  unfold catalogue_json. cbn [items bind].
  rewrite overview_lines_json. reflexivity.
Qed.

End Overview.

End CurriculumProps.

(** ** The course matcher and [/smart-chatbot] *)

Module ApiProps.

Import Str StrFacts Matching.

Section Handler.

Variable json_dumps : list json -> string.

(** A curriculum with a course whose name is not a string makes the
    matcher raise: the handler answers 500 after the fetch, the load and
    the matcher, and the crew is not run. *)
Theorem smart_chatbot_matcher_raises (w : Api.world) (m : string) :
  truthy m = true ->
  forallb well_named (Api.courses_of (Api.load_course_curriculum w)) = false ->
  Api.smart_chatbot json_dumps w (Some m)
  = ({| status := 500; payload := Failure |},
     [call_get_website_data; call_load_course_curriculum;
      call_find_relevant_courses]).
Proof.
  intros T H.
  assert (E : Api.find_relevant_courses m (Api.load_course_curriculum w) = None).
  { unfold Api.find_relevant_courses. cbv zeta.
    rewrite Claims.match_loop_filter, H. reflexivity. }
  unfold Api.smart_chatbot, lbind, calling. cbn [fst snd].
  rewrite T, E. reflexivity.
Qed.

(** Without a course list (no file, a file that does not parse, a document
    that is no dict, has no "courses" or has something else than a dict or
    a list there) the handler still runs the crew, with an empty list of
    courses, and answers what the crew gives: the failed load is not
    reported. *)
Theorem smart_chatbot_without_courses (w : Api.world) (m : string) :
  truthy m = true ->
  Api.courses_of (Api.load_course_curriculum w) = [] ->
  let context :=
    (Api.get_website_data w ++ nl ++ nl ++ "Relevant Courses:" ++ nl
     ++ json_dumps [])%string in
  Api.smart_chatbot json_dumps w (Some m)
  = (match Api.run_chatbot_crew w m context [] with
     | Some summary => {| status := 200; payload := Payload summary |}
     | None => {| status := 500; payload := Failure |}
     end,
     [call_get_website_data; call_load_course_curriculum;
      call_find_relevant_courses; call_run_chatbot_crew]).
Proof.
  intros T H context.
  assert (E : Api.find_relevant_courses m (Api.load_course_curriculum w)
              = Some []).
  { unfold Api.find_relevant_courses. cbv zeta. rewrite H. reflexivity. }
  unfold Api.smart_chatbot, lbind, calling. cbn [fst snd].
  rewrite T, E. cbn [negb fst snd]. fold context.
  destruct (Api.run_chatbot_crew w m context []); reflexivity.
Qed.

End Handler.

Lemma smart_chatbot_matcher_raises_witness :
  Api.smart_chatbot (fun _ => EmptyString)
    {| Api.curriculum_file :=
         Parsed (JDict [("courses", JList [JDict [("name", JNum 7)]])]);
       Api.website := None;
       Api.run_chatbot_crew := fun _ _ _ => Some JNull |} (Some "python")
  = ({| status := 500; payload := Failure |},
     [call_get_website_data; call_load_course_curriculum;
      call_find_relevant_courses]).
Proof.
  exact (smart_chatbot_matcher_raises (fun _ => EmptyString)
           {| Api.curriculum_file :=
                Parsed (JDict [("courses", JList [JDict [("name", JNum 7)]])]);
              Api.website := None;
              Api.run_chatbot_crew := fun _ _ _ => Some JNull |}
           "python" eq_refl eq_refl).
Defined.

Lemma smart_chatbot_without_courses_witness :
  Api.courses_of
    (Api.load_course_curriculum
       {| Api.curriculum_file := Unparseable; Api.website := None;
          Api.run_chatbot_crew := fun _ _ courses => Some (JList courses) |}) = []
  /\ Api.smart_chatbot (fun _ => "[]")
       {| Api.curriculum_file := Unparseable; Api.website := None;
          Api.run_chatbot_crew := fun _ _ courses => Some (JList courses) |}
       (Some "python")
     = ({| status := 200; payload := Payload (JList []) |},
        [call_get_website_data; call_load_course_curriculum;
         call_find_relevant_courses; call_run_chatbot_crew]).
Proof.
  split; [reflexivity|].
  exact (smart_chatbot_without_courses (fun _ => "[]")
           {| Api.curriculum_file := Unparseable; Api.website := None;
              Api.run_chatbot_crew := fun _ _ courses => Some (JList courses) |}
           "python" eq_refl eq_refl).
Defined.

End ApiProps.

(** ** The summary of a crew run *)

Module CrewProps.

Import Crew Curriculum.

Lemma clean_loop_map (matched cleaned : list json) :
  clean_loop matched cleaned
  = (cleaned ++ map clean_json (filter is_dict matched))%list.
Proof.
  revert cleaned. induction matched as [|c matched IH]; intros cleaned.
  - cbn. now rewrite app_nil_r.
  - destruct c; cbn [clean_loop filter is_dict map clean_json]; rewrite IH;
      try reflexivity.
    now rewrite <- app_assoc.
Qed.

Lemma clean_json_clean (d : list (string * json)) :
  is_clean (clean_course d) = true
  /\ is_dict (clean_course d) = true
  /\ clean_json (clean_course d) = clean_course d.
Proof. repeat split. Qed.

Lemma cleaned_fixed (l : list json) :
  Forall (fun c => is_dict c = true /\ clean_json c = c) l ->
  map clean_json (filter is_dict l) = l.
Proof.
  induction 1 as [|c l [Hd Hc] _ IH]; [reflexivity|].
  cbn [filter]. rewrite Hd. cbn [map]. now rewrite Hc, IH.
Qed.

(** The courses of the summary: one entry per matched course that is a
    dict, in the same order, each with the four keys name, duration,
    modules and outcome and nothing else; what is no dict is dropped, and
    cleaning the cleaned list again changes nothing. *)
Theorem summary_courses (user_question : string) (matched_courses : list json)
    (tasks : outputs) :
  let cleaned := map clean_json (filter is_dict matched_courses) in
  subscript (summarize_response user_question matched_courses tasks)
    "matched_courses" = Some (JList cleaned)
  /\ forallb is_clean cleaned = true
  /\ List.length cleaned <= List.length matched_courses
  /\ clean_loop cleaned [] = cleaned.
Proof.
  intros cleaned.
  assert (F : Forall (fun c => is_clean c = true
                               /\ is_dict c = true /\ clean_json c = c) cleaned).
  { subst cleaned. induction matched_courses as [|c l IH]; [constructor|].
    destruct c; cbn [filter is_dict map]; try exact IH.
    constructor; [apply clean_json_clean | exact IH]. }
  split.
  { unfold summarize_response. rewrite clean_loop_map. reflexivity. }
  split.
  { apply forallb_forall. rewrite Forall_forall in F.
    intros c Hc. apply (F c Hc). }
  split.
  { subst cleaned. rewrite length_map. apply filter_length_le. }
  rewrite clean_loop_map. cbn [app]. apply cleaned_fixed.
  revert F. apply Forall_impl. tauto.
Qed.

(** Courses in the shape of the curriculum file keep their module lists
    under "curriculum", a key the summary does not read: each of them is
    summarized by its name alone, with "N/A" for duration, modules and
    outcome. *)
Theorem summary_drops_modules (entries : list (string * list module_entry)) :
  clean_loop (map (fun e => course_json (fst e) (snd e)) entries) []
  = map (fun e => name_only (JStr (fst e))) entries.
Proof.
  rewrite clean_loop_map. cbn [app].
  induction entries as [|e entries IH]; [reflexivity|].
  cbn [map filter is_dict course_json]. rewrite IH. reflexivity.
Qed.

End CrewProps.

(** ** The profile prompts and [/api/initialize] *)

Module ProfileProps.

Import Str StrFacts Chatbot Profile Initialize.

Section FieldLoopMore.

Variable get : user_data -> string.
Variable set : user_data -> string -> user_data.
Variable prompt complaint : string.
Variable accept : string -> option string.

Local Abbreviation loop := (field_loop get set prompt complaint accept).

(** Every prompt reads one line, but for the one that meets the end of the
    input. *)
Lemma field_loop_count (lines : list string) :
  forall ud out r c,
    loop ud out lines = (r, c) ->
    List.length (prompts (shown c)) + List.length (stdin c)
    = List.length (prompts out) + List.length lines + raised r.
Proof.
  induction lines as [|line rest IH]; intros ud out r c H;
    cbn [field_loop] in H; destruct (truthy (get ud)).
  - injection H as <- <-. cbn. lia.
  - injection H as <- <-. cbn. rewrite Claims.prompts_app, length_app. cbn. lia.
  - injection H as <- <-. cbn. lia.
  - destruct (accept (strip line)); apply IH in H;
      rewrite Claims.prompts_app, length_app in H; cbn in H |- *; lia.
Qed.

Hypothesis get_set : forall ud v, get (set ud v) = v.
Hypothesis accept_truthy : forall x v, accept x = Some v -> truthy v = true.
Hypothesis greeted_set : forall ud v, greeted (set ud v) = greeted ud.

(** An empty field: the loop stores what the first accepted line gives and
    leaves the lines after it; without an accepted line it reads all the
    input and raises, the field still empty. *)
Lemma field_loop_first (lines : list string) :
  forall ud out,
    truthy (get ud) = false ->
    match first_accepted accept lines with
    | Some (v, rest) =>
        exists out',
          loop ud out lines
          = (Returned, {| data := set ud v; stdin := rest; shown := out' |})
    | None =>
        exists out',
          loop ud out lines
          = (Raised_EOFError, {| data := ud; stdin := []; shown := out' |})
    end.
Proof.
  induction lines as [|line rest IH]; intros ud out T;
    cbn [field_loop first_accepted]; rewrite T.
  - eexists. reflexivity.
  - destruct (accept (strip line)) as [v|] eqn:A.
    + pose proof (accept_truthy _ _ A) as Tv.
      assert (F : truthy (get (set ud v)) = true) by now rewrite get_set.
      rewrite (Claims.field_loop_filled get set prompt complaint accept
                 (set ud v) (out ++ [Asked prompt]) rest F).
      eexists. reflexivity.
    + apply IH. exact T.
Qed.

Lemma field_loop_greeted (lines : list string) (ud : user_data)
    (out : list io) (r : outcome) (c : console) :
  loop ud out lines = (r, c) -> greeted (data c) = greeted ud.
Proof.
  intros H.
  apply (Claims.field_loop_run get set prompt complaint accept get_set
           accept_truthy) in H as (u & k & _ & _ & _ & _ & Hv & _).
  destruct Hv as [-> | (line & v & _ & _ & ->)]; [reflexivity | apply greeted_set].
Qed.

(** A loop that raises has read all the input and stored nothing. *)
Lemma field_loop_raised (lines : list string) (ud : user_data)
    (out : list io) (c : console) :
  loop ud out lines = (Raised_EOFError, c) ->
  stdin c = [] /\ data c = ud /\ truthy (get ud) = false.
Proof.
  intros H. destruct (truthy (get ud)) eqn:T.
  - rewrite (Claims.field_loop_filled get set prompt complaint accept
               ud out lines T) in H. discriminate.
  - pose proof (field_loop_first lines ud out T) as F.
    destruct (first_accepted accept lines) as [[v rest]|];
      destruct F as [out' F]; rewrite F in H; [discriminate|].
    injection H as <-. auto.
Qed.

End FieldLoopMore.

Lemma accept_name_truthy (x v : string) :
  accept_name x = Some v -> truthy v = true.
Proof.
  intros H. apply Claims.accept_name_inv in H as [Hx ->].
  now rewrite truthy_title.
Qed.

Lemma accept_email_truthy (x v : string) :
  accept_email x = Some v -> truthy v = true.
Proof. intros H. now apply Claims.accept_email_inv in H as (_ & -> & T). Qed.

Lemma accept_phone_truthy (x v : string) :
  accept_phone x = Some v -> truthy v = true.
Proof. intros H. now apply Claims.accept_phone_inv in H as (_ & -> & T). Qed.

Section Loops.

Variable get : user_data -> string.
Variable set : user_data -> string -> user_data.
Variable prompt complaint : string.
Variable accept : string -> option string.
Hypothesis get_set : forall ud v, get (set ud v) = v.
Hypothesis accept_truthy : forall x v, accept x = Some v -> truthy v = true.
Hypothesis greeted_set : forall ud v, greeted (set ud v) = greeted ud.

Lemma field_loop_facts (ud : user_data) (out : list io) (lines : list string)
    (r : outcome) (c : console) :
  field_loop get set prompt complaint accept ud out lines = (r, c) ->
  loop_facts get ud out lines r c.
Proof.
  intros H. constructor.
  - exact (field_loop_count get set prompt complaint accept lines ud out r c H).
  - exact (field_loop_greeted get set prompt complaint accept get_set
             accept_truthy greeted_set lines ud out r c H).
  - intros ->.
    exact (field_loop_raised get set prompt complaint accept get_set
             accept_truthy lines ud out c H).
  - apply (Claims.field_loop_run get set prompt complaint accept get_set
             accept_truthy) in H as (u & k & _ & _ & _ & Hr & _).
    exact Hr.
  - intros T.
    rewrite (Claims.field_loop_filled get set prompt complaint accept
               ud out lines T) in H.
    injection H as <- <-. auto.
Qed.

End Loops.

Lemma name_loop_facts (ud : user_data) (out : list io) (lines : list string)
    (r : outcome) (c : console) :
  name_loop ud out lines = (r, c) -> loop_facts name ud out lines r c.
Proof.
  rewrite Claims.name_loop_field.
  apply field_loop_facts; [reflexivity | exact accept_name_truthy | reflexivity].
Qed.

Lemma email_loop_facts (ud : user_data) (out : list io) (lines : list string)
    (r : outcome) (c : console) :
  email_loop ud out lines = (r, c) -> loop_facts email ud out lines r c.
Proof.
  rewrite Claims.email_loop_field.
  apply field_loop_facts; [reflexivity | exact accept_email_truthy | reflexivity].
Qed.

Lemma phone_loop_facts (ud : user_data) (out : list io) (lines : list string)
    (r : outcome) (c : console) :
  phone_loop ud out lines = (r, c) -> loop_facts phone ud out lines r c.
Proof.
  rewrite Claims.phone_loop_field.
  apply field_loop_facts; [reflexivity | exact accept_phone_truthy | reflexivity].
Qed.

End ProfileProps.

Module InitializeProps.

Import Str StrFacts Chatbot Profile Initialize ProfileProps.

Section Routine.

Variable CHATBOT_NAME : string.

Local Abbreviation banner :=
  [ Printed ("🤖 " ++ CHATBOT_NAME);
    Printed "💬 Welcome to SkillCapital! Let me get to know you better.";
    Printed rule ].

Local Ltac use_facts :=
  cbn [data stdin shown raised] in *;
  rewrite ?Claims.prompts_app, ?length_app in *; cbn [prompts List.length] in *;
  repeat match goal with
         | H : Returned = Returned -> _ |- _ => specialize (H eq_refl)
         | H : Raised_EOFError = Raised_EOFError -> _ |- _ => specialize (H eq_refl)
         | H : Raised_EOFError = Returned -> _ |- _ => clear H
         | H : Returned = Raised_EOFError -> _ |- _ => clear H
         | H : _ /\ _ |- _ => destruct H
         end.

Lemma complete_false (ud : user_data) :
  truthy (name ud) = false \/ truthy (email ud) = false
  \/ truthy (phone ud) = false ->
  complete ud = false.
Proof.
  unfold complete. intros [H | [H | H]]; rewrite H;
    rewrite ?andb_false_r; reflexivity.
Qed.

(** What a run of the routine leaves, whatever its outcome. *)
Lemma collect_facts (ud : user_data) (lines : list string) (r : outcome)
    (c : console) :
  collect_user_info CHATBOT_NAME ud lines = (r, c) ->
  greeted (data c) = greeted ud
  /\ (truthy (name ud) = true -> name (data c) = name ud)
  /\ (truthy (email ud) = true -> email (data c) = email ud)
  /\ (truthy (phone ud) = true -> phone (data c) = phone ud)
  /\ List.length (prompts (shown c)) + List.length (stdin c)
     = List.length lines + raised r
  /\ (r = Raised_EOFError -> stdin c = [] /\ complete (data c) = false)
  /\ (r = Returned -> complete (data c) = true).
Proof.
  unfold collect_user_info.
  destruct (name_loop ud banner lines) as [r1 c1] eqn:E1.
  pose proof (name_loop_facts _ _ _ _ _ E1) as [C1 G1 X1 T1 _].
  apply Claims.name_loop_run in E1
    as (u1 & k1 & _ & _ & K1 & _ & _ & Ne1 & Np1 & _).
  assert (A1 : truthy (name ud) = true -> name (data c1) = name ud)
    by (intros T; apply (K1 T)).
  clear K1.
  destruct r1; [|intros H; injection H as <- <-].
  2:{ use_facts. repeat split; intros; try discriminate; try congruence;
        try lia; auto.
      apply complete_false. left. congruence. }
  destruct (email_loop (data c1) (shown c1) (stdin c1)) as [r2 c2] eqn:E2.
  pose proof (email_loop_facts _ _ _ _ _ E2) as [C2 G2 X2 T2 _].
  apply Claims.email_loop_run in E2
    as (u2 & k2 & _ & _ & K2 & _ & _ & En2 & Ep2 & _).
  assert (A2 : truthy (email ud) = true -> email (data c2) = email ud).
  { intros T. rewrite <- Ne1 in T. destruct (K2 T). congruence. }
  clear K2.
  destruct r2; [|intros H; injection H as <- <-].
  2:{ use_facts. repeat split; intros; try discriminate; try congruence;
        try lia; auto.
      - rewrite En2. auto.
      - apply complete_false. right. left. congruence. }
  destruct (phone_loop (data c2) (shown c2) (stdin c2)) as [r3 c3] eqn:E3.
  pose proof (phone_loop_facts _ _ _ _ _ E3) as [C3 G3 X3 T3 _].
  apply Claims.phone_loop_run in E3
    as (u3 & k3 & _ & _ & K3 & _ & _ & Pn3 & Pe3 & _).
  assert (A3 : truthy (phone ud) = true -> phone (data c3) = phone ud).
  { intros T. rewrite <- Np1, <- Ep2 in T. destruct (K3 T). congruence. }
  clear K3.
  destruct r3; intros H; injection H as <- <-.
  - use_facts. repeat split; intros; try discriminate; try congruence;
      try lia; auto.
    + rewrite Pn3, En2. auto.
    + rewrite Pe3. auto.
    + unfold complete. cbn [data]. rewrite T3, Pe3, T2, Pn3, En2, T1.
      reflexivity.
  - use_facts. repeat split; intros; try discriminate; try congruence;
      try lia; auto.
    + rewrite Pn3, En2. auto.
    + rewrite Pe3. auto.
    + apply complete_false. right. right. congruence.
Qed.

(** A complete profile: the routine prints its banner and its thanks, asks
    nothing and reads nothing. *)
Lemma collect_complete (ud : user_data) (lines : list string) :
  complete ud = true ->
  collect_user_info CHATBOT_NAME ud lines
  = (Returned,
     {| data := ud; stdin := lines;
        shown := banner ++
          [ Printed (nl ++ "Thank you, " ++ name ud
                     ++ "! How can I assist you today?");
            Printed rule ] |}).
Proof.
  unfold complete. intros H.
  apply andb_true_iff in H as [H Hp]. apply andb_true_iff in H as [Hn He].
  unfold collect_user_info.
  rewrite Claims.name_loop_field, (Claims.field_loop_filled name _ _ _ _ _ _ _ Hn).
  cbn [data stdin shown].
  rewrite Claims.email_loop_field, (Claims.field_loop_filled email _ _ _ _ _ _ _ He).
  cbn [data stdin shown].
  rewrite Claims.phone_loop_field, (Claims.field_loop_filled phone _ _ _ _ _ _ _ Hp).
  reflexivity.
Qed.

End Routine.

(** Whatever the outcome of [collect_user_info], a field that was filled
    keeps its value and the greeted flag is not touched.  The routine
    returns with all three fields filled; when the input runs out it has
    read all of it, and what was accepted before stays in the profile, with
    at least one field still empty. *)
Theorem routine_keeps_progress (CHATBOT_NAME : string) (ud : user_data)
    (lines : list string) (r : outcome) (c : console) :
  collect_user_info CHATBOT_NAME ud lines = (r, c) ->
  greeted (data c) = greeted ud
  /\ (truthy (name ud) = true -> name (data c) = name ud)
  /\ (truthy (email ud) = true -> email (data c) = email ud)
  /\ (truthy (phone ud) = true -> phone (data c) = phone ud)
  /\ (r = Raised_EOFError -> stdin c = [] /\ complete (data c) = false)
  /\ (r = Returned -> complete (data c) = true).
Proof.
  intros H. apply collect_facts in H as (G & N & E & P & _ & X & R). auto 10.
Qed.

Lemma routine_keeps_progress_witness :
  exists c,
    collect_user_info "SkillCapital Assistant" initial_user_data
      ["ada"; "not an address"] = (Raised_EOFError, c)
    /\ name (data c) = "Ada" /\ stdin c = [] /\ complete (data c) = false.
Proof.
  eexists. split; [reflexivity|]. split; [reflexivity|].
  exact (proj1 (proj2 (proj2 (proj2 (proj2
           (routine_keeps_progress "SkillCapital Assistant" initial_user_data
              ["ada"; "not an address"] Raised_EOFError _ eq_refl))))) eq_refl).
Defined.

(** Each prompt of the routine reads exactly one line: when it returns,
    the prompts shown and the lines left unread add up to the lines given;
    when the input runs out there is one prompt more than lines. *)
Theorem routine_reads_one_line_per_prompt (CHATBOT_NAME : string)
    (ud : user_data) (lines : list string) (r : outcome) (c : console) :
  collect_user_info CHATBOT_NAME ud lines = (r, c) ->
  List.length (prompts (shown c)) + List.length (stdin c)
  = List.length lines + raised r.
Proof. intros H. now apply collect_facts in H as (_ & _ & _ & _ & C & _). Qed.

Lemma routine_reads_one_line_per_prompt_witness :
  exists c,
    collect_user_info "SkillCapital Assistant" initial_user_data
      [" "; "ada"; "ada@example.org"; "12"; "0123456789"; "hello"]
    = (Returned, c)
    /\ stdin c = ["hello"]
    /\ List.length (prompts (shown c)) + List.length (stdin c) = 6 + 0.
Proof.
  eexists. split; [reflexivity|]. split; [reflexivity|].
  exact (routine_reads_one_line_per_prompt "SkillCapital Assistant"
           initial_user_data
           [" "; "ada"; "ada@example.org"; "12"; "0123456789"; "hello"]
           Returned _ eq_refl).
Defined.

(** The profile is collected once: after a run that returned, every
    further [POST /api/initialize] whose agents can be created answers 200
    without asking or reading anything, whatever the input holds, and
    leaves the profile as it is. *)
Theorem initialize_again (CHATBOT_NAME : string) (ud : user_data)
    (lines lines' : list string) (c : console) :
  collect_user_info CHATBOT_NAME ud lines = (Returned, c) ->
  exists out,
    initialize_chat CHATBOT_NAME true (data c) lines'
    = ((200, Status "Chatbot initialized successfully."),
       {| data := data c; stdin := lines'; shown := out |})
    /\ prompts out = [].
Proof.
  intros H. apply collect_facts in H as (_ & _ & _ & _ & _ & _ & R).
  specialize (R eq_refl). unfold initialize_chat.
  rewrite (collect_complete CHATBOT_NAME (data c) lines' R).
  eexists. split; reflexivity.
Qed.

Lemma initialize_again_witness :
  exists c out,
    collect_user_info "SkillCapital Assistant" initial_user_data
      ["ada"; "ada@example.org"; "0123456789"] = (Returned, c)
    /\ initialize_chat "SkillCapital Assistant" true (data c) []
       = ((200, Status "Chatbot initialized successfully."),
          {| data := data c; stdin := []; shown := out |})
    /\ prompts out = [].
Proof.
  eexists.
  destruct (initialize_again "SkillCapital Assistant" initial_user_data
              ["ada"; "ada@example.org"; "0123456789"] [] _ eq_refl)
    as (out & H & P).
  exists out. split; [reflexivity|]. split; [exact H | exact P].
Defined.

End InitializeProps.

(** * The code over Python's text methods: properties *)

(** ** Routing *)

Module CodeFacts.

Import Str StrFacts Chatbot Routing.

(** The modules of the first part are the code read with the methods of
    ASCII text. *)
Lemma ascii_chat (py_str : json -> string) (w : world) (ud : user_data)
    (message : option string) :
  Code.chat Text.ascii_text py_str w ud message = chat py_str w ud message.
Proof. reflexivity. Qed.

Lemma ascii_classify (m : string) :
  Code.classify Text.ascii_text m = classify m.
Proof. reflexivity. Qed.

Lemma ascii_normalize_input (s : string) :
  Code.normalize_input Text.ascii_text s = normalize_input s.
Proof. reflexivity. Qed.

Section Refinement.

Variable T : Text.ops.
Variable py_str : json -> string.

Lemma code_get_smart_answer_value (w : world) (user_input : string) :
  fst (Code.get_smart_answer T py_str w user_input)
  = or_fallback (smart_answer py_str (load_course_curriculum w)
                   (Code.normalize_input T user_input)).
Proof. reflexivity. Qed.

Lemma code_get_smart_answer_log (w : world) (user_input : string) :
  snd (Code.get_smart_answer T py_str w user_input)
  = [call_load_course_curriculum; call_get_website_data; call_normalize_input].
Proof. reflexivity. Qed.

(** The handler answers as the intent of the message says. *)
Lemma code_chat_refines (w : world) (ud : user_data) (m : string) :
  fst (Code.chat T py_str w ud (Some m))
  = assemble py_str w ud (Code.classify T m).
Proof.
  unfold Code.chat, Code.classify, Code.detect_greeting.
  destruct (truthy (Text.strip T m)); cbn [negb]; [|reflexivity].
  destruct (any_in exit_words (Text.lower T (Text.strip T m))); [reflexivity|].
  cbn [lbind calling fst snd].
  destruct (any_in greetings
              (Text.strip T (Text.lower T (Text.strip T m)))); [reflexivity|].
  cbn [lbind tell ret fst snd]. rewrite code_get_smart_answer_value.
  destruct (any_in skillcapital_keywords
              (Code.normalize_input T (Text.strip T m))) eqn:D.
  - now apply ChatFacts.smart_answer_sub_intent.
  - unfold smart_answer. now rewrite D.
Qed.

(** The calls the handler makes, by intent. *)
Lemma code_chat_log (w : world) (ud : user_data) (m : string) :
  snd (Code.chat T py_str w ud (Some m))
  = match Code.classify T m with
    | Invalid | Exit => []
    | Greeting => [call_detect_greeting]
    | _ => [call_detect_greeting; call_get_smart_answer;
            call_load_course_curriculum; call_get_website_data;
            call_normalize_input]
    end.
Proof.
  unfold Code.chat, Code.classify, Code.detect_greeting, sub_intent.
  destruct (truthy (Text.strip T m)); cbn [negb]; [|reflexivity].
  destruct (any_in exit_words (Text.lower T (Text.strip T m))); [reflexivity|].
  cbn [lbind calling fst snd].
  destruct (any_in greetings
              (Text.strip T (Text.lower T (Text.strip T m)))); [reflexivity|].
  cbn [lbind tell ret fst snd app]. rewrite code_get_smart_answer_log.
  repeat match goal with
         | |- context [if ?b then _ else _] => destruct b
         end; reflexivity.
Qed.

End Refinement.

End CodeFacts.

(** ** The claims on routing, matching and requests *)

Module CodeClaims.

Import Str StrFacts Chatbot Routing CodeFacts Matching Curriculum.



(** C3: whatever the curriculum file and the website hold, a message with
    the price intent is answered "999/-" and a message with the duration
    intent "30 hours". *)
Theorem C3_price_and_duration (T : Text.ops) (py_str : json -> string)
    (w : world) (ud : user_data) (m : string) :
  (Code.classify T m = Price ->
   fst (Code.chat T py_str w ud (Some m)) = ok "999/-") /\
  (Code.classify T m = Duration ->
   fst (Code.chat T py_str w ud (Some m)) = ok "30 hours").
Proof. rewrite code_chat_refines. split; intros ->; reflexivity. Qed.

Lemma C3_price_and_duration_witness :
  (Code.classify Text.ascii_text "what does devops cost" = Price /\
   fst (Code.chat Text.ascii_text text_of offline initial_user_data
          (Some "what does devops cost"))
   = ok "999/-") /\
  (Code.classify Text.ascii_text "how long is the cloud course" = Duration /\
   fst (Code.chat Text.ascii_text text_of offline initial_user_data
          (Some "how long is the cloud course"))
   = ok "30 hours").
Proof.
  assert (H1 : Code.classify Text.ascii_text "what does devops cost" = Price)
    by (vm_compute; reflexivity).
  assert (H2 : Code.classify Text.ascii_text "how long is the cloud course"
               = Duration) by (vm_compute; reflexivity).
  split; (split; [assumption|]).
  - exact (proj1 (C3_price_and_duration Text.ascii_text text_of offline
                    initial_user_data "what does devops cost") H1).
  - exact (proj2 (C3_price_and_duration Text.ascii_text text_of offline
                    initial_user_data "how long is the cloud course") H2).
Defined.

(** *** Course matching *)

Lemma code_match_loop_filter (T : Text.ops) (q : string)
    (courses matched : list json) :
  Code.match_loop T q courses matched
  = if forallb well_named courses
    then Some (matched ++ filter (Code.mentioned_in T q) courses)%list
    else None.
Proof.
  revert matched. induction courses as [|course rest IH]; intros matched.
  - simpl. now rewrite app_nil_r.
  - cbn [Code.match_loop forallb filter].
    destruct course as [| b | z | s | l | d];
      cbn [well_named Code.mentioned_in Code.display_name andb];
      try apply IH.
    unfold Code.course_name, Code.mentioned_in at 1. cbn [Code.display_name].
    destruct (dict_get "name" d) as [[| b | z | s | l | d']|]; cbn [bind andb];
      try reflexivity.
    + destruct (truthy (Text.lower T s) && contains (Text.lower T s) q).
      * rewrite IH. destruct (forallb well_named rest); [|reflexivity].
        now rewrite <- app_assoc.
      * apply IH.
    + destruct (truthy (Text.lower T EmptyString)
                && contains (Text.lower T EmptyString) q).
      * rewrite IH. destruct (forallb well_named rest); [|reflexivity].
        now rewrite <- app_assoc.
      * apply IH.
Qed.

(** C4, amended: when every course name is a string, the matcher returns
    the courses whose lower-cased display name is not empty and occurs in
    the lower-cased message, in curriculum order, and the full course list
    when there is none; a name that is not a string raises. *)
Theorem C4_find_relevant_courses (T : Text.ops) (question : string)
    (curriculum_data : json) :
  let courses := Api.courses_of curriculum_data in
  Code.find_relevant_courses T question curriculum_data
  = if forallb well_named courses
    then Some (or_all courses
                 (filter (Code.mentioned_in T (Text.lower T question)) courses))
    else None.
Proof.
  intros courses. unfold Code.find_relevant_courses. fold courses.
  cbv zeta. rewrite code_match_loop_filter.
  destruct (forallb well_named courses); reflexivity.
Qed.

(** *** Module listings *)

(** C5, as stated, fails: in the answer for the fixture no line is "Python
    Fundamentals (5 hours)"; the line of the module starts with a book
    sign. *)
Lemma C5_module_line_has_book_sign :
  Text.lines
    (Code.response_text
       (fst (chat text_of {| curriculum_file := Parsed python_only; website := None |}
               initial_user_data (Some "python curriculum"))))
  = [ "Python Programming Course Modules:";
      "📚 Python Fundamentals (5 hours)";
      "  • Variables";
      "  • Loops" ]
  /\ ~ In "Python Fundamentals (5 hours)"
       (Text.lines
          (Code.response_text
             (fst (chat text_of
                     {| curriculum_file := Parsed python_only; website := None |}
                     initial_user_data (Some "python curriculum"))))).
Proof.
  assert (E : Text.lines
                (Code.response_text
                   (fst (chat text_of
                           {| curriculum_file := Parsed python_only;
                              website := None |}
                           initial_user_data (Some "python curriculum"))))
              = [ "Python Programming Course Modules:";
                  "📚 Python Fundamentals (5 hours)";
                  "  • Variables";
                  "  • Loops" ]) by (vm_compute; reflexivity).
  rewrite E. split; [reflexivity|].
  cbn [In]. intros [H | [H | [H | [H | []]]]]; discriminate H.
Qed.

(** C5, amended: with a curriculum file that stores under "python" the
    course "Python" with its modules, a curriculum request that names
    python is answered with the heading line and then, module by module in
    stored order, the module line (a book sign, the name, the duration in
    brackets) and one indented bullet line per topic in stored order.  For
    the single module "Python Fundamentals" of "5 hours" with the topics
    "Variables" and "Loops" the answer is the four lines below. *)
Theorem C5_python_modules (T : Text.ops) (py_str : json -> string) (w : world)
    (ud : user_data) (m : string) (d cs : list (string * json))
    (modules : list module_entry) :
  (forall s, py_str (JStr s) = s) ->
  curriculum_file w = Parsed (JDict d) ->
  dict_get "courses" d = Some (JDict cs) ->
  dict_get "python" cs = Some (course_json "Python" modules) ->
  Code.classify T m = CurriculumDetail Python ->
  fst (Code.chat T py_str w ud (Some m))
  = ok ("Python Programming Course Modules:" ++ nl
        ++ join nl (concat (map module_text modules)))
  /\ (modules = [python_fundamentals] ->
      fst (Code.chat T py_str w ud (Some m))
      = ok "Python Programming Course Modules:
📚 Python Fundamentals (5 hours)
  • Variables
  • Loops"
      /\ Text.lines (Code.response_text (fst (Code.chat T py_str w ud (Some m))))
         = [ "Python Programming Course Modules:";
             "📚 Python Fundamentals (5 hours)";
             "  • Variables";
             "  • Loops" ]).
Proof.
  intros Hs Hw Hd Hc Hm.
  assert (R : fst (Code.chat T py_str w ud (Some m))
              = ok ("Python Programming Course Modules:" ++ nl
                    ++ join nl (concat (map module_text modules)))).
  { rewrite code_chat_refines, Hm. cbn [assemble detail].
    unfold load_course_curriculum. rewrite Hw.
    rewrite (Claims.course_modules_listing py_str Hs d cs "python" "Python"
               _ _ modules Hd Hc).
    reflexivity. }
  split; [exact R|]. intros ->. rewrite R. split; reflexivity.
Qed.

Lemma C5_python_modules_witness :
  fst (Code.chat Text.ascii_text text_of
         {| curriculum_file := Parsed python_only; website := None |}
         initial_user_data (Some "python curriculum"))
  = ok "Python Programming Course Modules:
📚 Python Fundamentals (5 hours)
  • Variables
  • Loops".
Proof.
  assert (H : Code.classify Text.ascii_text "python curriculum"
              = CurriculumDetail Python) by (vm_compute; reflexivity).
  exact (proj1 (proj2 (C5_python_modules Text.ascii_text text_of
                   {| curriculum_file := Parsed python_only; website := None |}
                   initial_user_data "python curriculum"
                   [("courses",
                     JDict [("python", course_json "Python" [python_fundamentals])])]
                   [("python", course_json "Python" [python_fundamentals])]
                   [python_fundamentals]
                   (fun s => eq_refl) eq_refl eq_refl eq_refl H) eq_refl)).
Defined.

(** *** Requests without a message *)




End CodeClaims.

(** ** The profile prompts, whatever the text methods *)

Module CodeProfile.

Import Str StrFacts Chatbot Profile.

Section WithText.

Variable T : Text.ops.

Lemma code_name_loop_field (lines : list string) (ud : user_data)
    (out : list io) :
  Code.name_loop T ud out lines
  = Code.field_loop name set_name name_prompt "Please enter your name."
      (Code.accept_name T) ud out lines.
Proof.
  revert ud out. induction lines as [|line rest IH]; intros ud out;
    cbn [Code.name_loop Code.field_loop]; [reflexivity|].
  unfold Code.accept_name. destruct (truthy (name ud)); [reflexivity|].
  cbv zeta. destruct (truthy (Text.strip T line)); apply IH.
Qed.

Lemma code_email_loop_field (lines : list string) (ud : user_data)
    (out : list io) :
  Code.email_loop T ud out lines
  = Code.field_loop email set_email email_prompt
      "Please enter a valid email address." (Code.accept_email T) ud out lines.
Proof.
  revert ud out. induction lines as [|line rest IH]; intros ud out;
    cbn [Code.email_loop Code.field_loop]; [reflexivity|].
  unfold Code.accept_email. destruct (truthy (email ud)); [reflexivity|].
  cbv zeta.
  destruct (truthy (Text.strip T line) && contains "@" (Text.strip T line));
    apply IH.
Qed.

Lemma code_phone_loop_field (lines : list string) (ud : user_data)
    (out : list io) :
  Code.phone_loop T ud out lines
  = Code.field_loop phone set_phone phone_prompt
      "Please enter a valid phone number." (Code.accept_phone T) ud out lines.
Proof.
  revert ud out. induction lines as [|line rest IH]; intros ud out;
    cbn [Code.phone_loop Code.field_loop]; [reflexivity|].
  unfold Code.accept_phone. destruct (truthy (phone ud)); [reflexivity|].
  cbv zeta.
  destruct (truthy (Text.strip T line)
            && (10 <=? Text.len T (Text.strip T line)));
    apply IH.
Qed.

Section FieldLoopFacts.

Variable get : user_data -> string.
Variable set : user_data -> string -> user_data.
Variable prompt complaint : string.
Variable accept : string -> option string.

Hypothesis get_set : forall ud v, get (set ud v) = v.
Hypothesis set_set : forall ud a b, set (set ud a) b = set ud b.

Local Abbreviation loop := (Code.field_loop get set prompt complaint accept).

(** A filled field: no prompt, nothing read, nothing written. *)
Lemma code_field_loop_filled (ud : user_data) (out : list io)
    (lines : list string) :
  truthy (get ud) = true ->
  loop ud out lines = (Returned, {| data := ud; stdin := lines; shown := out |}).
Proof. intros H. destruct lines; cbn [Code.field_loop]; now rewrite H. Qed.

(** What a run of the loop leaves: the lines it consumed, one prompt per
    line it read, and where the stored value comes from.  The loop tests
    the stored value, so a value that is stored and empty is asked for
    again. *)
Lemma code_field_loop_run (lines : list string) :
  forall ud out r c,
    loop ud out lines = (r, c) ->
    exists consumed k,
      lines = (consumed ++ stdin c)%list
      /\ prompts (shown c) = (prompts out ++ repeat prompt k)%list
      /\ (truthy (get ud) = true -> k = 0 /\ data c = ud)
      /\ (r = Returned -> truthy (get (data c)) = true)
      /\ (data c = ud
          \/ exists line v, In line consumed /\ accept line = Some v
                            /\ data c = set ud v)
      /\ (truthy (get ud) = false -> 1 <= k).
Proof.
  induction lines as [|line rest IH]; intros ud out r c H;
    cbn [Code.field_loop] in H; destruct (truthy (get ud)) eqn:Tg.
  - injection H as <- <-. exists [], 0. cbn. rewrite app_nil_r.
    repeat split; try discriminate; auto.
  - injection H as <- <-. exists [], 1. cbn. rewrite Claims.prompts_app.
    repeat split; try discriminate; auto.
  - injection H as <- <-. exists [], 0. cbn. rewrite app_nil_r.
    repeat split; try discriminate; auto.
  - destruct (accept line) as [v|] eqn:A.
    + apply IH in H as (consumed & k & Hl & Hp & _ & Hr & Hv & _).
      exists (line :: consumed), (S k). cbn. rewrite Hl.
      split; [reflexivity|]. split.
      { rewrite Hp, Claims.prompts_app. cbn. now rewrite <- app_assoc. }
      split; [discriminate|]. split; [exact Hr|].
      split; [|intros _; lia].
      right. destruct Hv as [Hv | (l & v' & Hin & Ha & Hv)].
      * exists line, v. auto.
      * exists l, v'. rewrite Hv, set_set. auto.
    + apply IH in H as (consumed & k & Hl & Hp & _ & Hr & Hv & _).
      exists (line :: consumed), (S k). cbn. rewrite Hl.
      split; [reflexivity|]. split.
      { rewrite Hp, Claims.prompts_app. cbn. now rewrite <- app_assoc. }
      split; [discriminate|]. split; [exact Hr|].
      split; [|intros _; lia].
      destruct Hv as [Hv | (l & v & Hin & Ha & Hv)]; [left; exact Hv|].
      right. exists l, v. cbn. auto.
Qed.

(** [length bad] rejected answers, then an accepted one that is not empty:
    the loop asks once more than it rejected and stores the accepted
    value. *)
Lemma code_field_loop_retries (bad : list string) (good v : string)
    (rest : list string) (ud : user_data) (out : list io) :
  truthy (get ud) = false ->
  Forall (fun line => accept line = None) bad ->
  accept good = Some v ->
  truthy v = true ->
  exists out',
    loop ud out (bad ++ good :: rest)
    = (Returned, {| data := set ud v; stdin := rest; shown := out' |})
    /\ prompts out' = (prompts out ++ repeat prompt (S (List.length bad)))%list.
Proof.
  intros Tg Hbad Hgood Tv. revert out.
  induction Hbad as [|line bad Hline _ IH]; intros out.
  - assert (F : truthy (get (set ud v)) = true) by now rewrite get_set.
    exists (out ++ [Asked prompt])%list. split.
    + cbn [app Code.field_loop]. rewrite Tg, Hgood.
      apply (code_field_loop_filled (set ud v) (out ++ [Asked prompt]) rest F).
    + now rewrite Claims.prompts_app.
  - destruct (IH (out ++ [Asked prompt; Printed complaint])%list) as (out' & R & P).
    exists out'. split.
    + cbn [app Code.field_loop]. rewrite Tg, Hline. exact R.
    + rewrite P, Claims.prompts_app. cbn. now rewrite <- app_assoc.
Qed.

End FieldLoopFacts.

Lemma code_accept_name_inv (line v : string) :
  Code.accept_name T line = Some v ->
  truthy (Text.strip T line) = true /\ v = Text.title T (Text.strip T line).
Proof.
  unfold Code.accept_name. cbv zeta.
  destruct (truthy (Text.strip T line)); [|discriminate].
  intros H; injection H as <-. auto.
Qed.

Lemma code_accept_email_inv (line v : string) :
  Code.accept_email T line = Some v ->
  Code.valid_email (Text.strip T line) = true /\ v = Text.strip T line
  /\ truthy (Text.strip T line) = true.
Proof.
  unfold Code.accept_email, Code.valid_email. cbv zeta.
  destruct (truthy (Text.strip T line)); [|discriminate].
  destruct (contains "@" (Text.strip T line)); [|discriminate].
  intros H; injection H as <-. auto.
Qed.

Lemma code_accept_phone_inv (line v : string) :
  Code.accept_phone T line = Some v ->
  Code.valid_phone T (Text.strip T line) = true /\ v = Text.strip T line
  /\ truthy (Text.strip T line) = true.
Proof.
  unfold Code.accept_phone, Code.valid_phone. cbv zeta.
  destruct (truthy (Text.strip T line)); [|discriminate].
  destruct (10 <=? Text.len T (Text.strip T line)); [|discriminate].
  intros H; injection H as <-. auto.
Qed.

Lemma code_name_loop_run (lines : list string) (ud : user_data) (out : list io)
    (r : outcome) (c : console) :
  Code.name_loop T ud out lines = (r, c) ->
  exists consumed k,
    lines = (consumed ++ stdin c)%list
    /\ prompts (shown c) = (prompts out ++ repeat name_prompt k)%list
    /\ (truthy (name ud) = true -> k = 0 /\ name (data c) = name ud)
    /\ (truthy (name ud) = false -> 1 <= k)
    /\ (r = Returned -> truthy (name (data c)) = true)
    /\ email (data c) = email ud /\ phone (data c) = phone ud
    /\ (name (data c) = name ud
        \/ exists line, In line consumed /\ truthy (Text.strip T line) = true
                        /\ name (data c) = Text.title T (Text.strip T line)).
Proof.
  rewrite code_name_loop_field. intros H.
  apply code_field_loop_run in H as (consumed & k & Hl & Hp & Hf & Hr & Hv & Hk).
  - exists consumed, k. split; [exact Hl|]. split; [exact Hp|].
    split. { intros Tn. destruct (Hf Tn) as [-> ->]. auto. }
    split; [exact Hk|]. split; [exact Hr|].
    destruct Hv as [-> | (line & v & Hin & Ha & ->)]; [auto|].
    apply code_accept_name_inv in Ha as [Hx ->]. cbn.
    repeat split. right. exists line. auto.
  - reflexivity.
Qed.

Lemma code_email_loop_run (lines : list string) (ud : user_data) (out : list io)
    (r : outcome) (c : console) :
  Code.email_loop T ud out lines = (r, c) ->
  exists consumed k,
    lines = (consumed ++ stdin c)%list
    /\ prompts (shown c) = (prompts out ++ repeat email_prompt k)%list
    /\ (truthy (email ud) = true -> k = 0 /\ email (data c) = email ud)
    /\ (truthy (email ud) = false -> 1 <= k)
    /\ (r = Returned -> truthy (email (data c)) = true)
    /\ name (data c) = name ud /\ phone (data c) = phone ud
    /\ (email (data c) = email ud
        \/ exists line, In line consumed
                        /\ Code.valid_email (Text.strip T line) = true
                        /\ email (data c) = Text.strip T line).
Proof.
  rewrite code_email_loop_field. intros H.
  apply code_field_loop_run in H as (consumed & k & Hl & Hp & Hf & Hr & Hv & Hk).
  - exists consumed, k. split; [exact Hl|]. split; [exact Hp|].
    split. { intros Te. destruct (Hf Te) as [-> ->]. auto. }
    split; [exact Hk|]. split; [exact Hr|].
    destruct Hv as [-> | (line & v & Hin & Ha & ->)]; [auto|].
    apply code_accept_email_inv in Ha as (Hx & -> & _). cbn.
    repeat split. right. exists line. auto.
  - reflexivity.
Qed.

Lemma code_phone_loop_run (lines : list string) (ud : user_data) (out : list io)
    (r : outcome) (c : console) :
  Code.phone_loop T ud out lines = (r, c) ->
  exists consumed k,
    lines = (consumed ++ stdin c)%list
    /\ prompts (shown c) = (prompts out ++ repeat phone_prompt k)%list
    /\ (truthy (phone ud) = true -> k = 0 /\ phone (data c) = phone ud)
    /\ (truthy (phone ud) = false -> 1 <= k)
    /\ (r = Returned -> truthy (phone (data c)) = true)
    /\ name (data c) = name ud /\ email (data c) = email ud
    /\ (phone (data c) = phone ud
        \/ exists line, In line consumed
                        /\ Code.valid_phone T (Text.strip T line) = true
                        /\ phone (data c) = Text.strip T line).
Proof.
  rewrite code_phone_loop_field. intros H.
  apply code_field_loop_run in H as (consumed & k & Hl & Hp & Hf & Hr & Hv & Hk).
  - exists consumed, k. split; [exact Hl|]. split; [exact Hp|].
    split. { intros Tp. destruct (Hf Tp) as [-> ->]. auto. }
    split; [exact Hk|]. split; [exact Hr|].
    destruct Hv as [-> | (line & v & Hin & Ha & ->)]; [auto|].
    apply code_accept_phone_inv in Ha as (Hx & -> & _). cbn.
    repeat split. right. exists line. auto.
  - reflexivity.
Qed.

Lemma code_kept_or_checked_trans (a b c : user_data) :
  Code.kept_or_checked T a b -> Code.kept_or_checked T b c ->
  Code.kept_or_checked T a c.
Proof.
  unfold Code.kept_or_checked. intros [E1 P1] [E2 P2]. split.
  - destruct E2 as [->|]; auto.
  - destruct P2 as [->|]; auto.
Qed.

Lemma code_well_formed_step (ud ud' : user_data) :
  Code.well_formed T ud -> Code.kept_or_checked T ud ud' ->
  Code.well_formed T ud'.
Proof.
  unfold Code.well_formed, Code.kept_or_checked.
  intros [We Wp] [E P]. split; intros Tr.
  - destruct E as [E|]; [|assumption]. rewrite E in *. auto.
  - destruct P as [P|]; [|assumption]. rewrite P in *. auto.
Qed.

Lemma code_name_loop_step (lines : list string) (ud : user_data) (out : list io)
    (r : outcome) (c : console) :
  Code.name_loop T ud out lines = (r, c) -> Code.kept_or_checked T ud (data c).
Proof.
  intros H.
  apply code_name_loop_run in H as (u & k & _ & _ & _ & _ & _ & He & Hp & _).
  split; auto.
Qed.

Lemma code_email_loop_step (lines : list string) (ud : user_data)
    (out : list io) (r : outcome) (c : console) :
  Code.email_loop T ud out lines = (r, c) -> Code.kept_or_checked T ud (data c).
Proof.
  intros H.
  apply code_email_loop_run in H as (u & k & _ & _ & _ & _ & _ & _ & Hp & Hv).
  split; [|auto]. destruct Hv as [|(line & _ & V & ->)]; auto.
Qed.

Lemma code_phone_loop_step (lines : list string) (ud : user_data)
    (out : list io) (r : outcome) (c : console) :
  Code.phone_loop T ud out lines = (r, c) -> Code.kept_or_checked T ud (data c).
Proof.
  intros H.
  apply code_phone_loop_run in H as (u & k & _ & _ & _ & _ & _ & _ & He & Hv).
  split; [auto|]. destruct Hv as [|(line & _ & V & ->)]; auto.
Qed.

Section Collect.

Variable CHATBOT_NAME : string.

Local Abbreviation banner :=
  [ Printed ("🤖 " ++ CHATBOT_NAME);
    Printed "💬 Welcome to SkillCapital! Let me get to know you better.";
    Printed rule ].

(** A run that returns went through the three loops in turn. *)
Lemma code_collect_returned (ud : user_data) (lines : list string)
    (c : console) :
  Code.collect_user_info T CHATBOT_NAME ud lines = (Returned, c) ->
  exists c1 c2 c3,
    Code.name_loop T ud banner lines = (Returned, c1)
    /\ Code.email_loop T (data c1) (shown c1) (stdin c1) = (Returned, c2)
    /\ Code.phone_loop T (data c2) (shown c2) (stdin c2) = (Returned, c3)
    /\ data c = data c3 /\ stdin c = stdin c3
    /\ prompts (shown c) = prompts (shown c3).
Proof.
  unfold Code.collect_user_info. cbv zeta.
  destruct (Code.name_loop T ud banner lines) as [[] c1]; [|discriminate].
  destruct (Code.email_loop T (data c1) (shown c1) (stdin c1)) as [[] c2] eqn:E2;
    [|discriminate].
  destruct (Code.phone_loop T (data c2) (shown c2) (stdin c2)) as [[] c3] eqn:E3;
    [|discriminate].
  intros H; injection H as <-. exists c1, c2, c3. cbn.
  rewrite Claims.prompts_app. cbn. rewrite app_nil_r. auto 10.
Qed.

Lemma code_collect_step (ud : user_data) (lines : list string) (r : outcome)
    (c : console) :
  Code.collect_user_info T CHATBOT_NAME ud lines = (r, c) ->
  Code.kept_or_checked T ud (data c).
Proof.
  unfold Code.collect_user_info. cbv zeta.
  destruct (Code.name_loop T ud banner lines) as [r1 c1] eqn:E1.
  apply code_name_loop_step in E1.
  destruct r1; [|intros H; injection H as <- <-; exact E1].
  destruct (Code.email_loop T (data c1) (shown c1) (stdin c1)) as [r2 c2] eqn:E2.
  apply code_email_loop_step in E2.
  pose proof (code_kept_or_checked_trans _ _ _ E1 E2) as E12.
  destruct r2; [|intros H; injection H as <- <-; exact E12].
  destruct (Code.phone_loop T (data c2) (shown c2) (stdin c2)) as [r3 c3] eqn:E3.
  apply code_phone_loop_step in E3.
  pose proof (code_kept_or_checked_trans _ _ _ E12 E3) as E123.
  destruct r3; intros H; injection H as <- <-; exact E123.
Qed.

Lemma code_reachable_well_formed (ud : user_data) :
  Code.reachable T CHATBOT_NAME ud -> Code.well_formed T ud.
Proof.
  induction 1 as [|ud lines r c _ IH H].
  - split; discriminate.
  - apply (code_well_formed_step ud); [exact IH|].
    exact (code_collect_step _ _ _ _ H).
Qed.

(** However many answers are rejected, the routine asks again. *)
Lemma code_collect_retries (bn be bp : list string) (gn ge gp n e p : string)
    (rest : list string) :
  Forall (fun line => Code.accept_name T line = None) bn ->
  Code.accept_name T gn = Some n -> truthy n = true ->
  Forall (fun line => Code.accept_email T line = None) be ->
  Code.accept_email T ge = Some e ->
  Forall (fun line => Code.accept_phone T line = None) bp ->
  Code.accept_phone T gp = Some p ->
  exists c,
    Code.collect_user_info T CHATBOT_NAME initial_user_data
      (bn ++ gn :: be ++ ge :: bp ++ gp :: rest)
    = (Returned, c)
    /\ prompts (shown c)
       = (repeat name_prompt (S (List.length bn))
          ++ repeat email_prompt (S (List.length be))
          ++ repeat phone_prompt (S (List.length bp)))%list
    /\ data c = {| name := n; email := e; phone := p; greeted := false |}
    /\ stdin c = rest.
Proof.
  intros Bn Gn Tn Be Ge Bp Gp.
  assert (Te : truthy e = true).
  { apply code_accept_email_inv in Ge as (_ & -> & Te). exact Te. }
  assert (Tp : truthy p = true).
  { apply code_accept_phone_inv in Gp as (_ & -> & Tp). exact Tp. }
  unfold Code.collect_user_info. cbv zeta.
  rewrite code_name_loop_field.
  destruct (code_field_loop_retries name set_name name_prompt
              "Please enter your name." (Code.accept_name T) (fun _ _ => eq_refl)
              bn gn n (be ++ ge :: bp ++ gp :: rest)
              initial_user_data banner eq_refl Bn Gn Tn)
    as (out1 & R1 & P1).
  rewrite R1. cbn [data shown stdin].
  rewrite code_email_loop_field.
  destruct (code_field_loop_retries email set_email email_prompt
              "Please enter a valid email address." (Code.accept_email T)
              (fun _ _ => eq_refl)
              be ge e (bp ++ gp :: rest)
              (set_name initial_user_data n) out1 eq_refl Be Ge Te)
    as (out2 & R2 & P2).
  rewrite R2. cbn [data shown stdin].
  rewrite code_phone_loop_field.
  destruct (code_field_loop_retries phone set_phone phone_prompt
              "Please enter a valid phone number." (Code.accept_phone T)
              (fun _ _ => eq_refl)
              bp gp p rest
              (set_email (set_name initial_user_data n) e) out2 eq_refl Bp Gp Tp)
    as (out3 & R3 & P3).
  rewrite R3. eexists. split; [reflexivity|]. cbn [data shown stdin].
  rewrite Claims.prompts_app, P3, P2, P1. cbn [prompts app].
  rewrite app_nil_r, <- !app_assoc. auto.
Qed.

End Collect.

End WithText.

(** C9: from any profile the process can hold, whenever the routine
    returns, the name is not empty, the email contains "@" and the phone
    has at least ten characters.  The prompts come field by field, name
    then email then phone; a missing field is asked for at least once, a
    field that was already filled is not asked for and keeps its value.  A
    stored value is the old one or the stripped text of an answer that was
    read and passed the check of its field (the name in title case).  There
    is no bound on the repetitions: whatever answers are rejected before
    the accepted one, the routine has asked once for each of them and once
    more, field by field, and returns with the accepted values. *)
Theorem C9_collect_user_info (T : Text.ops) (CHATBOT_NAME : string)
    (ud : user_data) (lines : list string) (c : console) :
  Code.reachable T CHATBOT_NAME ud ->
  Code.collect_user_info T CHATBOT_NAME ud lines = (Returned, c) ->
  (Code.valid_name (name (data c)) = true
   /\ Code.valid_email (email (data c)) = true
   /\ Code.valid_phone T (phone (data c)) = true)
  /\ (exists i j k,
        prompts (shown c)
        = (repeat name_prompt i ++ repeat email_prompt j
           ++ repeat phone_prompt k)%list
        /\ (truthy (name ud) = true -> i = 0 /\ name (data c) = name ud)
        /\ (truthy (email ud) = true -> j = 0 /\ email (data c) = email ud)
        /\ (truthy (phone ud) = true -> k = 0 /\ phone (data c) = phone ud)
        /\ (truthy (name ud) = false -> 1 <= i)
        /\ (truthy (email ud) = false -> 1 <= j)
        /\ (truthy (phone ud) = false -> 1 <= k))
  /\ (name (data c) = name ud
      \/ exists line, In line lines /\ truthy (Text.strip T line) = true
                      /\ name (data c) = Text.title T (Text.strip T line))
  /\ (email (data c) = email ud
      \/ exists line, In line lines
                      /\ Code.valid_email (Text.strip T line) = true
                      /\ email (data c) = Text.strip T line)
  /\ (phone (data c) = phone ud
      \/ exists line, In line lines
                      /\ Code.valid_phone T (Text.strip T line) = true
                      /\ phone (data c) = Text.strip T line)
  /\ (forall (bn be bp : list string) (gn ge gp n e p : string)
             (rest : list string),
        Forall (fun line => Code.accept_name T line = None) bn ->
        Code.accept_name T gn = Some n -> truthy n = true ->
        Forall (fun line => Code.accept_email T line = None) be ->
        Code.accept_email T ge = Some e ->
        Forall (fun line => Code.accept_phone T line = None) bp ->
        Code.accept_phone T gp = Some p ->
        exists c',
          Code.collect_user_info T CHATBOT_NAME initial_user_data
            (bn ++ gn :: be ++ ge :: bp ++ gp :: rest)
          = (Returned, c')
          /\ prompts (shown c')
             = (repeat name_prompt (S (List.length bn))
                ++ repeat email_prompt (S (List.length be))
                ++ repeat phone_prompt (S (List.length bp)))%list
          /\ data c'
             = {| name := n; email := e; phone := p; greeted := false |}
          /\ stdin c' = rest).
Proof.
  intros Hreach H.
  pose proof (code_well_formed_step _ _ _
                (code_reachable_well_formed _ _ _ Hreach)
                (code_collect_step _ _ _ _ _ _ H)) as [We Wp].
  apply code_collect_returned in H as (c1 & c2 & c3 & H1 & H2 & H3 & Hd & _ & Hp).
  apply code_name_loop_run in H1
    as (u1 & i & L1 & P1 & F1 & K1 & R1 & E1 & Ph1 & O1).
  apply code_email_loop_run in H2
    as (u2 & j & L2 & P2 & F2 & K2 & R2 & N2 & Ph2 & O2).
  apply code_phone_loop_run in H3
    as (u3 & k & L3 & P3 & F3 & K3 & R3 & N3 & E3 & O3).
  specialize (R1 eq_refl). specialize (R2 eq_refl). specialize (R3 eq_refl).
  assert (Hn : name (data c) = name (data c1)) by congruence.
  assert (He : email (data c) = email (data c2)) by congruence.
  assert (Hph : phone (data c) = phone (data c3)) by congruence.
  assert (Hlines : lines = (u1 ++ u2 ++ u3 ++ stdin c3)%list) by congruence.
  split.
  { unfold Code.valid_name. split; [congruence|].
    split; [apply We | apply Wp]; congruence. }
  split.
  { exists i, j, k. rewrite Hp, P3, P2, P1. cbn [prompts app].
    rewrite <- !app_assoc. split; [reflexivity|].
    split; [intros Tr; destruct (F1 Tr); split; congruence|].
    split; [intros Tr; rewrite <- E1 in Tr; destruct (F2 Tr); split; congruence|].
    split; [intros Tr; rewrite <- Ph1, <- Ph2 in Tr; destruct (F3 Tr);
            split; congruence|].
    split; [exact K1|].
    split; intros Tr; [apply K2 | apply K3]; congruence. }
  split.
  { destruct O1 as [O1 | (line & Hin & V & O1)]; [left; congruence|].
    right. exists line. rewrite Hlines, Hn, !in_app_iff. tauto. }
  split.
  { destruct O2 as [O2 | (line & Hin & V & O2)]; [left; congruence|].
    right. exists line. rewrite Hlines, He, !in_app_iff. tauto. }
  split.
  { destruct O3 as [O3 | (line & Hin & V & O3)]; [left; congruence|].
    right. exists line. rewrite Hlines, Hph, !in_app_iff. tauto. }
  intros bn be bp gn ge gp n e p rest.
  apply code_collect_retries.
Qed.

Lemma C9_collect_user_info_witness :
  exists c,
    Code.collect_user_info Text.ascii_text "SkillCapital Assistant"
      initial_user_data
      ["  "; " grace hopper "; "grace"; "grace@navy.mil"; "555"; "212-555-0100"]
    = (Returned, c)
    /\ name (data c) = "Grace Hopper"
    /\ Code.valid_email (email (data c)) = true
    /\ Code.valid_phone Text.ascii_text (phone (data c)) = true.
Proof.
  eexists. split; [reflexivity|]. split; [reflexivity|].
  pose proof (C9_collect_user_info Text.ascii_text "SkillCapital Assistant"
                initial_user_data
                ["  "; " grace hopper "; "grace"; "grace@navy.mil"; "555";
                 "212-555-0100"] _
                (Code.reach_initial _ _) eq_refl) as [(_ & He & Hp) _].
  split; [exact He | exact Hp].
Defined.

End CodeProfile.

(** * Further properties of the code, whatever the text methods *)

Module CodeProps.

Import Str StrFacts StrMore Chatbot Routing CodeFacts Blocks Curriculum
  Variants Matching.

(** The handler reads the message through [strip] and [lower] only.  On a
    message where lower-casing commutes with stripping, changes nothing when
    done twice and empties nothing, as on every message of ASCII
    characters, the case of the letters changes neither the response nor
    the calls made; where stripping twice is stripping once, neither does
    the white space around the message. *)
Theorem chat_case_and_margin (T : Text.ops) (py_str : json -> string)
    (w : world) (ud : user_data) (m : string) :
  (Text.strip T (Text.lower T m) = Text.lower T (Text.strip T m) ->
   Text.lower T (Text.lower T (Text.strip T m)) = Text.lower T (Text.strip T m) ->
   truthy (Text.lower T (Text.strip T m)) = truthy (Text.strip T m) ->
   Code.chat T py_str w ud (Some (Text.lower T m))
   = Code.chat T py_str w ud (Some m))
  /\ (Text.strip T (Text.strip T m) = Text.strip T m ->
      Code.chat T py_str w ud (Some (Text.strip T m))
      = Code.chat T py_str w ud (Some m)).
Proof.
  split.
  - intros C I E.
    unfold Code.chat, Code.get_smart_answer, Code.detect_greeting,
      Code.normalize_input.
    rewrite C, E, I. reflexivity.
  - intros I. unfold Code.chat. now rewrite I.
Qed.

Lemma chat_case_and_margin_witness :
  Code.chat Text.ascii_text text_of offline initial_user_data
    (Some (Text.lower Text.ascii_text "  What is the PRICE of DevOps?  "))
  = Code.chat Text.ascii_text text_of offline initial_user_data
      (Some "  What is the PRICE of DevOps?  ")
  /\ Code.chat Text.ascii_text text_of offline initial_user_data
       (Some (Text.strip Text.ascii_text "  What is the PRICE of DevOps?  "))
     = Code.chat Text.ascii_text text_of offline initial_user_data
         (Some "  What is the PRICE of DevOps?  ").
Proof.
  assert (C : Text.strip Text.ascii_text
                (Text.lower Text.ascii_text "  What is the PRICE of DevOps?  ")
              = Text.lower Text.ascii_text
                  (Text.strip Text.ascii_text "  What is the PRICE of DevOps?  "))
    by (vm_compute; reflexivity).
  assert (I : Text.lower Text.ascii_text
                (Text.lower Text.ascii_text
                   (Text.strip Text.ascii_text "  What is the PRICE of DevOps?  "))
              = Text.lower Text.ascii_text
                  (Text.strip Text.ascii_text "  What is the PRICE of DevOps?  "))
    by (vm_compute; reflexivity).
  assert (E : truthy (Text.lower Text.ascii_text
                        (Text.strip Text.ascii_text
                           "  What is the PRICE of DevOps?  "))
              = truthy (Text.strip Text.ascii_text
                          "  What is the PRICE of DevOps?  "))
    by (vm_compute; reflexivity).
  assert (S : Text.strip Text.ascii_text
                (Text.strip Text.ascii_text "  What is the PRICE of DevOps?  ")
              = Text.strip Text.ascii_text "  What is the PRICE of DevOps?  ")
    by (vm_compute; reflexivity).
  split.
  - exact (proj1 (chat_case_and_margin Text.ascii_text text_of offline
                    initial_user_data "  What is the PRICE of DevOps?  ")
             C I E).
  - exact (proj2 (chat_case_and_margin Text.ascii_text text_of offline
                    initial_user_data "  What is the PRICE of DevOps?  ")
             S).
Defined.

(** Six of the fourteen greeting words decide the detection: a message is
    a greeting exactly when its lower-cased and stripped text contains
    "hi", "hello", "hey", "morning", "afternoon" or "evening".  In the same
    way "goodbye" adds nothing to "bye" in the exit test. *)
Theorem greeting_words_that_matter (T : Text.ops) (m : string) :
  Code.detect_greeting T m
  = any_in short_greetings (Text.strip T (Text.lower T m))
  /\ forall s, any_in exit_words s = any_in short_exit_words s.
Proof.
  split; [|intros s]; apply ChatProps.bool_eq_iff; split; intros H.
  - exact (any_in_covered _ _ _ ChatProps.greetings_covered H).
  - exact (any_in_incl _ _ _ ChatProps.short_greetings_incl H).
  - exact (any_in_covered _ _ _ ChatProps.exit_words_covered H).
  - exact (any_in_incl _ _ _ ChatProps.short_exit_words_incl H).
Qed.

(** The curriculum file matters to curriculum questions only: a message
    with any other intent gets the same response and makes the same calls
    in every world, and it still has the file loaded whenever
    [get_smart_answer] is called. *)
Theorem file_read_for_curriculum_only (T : Text.ops) (py_str : json -> string)
    (w w' : world) (ud : user_data) (m : string) :
  reads_curriculum (Code.classify T m) = false ->
  Code.chat T py_str w ud (Some m) = Code.chat T py_str w' ud (Some m)
  /\ (In call_get_smart_answer (snd (Code.chat T py_str w ud (Some m))) ->
      In call_load_course_curriculum (snd (Code.chat T py_str w ud (Some m)))).
Proof.
  intros H. split.
  - rewrite (surjective_pairing (Code.chat T py_str w ud (Some m))).
    rewrite (surjective_pairing (Code.chat T py_str w' ud (Some m))).
    rewrite !code_chat_refines, !code_chat_log.
    destruct (Code.classify T m); try discriminate H; reflexivity.
  - rewrite code_chat_log. destruct (Code.classify T m); cbn; intros H0;
      repeat (destruct H0 as [H0|H0]; try discriminate H0);
      try contradiction; auto 10.
Qed.

Lemma file_read_for_curriculum_only_witness :
  reads_curriculum
    (Code.classify Text.ascii_text "How long is the devops course?") = false /\
  Code.chat Text.ascii_text text_of
    {| curriculum_file := Parsed python_only; website := None |}
    initial_user_data (Some "How long is the devops course?")
  = Code.chat Text.ascii_text text_of offline initial_user_data
      (Some "How long is the devops course?").
Proof.
  assert (H : reads_curriculum
                (Code.classify Text.ascii_text "How long is the devops course?")
              = false) by (vm_compute; reflexivity).
  split; [exact H|].
  exact (proj1 (file_read_for_curriculum_only Text.ascii_text text_of
                  {| curriculum_file := Parsed python_only; website := None |}
                  offline initial_user_data "How long is the devops course?" H)).
Defined.

(** Without an entry for the course that a curriculum question names (no
    file, a file that does not parse, a document without "courses", or a
    mapping without the key of the course) the answer is the fixed
    one-line description of that course; without a mapping of courses the
    overview is the fixed line of module counts.  Nothing is reported as
    an error. *)
Theorem curriculum_question_without_entry (T : Text.ops)
    (py_str : json -> string) (w : world) (ud : user_data) (m : string) :
  (forall c, Code.classify T m = CurriculumDetail c ->
     no_entry (load_course_curriculum w) (course_key c) = true ->
     fst (Code.chat T py_str w ud (Some m)) = ok (description c))
  /\ (Code.classify T m = CurriculumOverview ->
      no_courses (load_course_curriculum w) = true ->
      fst (Code.chat T py_str w ud (Some m)) = ok overview_default).
Proof.
  rewrite code_chat_refines. split.
  - intros c Hm Hn. rewrite Hm. cbn [assemble].
    destruct (CurriculumProps.detail_block py_str (load_course_curriculum w) c)
      as [h ->].
    now rewrite (CurriculumProps.course_modules_no_entry py_str _ _ _ _ Hn).
  - intros Hm Hn. rewrite Hm. cbn [assemble].
    now rewrite (CurriculumProps.curriculum_overview_no_courses py_str _ Hn).
Qed.

Lemma curriculum_question_without_entry_witness :
  (Code.classify Text.ascii_text "devops syllabus" = CurriculumDetail DevOps /\
   no_entry (load_course_curriculum
               {| curriculum_file := Parsed python_only; website := None |})
     (course_key DevOps) = true /\
   fst (Code.chat Text.ascii_text text_of
          {| curriculum_file := Parsed python_only; website := None |}
          initial_user_data (Some "devops syllabus"))
   = ok (description DevOps))
  /\ (Code.classify Text.ascii_text "course content" = CurriculumOverview /\
      no_courses (load_course_curriculum offline) = true /\
      fst (Code.chat Text.ascii_text text_of offline initial_user_data
             (Some "course content"))
      = ok overview_default).
Proof.
  assert (H1 : Code.classify Text.ascii_text "devops syllabus"
               = CurriculumDetail DevOps) by (vm_compute; reflexivity).
  assert (H2 : Code.classify Text.ascii_text "course content"
               = CurriculumOverview) by (vm_compute; reflexivity).
  split; (split; [assumption|]); (split; [reflexivity|]).
  - exact (proj1 (curriculum_question_without_entry Text.ascii_text text_of
                    {| curriculum_file := Parsed python_only; website := None |}
                    initial_user_data "devops syllabus") DevOps H1 eq_refl).
  - exact (proj2 (curriculum_question_without_entry Text.ascii_text text_of
                    offline initial_user_data "course content") H2 eq_refl).
Defined.

(** A stored course without a ["curriculum"] that can be walked (the key is
    missing, or the entry or the value has another type) makes the block
    raise; the question about that course is then answered with the general
    fallback sentence, not with the description of the course. *)
Theorem curriculum_question_on_malformed_course (T : Text.ops)
    (py_str : json -> string) (w : world) (ud : user_data) (m : string)
    (c : course) (d cs : list (string * json)) (entry : json) :
  curriculum_file w = Parsed (JDict d) ->
  dict_get "courses" d = Some (JDict cs) ->
  dict_get (course_key c) cs = Some entry ->
  (cur <- subscript entry "curriculum" ;; iter cur) = None ->
  Code.classify T m = CurriculumDetail c ->
  fst (Code.chat T py_str w ud (Some m)) = ok fallback_answer.
Proof.
  intros Hw Hd Hc Hu Hm. rewrite code_chat_refines, Hm. cbn [assemble].
  destruct (CurriculumProps.detail_block py_str (load_course_curriculum w) c)
    as [h ->].
  unfold load_course_curriculum. rewrite Hw.
  now rewrite (CurriculumProps.course_modules_unreadable py_str d cs entry
                 _ _ _ Hd Hc Hu).
Qed.

Lemma curriculum_question_on_malformed_course_witness :
  fst (Code.chat Text.ascii_text text_of
         {| curriculum_file :=
              Parsed (JDict [("courses",
                              JDict [("python", JDict [("name", JStr "Python")])])]);
            website := None |}
         initial_user_data (Some "python modules"))
  = ok fallback_answer.
Proof.
  assert (H : Code.classify Text.ascii_text "python modules"
              = CurriculumDetail Python) by (vm_compute; reflexivity).
  exact (curriculum_question_on_malformed_course Text.ascii_text text_of
           {| curriculum_file :=
                Parsed (JDict [("courses",
                                JDict [("python", JDict [("name", JStr "Python")])])]);
              website := None |}
           initial_user_data "python modules" Python
           [("courses", JDict [("python", JDict [("name", JStr "Python")])])]
           [("python", JDict [("name", JStr "Python")])]
           (JDict [("name", JStr "Python")])
           eq_refl eq_refl eq_refl eq_refl H).
Defined.

(** The overview of a document in the documented shape: after the heading,
    one line per stored course in stored order, with the display name and
    the names of its modules joined by commas, in stored order. *)
Theorem overview_lists_courses (T : Text.ops) (py_str : json -> string)
    (w : world) (ud : user_data) (m : string) (d : list (string * json))
    (entries : list (string * (string * list module_entry))) :
  (forall s, py_str (JStr s) = s) ->
  curriculum_file w = Parsed (JDict d) ->
  dict_get "courses" d = Some (catalogue_json entries) ->
  Code.classify T m = CurriculumOverview ->
  fst (Code.chat T py_str w ud (Some m))
  = ok ("Available Courses and Modules:" ++ nl
        ++ join nl (map overview_text entries)).
Proof.
  intros Hs Hw Hd Hm. rewrite code_chat_refines, Hm. cbn [assemble].
  unfold load_course_curriculum. rewrite Hw.
  now rewrite (CurriculumProps.curriculum_overview_listing py_str Hs d entries Hd).
Qed.

Lemma overview_lists_courses_witness :
  fst (Code.chat Text.ascii_text text_of
         {| curriculum_file := Parsed python_only; website := None |}
         initial_user_data (Some "course content"))
  = ok (join nl [ "Available Courses and Modules:";
                  "📚 Python: Python Fundamentals" ]).
Proof.
  assert (H : Code.classify Text.ascii_text "course content"
              = CurriculumOverview) by (vm_compute; reflexivity).
  exact (overview_lists_courses Text.ascii_text text_of
           {| curriculum_file := Parsed python_only; website := None |}
           initial_user_data "course content"
           [("courses",
             JDict [("python", course_json "Python" [python_fundamentals])])]
           [("python", ("Python", [python_fundamentals]))]
           (fun s => eq_refl) eq_refl eq_refl H).
Defined.

(** The normalized text holds no capital letter A to Z, as long as the
    lower-cased message holds none (which is what [str.lower] gives): on
    ASCII text it is in lower case.  And where lower-casing twice is
    lower-casing once, the case of the message does not matter to it. *)
Theorem normalize_input_case (T : Text.ops) (s : string) :
  (lower (Text.lower T s) = Text.lower T s ->
   lower (Code.normalize_input T s) = Code.normalize_input T s)
  /\ (Text.lower T (Text.lower T s) = Text.lower T s ->
      Code.normalize_input T (Text.lower T s) = Code.normalize_input T s).
Proof.
  unfold Code.normalize_input. split.
  - intros H.
    apply Claims.apply_corrections_lower; [exact Claims.corrections_lower | exact H].
  - intros H. now rewrite H.
Qed.

Lemma normalize_input_case_witness :
  lower (Code.normalize_input Text.ascii_text "How much are the FEES?")
  = Code.normalize_input Text.ascii_text "How much are the FEES?"
  /\ Code.normalize_input Text.ascii_text
       (Text.lower Text.ascii_text "How much are the FEES?")
     = Code.normalize_input Text.ascii_text "How much are the FEES?".
Proof.
  assert (H1 : lower (Text.lower Text.ascii_text "How much are the FEES?")
               = Text.lower Text.ascii_text "How much are the FEES?")
    by (vm_compute; reflexivity).
  assert (H2 : Text.lower Text.ascii_text
                 (Text.lower Text.ascii_text "How much are the FEES?")
               = Text.lower Text.ascii_text "How much are the FEES?")
    by (vm_compute; reflexivity).
  split.
  - exact (proj1 (normalize_input_case Text.ascii_text "How much are the FEES?")
             H1).
  - exact (proj2 (normalize_input_case Text.ascii_text "How much are the FEES?")
             H2).
Defined.

(** A message whose lower-cased text holds no variant of the table is
    only lower-cased. *)
Theorem normalize_input_without_variants (T : Text.ops) (s : string) :
  variant_occurrences (Text.lower T s) = 0 ->
  Code.normalize_input T s = Text.lower T s.
Proof.
  intros H. unfold Code.normalize_input.
  apply Claims.apply_corrections_absent, Claims.variant_free, H.
Qed.

Lemma normalize_input_without_variants_witness :
  variant_occurrences (Text.lower Text.ascii_text "Tell me about DevOps") = 0 /\
  Code.normalize_input Text.ascii_text "Tell me about DevOps"
  = "tell me about devops".
Proof.
  split; [reflexivity|].
  exact (normalize_input_without_variants Text.ascii_text
           "Tell me about DevOps" eq_refl).
Defined.

Lemma or_all_nil (courses matched : list json) :
  incl matched courses ->
  (or_all courses matched = [] <-> courses = []).
Proof.
  intros Hi. destruct matched as [|c matched]; cbn; [tauto|].
  split; [discriminate|]. intros ->. destruct (Hi c (or_introl eq_refl)).
Qed.

(** What the matcher returns is drawn from the course list, and it is
    empty only when the course list is: a question that names no course
    gets every course. *)
Theorem matcher_never_empties (T : Text.ops) (question : string)
    (curriculum_data : json) (found : list json) :
  Code.find_relevant_courses T question curriculum_data = Some found ->
  incl found (Api.courses_of curriculum_data)
  /\ (found = [] <-> Api.courses_of curriculum_data = []).
Proof.
  intros H. unfold Code.find_relevant_courses in H. cbv zeta in H.
  rewrite CodeClaims.code_match_loop_filter in H.
  destruct (forallb well_named (Api.courses_of curriculum_data)); [|discriminate].
  cbn [bind app] in H. injection H as H.
  fold (or_all (Api.courses_of curriculum_data)
          (filter (Code.mentioned_in T (Text.lower T question))
             (Api.courses_of curriculum_data)))
    in H.
  assert (Hi : incl (filter (Code.mentioned_in T (Text.lower T question))
                       (Api.courses_of curriculum_data))
                    (Api.courses_of curriculum_data)) by apply incl_filter.
  split.
  - rewrite <- H.
    destruct (filter (Code.mentioned_in T (Text.lower T question))
                (Api.courses_of curriculum_data));
      cbn; [apply incl_refl | exact Hi].
  - rewrite <- H. now apply or_all_nil.
Qed.

Lemma matcher_never_empties_witness :
  Code.find_relevant_courses Text.ascii_text "What about Rust?" two_courses
  = Some [unnamed_course; python_course]
  /\ incl [unnamed_course; python_course] (Api.courses_of two_courses).
Proof.
  split; [reflexivity|].
  exact (proj1 (matcher_never_empties Text.ascii_text "What about Rust?"
                  two_courses [unnamed_course; python_course] eq_refl)).
Defined.

(** A message that is not empty and that [strip] empties is turned away
    with 400 by the handlers that strip it ([/api/chat] and the two
    [/chat]), before any call; [/smart-chatbot] does not strip and goes on
    to the fetch, the load and the matcher. *)
Theorem blank_message (T : Text.ops) (py_str : json -> string)
    (cw : Chatbot.world) (ud : Chatbot.user_data)
    (json_dumps : list json -> string) (aw : Api.world)
    (app_pipeline bot_pipeline : string -> option string) (m : string) :
  truthy m = true ->
  Text.strip T m = EmptyString ->
  Forall (fun a => status (fst a) = 400 /\ snd a = [])
    [ Code.chat T py_str cw ud (Some m);
      Code.pipeline_chat T app_pipeline (Some m);
      Code.pipeline_chat T bot_pipeline (Some m) ]
  /\ status (fst (Code.smart_chatbot T json_dumps aw (Some m))) <> 400
  /\ firstn 3 (snd (Code.smart_chatbot T json_dumps aw (Some m)))
     = [call_get_website_data; call_load_course_curriculum;
        call_find_relevant_courses].
Proof.
  intros Tm E. split.
  - unfold Code.chat, Code.pipeline_chat. rewrite E. repeat constructor.
  - unfold Code.smart_chatbot, lbind, calling. cbn [fst snd]. rewrite Tm.
    cbn [negb].
    destruct (Code.find_relevant_courses T m (Api.load_course_curriculum aw))
      as [matched|]; [|split; [discriminate | reflexivity]].
    cbn [fst snd].
    destruct (Api.run_chatbot_crew aw m _ matched);
      (split; [discriminate | reflexivity]).
Qed.

Lemma blank_message_witness :
  truthy "   " = true /\ Text.strip Text.ascii_text "   " = EmptyString /\
  status (fst (Code.chat Text.ascii_text text_of Chatbot.offline
                 Chatbot.initial_user_data (Some "   "))) = 400 /\
  status (fst (Code.smart_chatbot Text.ascii_text (fun _ => EmptyString)
                 {| Api.curriculum_file := Absent; Api.website := None;
                    Api.run_chatbot_crew := fun _ _ _ => None |}
                 (Some "   "))) <> 400.
Proof.
  split; [reflexivity|]. split; [reflexivity|].
  destruct (blank_message Text.ascii_text text_of Chatbot.offline
              Chatbot.initial_user_data (fun _ => EmptyString)
              {| Api.curriculum_file := Absent; Api.website := None;
                 Api.run_chatbot_crew := fun _ _ _ => None |}
              (fun _ => None) (fun _ => None) "   " eq_refl eq_refl)
    as (F & N & _).
  split; [|exact N].
  inversion F as [|? ? [S _] _]. exact S.
Defined.

(** *** The text of the website *)

Lemma chatbot_elements_filter (T : Text.ops) (texts data : list string) :
  Code.chatbot_elements T texts data
  = (data ++ map (Code.marked T)
               (filter (Code.longer_than T 10) (map (Text.strip T) texts)))%list.
Proof.
  revert data. induction texts as [|raw texts IH]; intros data.
  - cbn. now rewrite app_nil_r.
  - cbn [Code.chatbot_elements map filter]. unfold Code.longer_than at 1.
    destruct (truthy (Text.strip T raw) && (10 <? Text.len T (Text.strip T raw))).
    + unfold Code.marked at 1. cbn [map].
      destruct (any_in Code.important_words (Text.lower T (Text.strip T raw)));
        rewrite IH, <- app_assoc; reflexivity.
    + apply IH.
Qed.

Lemma api_elements_filter (T : Text.ops) (texts data : list string) :
  Code.api_elements T texts data
  = (data ++ filter (Code.longer_than T 20) (map (Text.strip T) texts))%list.
Proof.
  revert data. induction texts as [|raw texts IH]; intros data.
  - cbn. now rewrite app_nil_r.
  - cbn [Code.api_elements map filter]. unfold Code.longer_than at 1.
    destruct (truthy (Text.strip T raw) && (20 <? Text.len T (Text.strip T raw))).
    + rewrite IH, <- app_assoc. reflexivity.
    + apply IH.
Qed.

(** The text handed on by [get_website_data] has at most fifty entries:
    the title and the description when the page has them, then the
    stripped texts of the elements in document order, those of at most ten
    characters left out in [chatbot.py] (at most twenty in
    [skillcapital_chatbot_api.py]); [chatbot.py] puts "Important: " before
    a text whose lower-cased form holds one of its seven words. *)
Theorem website_text_entries (T : Text.ops) (p : Code.page) :
  Code.chatbot_text T p
  = join nl (firstn 50 (Code.title_entry T p ++ Code.description_entry T p
                        ++ map (Code.marked T)
                             (filter (Code.longer_than T 10)
                                (map (Text.strip T) (Code.page_texts p)))))
  /\ Code.api_text T p
     = join nl (firstn 50 (Code.title_entry T p ++ Code.description_entry T p
                           ++ filter (Code.longer_than T 20)
                                (map (Text.strip T) (Code.page_texts p))))
  /\ List.length (firstn 50 (Code.chatbot_data T p)) <= 50
  /\ List.length (firstn 50 (Code.api_data T p)) <= 50.
Proof.
  unfold Code.chatbot_text, Code.api_text, Code.chatbot_data, Code.api_data.
  rewrite chatbot_elements_filter, api_elements_filter, <- !app_assoc.
  repeat split; apply firstn_le_length.
Qed.

End CodeProps.

(** ** [/api/initialize] on the empty profile *)

Module CodeInitialize.

Import Str StrFacts Chatbot Profile Initialize.

Section FieldLoopFirst.

Variable get : user_data -> string.
Variable set : user_data -> string -> user_data.
Variable prompt complaint : string.
Variable accept : string -> option string.

Hypothesis get_set : forall ud v, get (set ud v) = v.
Hypothesis accept_truthy : forall x v, accept x = Some v -> truthy v = true.

(** An empty field: the loop stores what the first accepted line gives and
    leaves the lines after it; without an accepted line it reads all the
    input and raises, the field still empty. *)
Lemma code_field_loop_first (lines : list string) :
  forall ud out,
    truthy (get ud) = false ->
    match Code.first_accepted accept lines with
    | Some (v, rest) =>
        exists out',
          Code.field_loop get set prompt complaint accept ud out lines
          = (Returned, {| data := set ud v; stdin := rest; shown := out' |})
    | None =>
        exists out',
          Code.field_loop get set prompt complaint accept ud out lines
          = (Raised_EOFError, {| data := ud; stdin := []; shown := out' |})
    end.
Proof.
  induction lines as [|line rest IH]; intros ud out Tg;
    cbn [Code.field_loop Code.first_accepted]; rewrite Tg.
  - eexists. reflexivity.
  - destruct (accept line) as [v|] eqn:A.
    + pose proof (accept_truthy _ _ A) as Tv.
      assert (F : truthy (get (set ud v)) = true) by now rewrite get_set.
      rewrite (CodeProfile.code_field_loop_filled get set prompt complaint
                 accept (set ud v) (out ++ [Asked prompt]) rest F).
      eexists. reflexivity.
    + apply IH. exact Tg.
Qed.

End FieldLoopFirst.

Section Routine.

Variable T : Text.ops.
Variable CHATBOT_NAME : string.

(** The title case of a name that is not empty is not empty. *)
Hypothesis title_truthy :
  forall x, truthy x = true -> truthy (Text.title T x) = true.

Lemma code_accept_name_truthy (x v : string) :
  Code.accept_name T x = Some v -> truthy v = true.
Proof.
  intros H. apply CodeProfile.code_accept_name_inv in H as [Hx ->].
  now apply title_truthy.
Qed.

Lemma code_accept_email_truthy (x v : string) :
  Code.accept_email T x = Some v -> truthy v = true.
Proof.
  intros H. now apply CodeProfile.code_accept_email_inv in H as (_ & -> & Tv).
Qed.

Lemma code_accept_phone_truthy (x v : string) :
  Code.accept_phone T x = Some v -> truthy v = true.
Proof.
  intros H. now apply CodeProfile.code_accept_phone_inv in H as (_ & -> & Tv).
Qed.

Local Abbreviation banner :=
  [ Printed ("🤖 " ++ CHATBOT_NAME);
    Printed "💬 Welcome to SkillCapital! Let me get to know you better.";
    Printed rule ].

(** From the empty profile, the routine is decided by the first accepted
    name, the first accepted email after it and the first accepted phone
    after that. *)
Lemma code_collect_answers (lines : list string) :
  match Code.answers T lines with
  | Some (ud, rest) =>
      exists out,
        Code.collect_user_info T CHATBOT_NAME initial_user_data lines
        = (Returned, {| data := ud; stdin := rest; shown := out |})
  | None =>
      exists c,
        Code.collect_user_info T CHATBOT_NAME initial_user_data lines
        = (Raised_EOFError, c)
        /\ stdin c = [] /\ complete (data c) = false
  end.
Proof.
  unfold Code.answers, Code.collect_user_info. cbv zeta.
  rewrite CodeProfile.code_name_loop_field.
  pose proof (code_field_loop_first name set_name name_prompt
                "Please enter your name." (Code.accept_name T)
                (fun _ _ => eq_refl) code_accept_name_truthy
                lines initial_user_data banner eq_refl) as F1.
  destruct (Code.first_accepted (Code.accept_name T) lines) as [[n l1]|];
    destruct F1 as [out1 ->];
    [|eexists; split; [reflexivity | split; reflexivity]].
  cbn [data stdin shown]. rewrite CodeProfile.code_email_loop_field.
  pose proof (code_field_loop_first email set_email email_prompt
                "Please enter a valid email address." (Code.accept_email T)
                (fun _ _ => eq_refl) code_accept_email_truthy l1
                (set_name initial_user_data n) out1 eq_refl) as F2.
  destruct (Code.first_accepted (Code.accept_email T) l1) as [[e l2]|];
    destruct F2 as [out2 ->].
  2:{ eexists. split; [reflexivity|]. split; [reflexivity|].
      unfold complete. cbn [data name email phone set_name initial_user_data].
      cbn [truthy]. now rewrite andb_false_r. }
  cbn [data stdin shown]. rewrite CodeProfile.code_phone_loop_field.
  pose proof (code_field_loop_first phone set_phone phone_prompt
                "Please enter a valid phone number." (Code.accept_phone T)
                (fun _ _ => eq_refl) code_accept_phone_truthy l2
                (set_email (set_name initial_user_data n) e) out2 eq_refl) as F3.
  destruct (Code.first_accepted (Code.accept_phone T) l2) as [[ph l3]|];
    destruct F3 as [out3 ->].
  - eexists. reflexivity.
  - eexists. split; [reflexivity|]. split; [reflexivity|].
    unfold complete.
    cbn [data name email phone set_name set_email initial_user_data].
    cbn [truthy]. now rewrite andb_false_r.
Qed.

End Routine.

(** [POST /api/initialize] on the empty profile, the agents created: it
    answers 200 exactly when the input holds a line accepted as name, after
    it a line accepted as email and after that a line accepted as phone;
    the profile is then made of the first such answers and the lines after
    the phone are left unread.  Otherwise it answers 500, having read all
    the input, the profile incomplete.  When the agents cannot be created
    it answers 500 and touches nothing.  (The title case of a name that is
    not empty is taken to be not empty.) *)
Theorem initialize_from_nothing (T : Text.ops) (CHATBOT_NAME : string)
    (lines : list string) :
  (forall x, truthy x = true -> truthy (Text.title T x) = true) ->
  match Code.answers T lines with
  | Some (ud, rest) =>
      exists out,
        Code.initialize_chat T CHATBOT_NAME true initial_user_data lines
        = ((200, Status "Chatbot initialized successfully."),
           {| data := ud; stdin := rest; shown := out |})
  | None =>
      exists c,
        Code.initialize_chat T CHATBOT_NAME true initial_user_data lines
        = ((500, InitError "Initialization failed."), c)
        /\ stdin c = [] /\ complete (data c) = false
  end
  /\ Code.initialize_chat T CHATBOT_NAME false initial_user_data lines
     = ((500, InitError "Initialization failed."),
        {| data := initial_user_data; stdin := lines; shown := [] |}).
Proof.
  intros Ht. split; [|reflexivity].
  pose proof (code_collect_answers T CHATBOT_NAME Ht lines) as H.
  unfold Code.initialize_chat.
  destruct (Code.answers T lines) as [[ud rest]|].
  - destruct H as [out ->]. eexists. reflexivity.
  - destruct H as (c & -> & Hs & Hc). exists c. auto.
Qed.

Lemma initialize_from_nothing_witness :
  exists out,
    Code.initialize_chat Text.ascii_text "SkillCapital Assistant" true
      initial_user_data
      [" "; "ada lovelace"; "ada"; "ada@example.org"; "0123456789"; "unread"]
    = ((200, Status "Chatbot initialized successfully."),
       {| data := {| name := "Ada Lovelace"; email := "ada@example.org";
                     phone := "0123456789"; greeted := false |};
          stdin := ["unread"]; shown := out |}).
Proof.
  pose proof (proj1 (initialize_from_nothing Text.ascii_text
                       "SkillCapital Assistant"
                       [" "; "ada lovelace"; "ada"; "ada@example.org";
                        "0123456789"; "unread"]
                       (fun x Hx => eq_trans (truthy_title x) Hx))) as H.
  exact H.
Defined.

End CodeInitialize.
